(** * Bill splitter: fee engine, item ledger and session handlers

    A shallow embedding of [src/main.py] (the Telegram bill splitter bot):
    the bill document, the fee arithmetic ([item_per_person],
    [person_total], [bill_total], [bill_grand_total],
    [person_grand_total], [person_fee_breakdown]) and the command and
    callback handlers as functions from the store and the chat of the
    update to the new store and the reply that is sent.

    Numbers.  The program computes with Python numbers (floats, and the
    integer literals [0], [1], [100]).  The arithmetic is written once over
    an interface [PyNum] and instantiated twice: at binary64 floats
    ([PrimFloat], what the program runs on) and at the rationals [Q]
    (exact arithmetic).  Reading a number from a text, [float(s)], is a
    second interface [PyParse], which only the floats implement.  Python's
    [/] raises [ZeroDivisionError] on a zero divisor; [truediv] returns
    [None] there. *)

From Stdlib Require Import ZArith QArith List Bool String Ascii Lia Lqa.
From Stdlib Require Import Floats Uint63 DecimalString.
Import ListNotations.

Set Implicit Arguments.
Open Scope string_scope.
Open Scope list_scope.

(** ** Numbers *)

Class PyNum (A : Type) : Type := {
  of_Z : Z -> A;                       (* an int used in float arithmetic *)
  add : A -> A -> A;
  sub : A -> A -> A;
  mul : A -> A -> A;
  div : A -> A -> A;                   (* x / y for a divisor that is not 0 *)
  eqb : A -> A -> bool;                (* == *)
  leb : A -> A -> bool;                (* <= *)
  ltb : A -> A -> bool                 (* <  *)
}.

(** [float(s)] for a text typed by a user; [None] is [ValueError]. *)
Class PyParse (A : Type) : Type := {
  of_string : string -> option A
}.

Declare Scope py_scope.
Delimit Scope py_scope with py.
Infix "+" := add : py_scope.
Infix "-" := sub : py_scope.
Infix "*" := mul : py_scope.
Infix "/" := div : py_scope.

Section Arith.
Context {A : Type} `{PyNum A}.

Definition zero : A := of_Z 0.
Definition one : A := of_Z 1.
Definition hundred : A := of_Z 100.

(** [bool(x)] of a number: false exactly when [x == 0]. *)
Definition truthy (x : A) : bool := negb (eqb x zero).

(** [x / y]: Python raises [ZeroDivisionError] when [y == 0]. *)
Definition truediv (x y : A) : option A :=
  if eqb y zero then None else Some (x / y)%py.

(** [x / n] for an int [n]: the int is converted, and a non-zero int
    converts to a non-zero number. *)
Definition truediv_int (x : A) (n : nat) : option A :=
  match n with
  | O => None
  | S _ => Some (x / of_Z (Z.of_nat n))%py
  end.

(** [v or 0] for a field that holds a number or [None]. *)
Definition or0 (v : option A) : A :=
  match v with
  | Some x => if truthy x then x else zero
  | None => zero
  end.

(** [sum(xs)]: left to right from the int [0].  (On floats, CPython from
    3.12 on adds with a compensation term; the float examples below only
    add numbers whose sum is exact, where both give the same result.) *)
Definition py_sum (xs : list A) : A := fold_left add xs zero.
End Arith.

(** *** Number literals

    [float(s)] on the literals modelled here: an optional sign, then
    [inf], [infinity] or [nan] in any case, or decimal digits with an
    optional point.  Exponents, underscores and surrounding whitespace are
    not modelled (the model answers [None] there); nothing proved for
    every number type depends on this function. *)

Fixpoint digits_value (s : list ascii) (acc : Z) : option Z :=
  match s with
  | [] => Some acc
  | c :: r =>
      let n := Z.of_nat (nat_of_ascii c) in
      if ((48 <=? n) && (n <=? 57))%Z
      then digits_value r (10 * acc + (n - 48))%Z
      else None
  end.

(** The text before the first point and, when there is one, after it. *)
Fixpoint split_point (s : list ascii) : list ascii * option (list ascii) :=
  match s with
  | [] => ([], None)
  | c :: r =>
      if Ascii.eqb c "."%char then ([], Some r)
      else let (i, f) := split_point r in (c :: i, f)
  end.

(** Digits with an optional point: the digits as one integer, and how
    many of them follow the point. *)
Definition parse_decimal (s : list ascii) : option (Z * nat) :=
  let (i, f) := split_point s in
  let frac := match f with Some d => d | None => [] end in
  match i ++ frac with
  | [] => None
  | ds => match digits_value ds 0 with
          | Some m => Some (m, List.length frac)
          | None => None
          end
  end.

Definition split_sign (s : list ascii) : bool * list ascii :=
  match s with
  | c :: r =>
      if Ascii.eqb c "-"%char then (true, r)
      else if Ascii.eqb c "+"%char then (false, r)
      else (false, s)
  | [] => (false, [])
  end.

Definition ascii_lower (c : ascii) : ascii :=
  let n := nat_of_ascii c in
  if ((65 <=? n) && (n <=? 90))%nat then ascii_of_nat (n + 32) else c.

(** *** Binary64 floats *)

(** An int below 2^63 in absolute value, as a float. *)
Definition float_of_Z (z : Z) : float :=
  match z with
  | Zneg p => PrimFloat.opp (PrimFloat.of_uint63 (Uint63.of_Z (Zpos p)))
  | _ => PrimFloat.of_uint63 (Uint63.of_Z z)
  end.

(** A decimal with fewer than 2^53 in its digits and at most 18 digits
    after the point is the correctly rounded quotient of two exact floats;
    longer literals are outside the model. *)
Definition float_of_string (s : string) : option float :=
  let (neg, body) := split_sign (list_ascii_of_string s) in
  let sign := fun x : float => if neg then PrimFloat.opp x else x in
  let word := string_of_list_ascii (map ascii_lower body) in
  if String.eqb word "inf" || String.eqb word "infinity"
  then Some (sign PrimFloat.infinity)
  else if String.eqb word "nan" then Some PrimFloat.nan
  else match parse_decimal body with
       | Some (m, k) =>
           if ((m <? 9007199254740992)%Z && (k <=? 18)%nat)%bool
           then Some (sign (PrimFloat.div (float_of_Z m)
                                          (float_of_Z (10 ^ Z.of_nat k))))
           else None
       | None => None
       end.

#[export] Instance PyNum_float : PyNum float := {|
  of_Z := float_of_Z;
  add := PrimFloat.add;
  sub := PrimFloat.sub;
  mul := PrimFloat.mul;
  div := PrimFloat.div;
  eqb := PrimFloat.eqb;
  leb := PrimFloat.leb;
  ltb := PrimFloat.ltb
|}.

#[export] Instance PyParse_float : PyParse float := {|
  of_string := float_of_string
|}.

(** *** Exact rationals

    The rationals carry the arithmetic of the fee functions only.  They
    have no infinity and no NaN, which [float] reads from a text, so there
    is no parser for them: the handlers that parse run on floats. *)

#[export] Instance PyNum_Q : PyNum Q := {|
  of_Z := inject_Z;
  add := Qplus;
  sub := Qminus;
  mul := Qmult;
  div := Qdiv;
  eqb := Qeq_bool;
  leb := Qle_bool;
  ltb := fun x y => negb (Qle_bool y x)
|}.

(** ** Strings

    A Python [str] is a [string]; the text operations work on its list of
    characters.  Whitespace is the ASCII part of [str.isspace]. *)

Definition is_space (c : ascii) : bool :=
  let n := nat_of_ascii c in
  ((9 <=? n) && (n <=? 13) || (28 <=? n) && (n <=? 32))%nat.

Fixpoint dropwhile (p : ascii -> bool) (s : list ascii) : list ascii :=
  match s with
  | [] => []
  | c :: r => if p c then dropwhile p r else s
  end.

Fixpoint takewhile (p : ascii -> bool) (s : list ascii) : list ascii :=
  match s with
  | [] => []
  | c :: r => if p c then c :: takewhile p r else []
  end.

Definition non_space (c : ascii) : bool := negb (is_space c).

(** [s.strip()] *)
Definition strip_chars (s : list ascii) : list ascii :=
  rev (dropwhile is_space (rev (dropwhile is_space s))).

Definition strip (s : string) : string :=
  string_of_list_ascii (strip_chars (list_ascii_of_string s)).

(** [s.rsplit(None, 1)]: the last whitespace-separated word and, when
    something other than whitespace precedes it, what precedes it with
    its trailing whitespace removed. *)
Definition rsplit1_chars (s : list ascii) : list (list ascii) :=
  let r := dropwhile is_space (rev s) in
  match r with
  | [] => []
  | _ =>
      let word := rev (takewhile non_space r) in
      match dropwhile is_space (dropwhile non_space r) with
      | [] => [word]
      | rest => [rev rest; word]
      end
  end.

Definition rsplit1 (s : string) : list string :=
  map string_of_list_ascii (rsplit1_chars (list_ascii_of_string s)).

(** [s.split()]: the whitespace-separated words. *)
Fixpoint split_chars (cur : list ascii) (s : list ascii) : list (list ascii) :=
  match s with
  | [] => match cur with [] => [] | _ => [rev cur] end
  | c :: r =>
      if is_space c
      then match cur with [] => split_chars [] r | _ => rev cur :: split_chars [] r end
      else split_chars (c :: cur) r
  end.

Definition split (s : string) : list string :=
  map string_of_list_ascii (split_chars [] (list_ascii_of_string s)).

(** [s.lower()] on ASCII letters. *)
Definition lower (s : string) : string :=
  string_of_list_ascii (map ascii_lower (list_ascii_of_string s)).

(** [s.replace(",", "")] *)
Definition remove_commas (s : string) : string :=
  string_of_list_ascii
    (filter (fun c => negb (Ascii.eqb c ","%char)) (list_ascii_of_string s)).

(** Truth value of a [str]: false exactly for the empty string. *)
Definition nonempty (s : string) : bool :=
  match s with EmptyString => false | _ => true end.

(** ** The bill document

    A bill is the MongoDB document of [new_bill_doc].  The keys of
    ["members"] are [str(user.id)]; [str] and [int] are mutually inverse on
    integers, so the keys are kept as the integers themselves and
    [str(claim["user_id"]) == uid_str] is integer equality.  The dict keeps
    insertion order: an association list. *)

Record Claim : Type := {
  user_id : Z;
  claim_name : string                 (* claim["name"] *)
}.

Record Item (A : Type) : Type := {
  id : Z;
  name : string;
  price : A;
  claimed_by : list Claim
}.

Record Bill (A : Type) : Type := {
  _id : Z;                            (* assigned by insert_one *)
  chat_id : Z;
  creator_id : Z;
  creator_name : string;
  currency : option string;
  jpy_to_thb_rate : option A;
  service_charge_pct : option A;
  vat_pct : option A;
  fees_mode : option string;
  items : list (Item A);
  members : list (Z * string);
  next_item_id : Z;
  created_at : Z;
  is_finalized : bool;
  finalized_at : option Z;
  awaiting_photo : bool;
  awaiting_manual_rate : bool;
  awaiting_fees : bool
}.

(** The Telegram user of an update: its id and [get_display_name(user)]. *)
Record User : Type := {
  uid : Z;
  display_name : string
}.

Section FeeEngine.
Context {A : Type} `{PyNum A}.

Definition new_bill_doc (chat creator : Z) (cname : string) (now : Z) : Bill A :=
  {| _id := 0; chat_id := chat; creator_id := creator; creator_name := cname;
     currency := None; jpy_to_thb_rate := None;
     service_charge_pct := None; vat_pct := None; fees_mode := None;
     items := []; members := [(creator, cname)]; next_item_id := 1;
     created_at := now; is_finalized := false; finalized_at := None;
     awaiting_photo := false; awaiting_manual_rate := false;
     awaiting_fees := false |}.

(** Assignments to one key of the document. *)
Definition set_items (b : Bill A) (l : list (Item A)) : Bill A :=
  {| _id := _id b; chat_id := chat_id b; creator_id := creator_id b; creator_name := creator_name b;
     currency := currency b; jpy_to_thb_rate := jpy_to_thb_rate b;
     service_charge_pct := service_charge_pct b; vat_pct := vat_pct b;
     fees_mode := fees_mode b;
     items := l; members := members b; next_item_id := next_item_id b;
     created_at := created_at b; is_finalized := is_finalized b;
     finalized_at := finalized_at b;
     awaiting_photo := awaiting_photo b;
     awaiting_manual_rate := awaiting_manual_rate b;
     awaiting_fees := awaiting_fees b |}.

Definition set_members (b : Bill A) (m : list (Z * string)) : Bill A :=
  {| _id := _id b; chat_id := chat_id b; creator_id := creator_id b; creator_name := creator_name b;
     currency := currency b; jpy_to_thb_rate := jpy_to_thb_rate b;
     service_charge_pct := service_charge_pct b; vat_pct := vat_pct b;
     fees_mode := fees_mode b;
     items := items b; members := m; next_item_id := next_item_id b;
     created_at := created_at b; is_finalized := is_finalized b;
     finalized_at := finalized_at b;
     awaiting_photo := awaiting_photo b;
     awaiting_manual_rate := awaiting_manual_rate b;
     awaiting_fees := awaiting_fees b |}.

Definition set_next_item_id (b : Bill A) (n : Z) : Bill A :=
  {| _id := _id b; chat_id := chat_id b; creator_id := creator_id b; creator_name := creator_name b;
     currency := currency b; jpy_to_thb_rate := jpy_to_thb_rate b;
     service_charge_pct := service_charge_pct b; vat_pct := vat_pct b;
     fees_mode := fees_mode b;
     items := items b; members := members b; next_item_id := n;
     created_at := created_at b; is_finalized := is_finalized b;
     finalized_at := finalized_at b;
     awaiting_photo := awaiting_photo b;
     awaiting_manual_rate := awaiting_manual_rate b;
     awaiting_fees := awaiting_fees b |}.

Definition set_currency (b : Bill A) (c : option string) : Bill A :=
  {| _id := _id b; chat_id := chat_id b; creator_id := creator_id b; creator_name := creator_name b;
     currency := c; jpy_to_thb_rate := jpy_to_thb_rate b;
     service_charge_pct := service_charge_pct b; vat_pct := vat_pct b;
     fees_mode := fees_mode b;
     items := items b; members := members b; next_item_id := next_item_id b;
     created_at := created_at b; is_finalized := is_finalized b;
     finalized_at := finalized_at b;
     awaiting_photo := awaiting_photo b;
     awaiting_manual_rate := awaiting_manual_rate b;
     awaiting_fees := awaiting_fees b |}.

Definition set_rate (b : Bill A) (r : option A) : Bill A :=
  {| _id := _id b; chat_id := chat_id b; creator_id := creator_id b; creator_name := creator_name b;
     currency := currency b; jpy_to_thb_rate := r;
     service_charge_pct := service_charge_pct b; vat_pct := vat_pct b;
     fees_mode := fees_mode b;
     items := items b; members := members b; next_item_id := next_item_id b;
     created_at := created_at b; is_finalized := is_finalized b;
     finalized_at := finalized_at b;
     awaiting_photo := awaiting_photo b;
     awaiting_manual_rate := awaiting_manual_rate b;
     awaiting_fees := awaiting_fees b |}.

(** The four assignments of a fee setting:
    [service_charge_pct], [vat_pct], [fees_mode], [awaiting_fees = False]. *)
Definition set_fees (b : Bill A) (sc vat : A) (mode : option string) : Bill A :=
  {| _id := _id b; chat_id := chat_id b; creator_id := creator_id b; creator_name := creator_name b;
     currency := currency b; jpy_to_thb_rate := jpy_to_thb_rate b;
     service_charge_pct := Some sc; vat_pct := Some vat;
     fees_mode := mode;
     items := items b; members := members b; next_item_id := next_item_id b;
     created_at := created_at b; is_finalized := is_finalized b;
     finalized_at := finalized_at b;
     awaiting_photo := awaiting_photo b;
     awaiting_manual_rate := awaiting_manual_rate b;
     awaiting_fees := false |}.

Definition set_finalized (b : Bill A) (now : Z) : Bill A :=
  {| _id := _id b; chat_id := chat_id b; creator_id := creator_id b; creator_name := creator_name b;
     currency := currency b; jpy_to_thb_rate := jpy_to_thb_rate b;
     service_charge_pct := service_charge_pct b; vat_pct := vat_pct b;
     fees_mode := fees_mode b;
     items := items b; members := members b; next_item_id := next_item_id b;
     created_at := created_at b; is_finalized := true;
     finalized_at := Some now;
     awaiting_photo := awaiting_photo b;
     awaiting_manual_rate := awaiting_manual_rate b;
     awaiting_fees := awaiting_fees b |}.

Definition set_awaiting (b : Bill A) (photo rate fees : bool) : Bill A :=
  {| _id := _id b; chat_id := chat_id b; creator_id := creator_id b; creator_name := creator_name b;
     currency := currency b; jpy_to_thb_rate := jpy_to_thb_rate b;
     service_charge_pct := service_charge_pct b; vat_pct := vat_pct b;
     fees_mode := fees_mode b;
     items := items b; members := members b; next_item_id := next_item_id b;
     created_at := created_at b; is_finalized := is_finalized b;
     finalized_at := finalized_at b;
     awaiting_photo := photo;
     awaiting_manual_rate := rate;
     awaiting_fees := fees |}.

(** *** Ledger helpers *)

(** [get_item]: the first item with the id. *)
Fixpoint get_item_in (l : list (Item A)) (item_id : Z) : option (Item A) :=
  match l with
  | [] => None
  | it :: r => if (id it =? item_id)%Z then Some it else get_item_in r item_id
  end.

Definition get_item (b : Bill A) (item_id : Z) : option (Item A) :=
  get_item_in (items b) item_id.

(** [any(str(c["user_id"]) == uid_str for c in claims)] *)
Definition claims_has (u : Z) (cs : list Claim) : bool :=
  existsb (fun c => (user_id c =? u)%Z) cs.

(** [[c for c in claims if str(c["user_id"]) != uid_str]] *)
Definition claims_without (u : Z) (cs : list Claim) : list Claim :=
  filter (fun c => negb (user_id c =? u)%Z) cs.

Definition set_claimed_by (it : Item A) (cs : list Claim) : Item A :=
  {| id := id it; name := name it; price := price it; claimed_by := cs |}.

(** [get_item] returns the item object that lives in [bill["items"]]:
    an assignment to its ["claimed_by"] changes the bill in place, at the
    first item with the id. *)
Fixpoint update_claims_in (l : list (Item A)) (item_id : Z)
  (f : list Claim -> list Claim) : list (Item A) :=
  match l with
  | [] => []
  | it :: r =>
      if (id it =? item_id)%Z
      then set_claimed_by it (f (claimed_by it)) :: r
      else it :: update_claims_in r item_id f
  end.

Definition update_claims (b : Bill A) (item_id : Z)
  (f : list Claim -> list Claim) : Bill A :=
  set_items b (update_claims_in (items b) item_id f).

(** [uid_str in bill["members"]] *)
Definition is_member (u : Z) (ms : list (Z * string)) : bool :=
  existsb (fun m => (fst m =? u)%Z) ms.

(** *** Fee arithmetic *)

Definition item_per_person (item : Item A) : option A :=
  let n := List.length (claimed_by item) in
  if (0 <? n)%nat then truediv_int (price item) n else Some (price item).

(** The loop of [person_total]: one step per item; [break] after the
    first claim of the user. *)
Definition person_total_step (u : Z) (total : option A) (item : Item A) : option A :=
  match total with
  | None => None
  | Some t =>
      if claims_has u (claimed_by item)
      then match item_per_person item with
           | Some s => Some (t + s)%py
           | None => None
           end
      else Some t
  end.

Definition person_total (b : Bill A) (u : Z) : option A :=
  fold_left (person_total_step u) (items b) (Some zero).

Definition bill_total (b : Bill A) : A :=
  py_sum (map (@price A) (items b)).

Definition mode_is (m : option string) (s : string) : bool :=
  match m with
  | Some x => String.eqb x s
  | None => false
  end.

Definition bill_grand_total (b : Bill A) : A :=
  let subtotal := bill_total b in
  let sc_pct := or0 (service_charge_pct b) in
  let vat_pct := or0 (vat_pct b) in
  let mode := fees_mode b in
  if mode_is mode "both_inclusive" then subtotal
  else if mode_is mode "sc_exclusive_vat_inclusive"
  then (subtotal * (one + sc_pct / hundred))%py
  else if mode_is mode "both_exclusive"
  then let after_sc := (subtotal * (one + sc_pct / hundred))%py in
       (after_sc * (one + vat_pct / hundred))%py
  else subtotal.

Definition person_grand_total (b : Bill A) (u : Z) : option A :=
  let subtotal := bill_total b in
  if eqb subtotal zero then Some zero
  else match person_total b u with
       | None => None
       | Some p_subtotal =>
           match truediv p_subtotal subtotal with
           | None => None
           | Some ratio => Some (bill_grand_total b * ratio)%py
           end
       end.

(** [(item_subtotal, sc_amount, vat_amount, total)] *)
Definition person_fee_breakdown (b : Bill A) (u : Z) : option (A * A * A * A) :=
  let subtotal := bill_total b in
  if eqb subtotal zero then Some (zero, zero, zero, zero)
  else match person_total b u with
  | None => None
  | Some p_sub =>
    let sc_pct := or0 (service_charge_pct b) in
    let vat_pct := or0 (vat_pct b) in
    let mode := fees_mode b in
    if mode_is mode "both_inclusive" then
      let divisor := ((one + sc_pct / hundred) * (one + vat_pct / hundred))%py in
      match (if truthy divisor then truediv p_sub divisor else Some p_sub) with
      | None => None
      | Some base =>
          let sc_amt := (base * sc_pct / hundred)%py in
          let vat_amt := ((base + sc_amt) * vat_pct / hundred)%py in
          Some (p_sub, sc_amt, vat_amt, p_sub)
      end
    else if mode_is mode "sc_exclusive_vat_inclusive" then
      let total := (p_sub * (one + sc_pct / hundred))%py in
      let sc_amt := (p_sub * sc_pct / hundred)%py in
      match (if truthy vat_pct
             then truediv total (one + vat_pct / hundred)%py
             else Some total) with
      | None => None
      | Some before_vat =>
          let vat_amt := (total - before_vat)%py in
          Some (p_sub, sc_amt, vat_amt, total)
      end
    else if mode_is mode "both_exclusive" then
      let sc_amt := (p_sub * sc_pct / hundred)%py in
      let vat_amt := ((p_sub + sc_amt) * vat_pct / hundred)%py in
      let total := (p_sub + sc_amt + vat_amt)%py in
      Some (p_sub, sc_amt, vat_amt, total)
    else Some (p_sub, zero, zero, p_sub)
  end.

End FeeEngine.

(** ** The store and the handlers

    [bills_col]: the bill documents of all chats and the next fresh
    [_id].  Every handler starts from [update.effective_chat.id].
    A handler loads the active bill, changes its own copy and writes it
    back with [save_bill]; a handler that returns before [save_bill]
    leaves the store as it was.

    Command arguments are what the handler's regular expression captured
    ([None] when it does not match); a callback is the branch its data
    selects, with the fields the handler reads out of it. *)

Record Store (A : Type) : Type := {
  docs : list (Bill A);
  next_doc_id : Z
}.

Inductive Reply (A : Type) : Type :=
| NoActiveBill                         (* "No active bill." *)
| AlreadyActive                        (* /newbill while a bill is active *)
| NewBillStarted
| AlreadyIn                            (* /join twice *)
| Joined
| Usage                                (* a usage message *)
| ProvideBoth                          (* "Provide both name and price." *)
| InvalidPrice                         (* "Invalid price." *)
| Added (item : Item A)
| NoItemsYet
| ItemsList
| NeedJoin
| ItemNotFound
| AlreadyPicked
| Picked
| Removed
| OnlyCreator
| NotJoined                            (* "... hasn't joined yet." *)
| AlreadyHas                           (* "... already has item #n." *)
| Assigned
| Cleared (count : nat)
| NoPicks
| CurrentFees
| PickMode
| FeesSet
| NoItemsInBill                        (* "No items in the bill yet!" *)
| Summary (b : Bill A)                 (* format_summary(bill) *)
| Cancelled
| NoPastBills                          (* "No past bills found." *)
| History                              (* the list of recent bills *)
| CurrencySet
| RateFetched
| AskManualRate
| SendPhoto
| HowToAdd
| FeesConfirmed
| NoFees
| Unpicked                             (* pick button, claim removed *)
| PickedButton                         (* pick button, claim added *)
| ExtractionFailed
| Extracted
| RateSet
| InvalidNumber
| Silent.                              (* the handler returns without a message *)

Arguments NoActiveBill {A}. Arguments AlreadyActive {A}.
Arguments NewBillStarted {A}. Arguments AlreadyIn {A}. Arguments Joined {A}.
Arguments Usage {A}. Arguments ProvideBoth {A}. Arguments InvalidPrice {A}.
Arguments NoItemsYet {A}. Arguments ItemsList {A}. Arguments NeedJoin {A}.
Arguments ItemNotFound {A}. Arguments AlreadyPicked {A}. Arguments Picked {A}.
Arguments Removed {A}. Arguments OnlyCreator {A}. Arguments NotJoined {A}.
Arguments AlreadyHas {A}. Arguments Assigned {A}. Arguments Cleared {A}.
Arguments NoPicks {A}. Arguments CurrentFees {A}. Arguments PickMode {A}.
Arguments FeesSet {A}. Arguments NoItemsInBill {A}. Arguments Cancelled {A}.
Arguments NoPastBills {A}. Arguments History {A}.
Arguments CurrencySet {A}. Arguments RateFetched {A}.
Arguments AskManualRate {A}. Arguments SendPhoto {A}. Arguments HowToAdd {A}.
Arguments FeesConfirmed {A}. Arguments NoFees {A}. Arguments Unpicked {A}.
Arguments PickedButton {A}. Arguments ExtractionFailed {A}.
Arguments Extracted {A}. Arguments RateSet {A}. Arguments InvalidNumber {A}.
Arguments Silent {A}.

(** The branches of [callback_handler], in the order of its tests. *)
Inductive Callback (A : Type) : Type :=
| CbCurrency (c : string)              (* "currency:" ++ c *)
| CbRateAuto (fetched : option A)      (* "rate:auto", with what the lookup returned *)
| CbRateManual
| CbInputPhoto
| CbInputManual
| CbFeesConfirm (sc vat : A) (mode : string)
| CbFeesPickmode (sc vat : A)
| CbFeesEdit
| CbFeesNone
| CbPick (item_id : Z)
| CbFinalize
| CbOther.                             (* no branch matches *)

Arguments CbCurrency {A}. Arguments CbRateManual {A}.
Arguments CbInputPhoto {A}. Arguments CbInputManual {A}.
Arguments CbFeesEdit {A}. Arguments CbFeesNone {A}. Arguments CbPick {A}.
Arguments CbFinalize {A}. Arguments CbOther {A}.

Section Handlers.
Context {A : Type} `{PyNum A} `{PyParse A}.

(** [find_one({"chat_id": chat_id, "is_finalized": False})] *)
Definition get_active_bill (st : Store A) (chat : Z) : option (Bill A) :=
  find (fun d => (chat_id d =? chat)%Z && negb (is_finalized d)) (docs st).

(** [replace_one({"_id": bill["_id"]}, bill)] *)
Definition save_bill (st : Store A) (b : Bill A) : Store A :=
  {| docs := map (fun d => if (_id d =? _id b)%Z then b else d) (docs st);
     next_doc_id := next_doc_id st |}.

(** [insert_one(bill)]: the document gets a fresh [_id]. *)
Definition set_id (b : Bill A) (i : Z) : Bill A :=
  {| _id := i; chat_id := chat_id b; creator_id := creator_id b;
     creator_name := creator_name b;
     currency := currency b; jpy_to_thb_rate := jpy_to_thb_rate b;
     service_charge_pct := service_charge_pct b; vat_pct := vat_pct b;
     fees_mode := fees_mode b;
     items := items b; members := members b; next_item_id := next_item_id b;
     created_at := created_at b; is_finalized := is_finalized b;
     finalized_at := finalized_at b;
     awaiting_photo := awaiting_photo b;
     awaiting_manual_rate := awaiting_manual_rate b;
     awaiting_fees := awaiting_fees b |}.

Definition insert_one (st : Store A) (b : Bill A) : Store A :=
  {| docs := docs st ++ [set_id b (next_doc_id st)];
     next_doc_id := next_doc_id st + 1 |}.

(** [delete_one({"_id": bill["_id"]})] *)
Definition delete_one (st : Store A) (b : Bill A) : Store A :=
  {| docs := filter (fun d => negb (_id d =? _id b)%Z) (docs st);
     next_doc_id := next_doc_id st |}.

(** [add_item_to_bill] without its [save_bill]. *)
Definition add_item_to_bill (b : Bill A) (nm : string) (p : A) : Bill A * Item A :=
  let item := {| id := next_item_id b; name := nm; price := p; claimed_by := [] |} in
  (set_next_item_id (set_items b (items b ++ [item])) (next_item_id b + 1), item).

Definition cmd_newbill (st : Store A) (chat : Z) (user : User) (now : Z)
  : Store A * Reply A :=
  match get_active_bill st chat with
  | Some _ => (st, AlreadyActive)
  | None =>
      (insert_one st (new_bill_doc chat (uid user) (display_name user) now),
       NewBillStarted)
  end.

Definition cmd_join (st : Store A) (chat : Z) (user : User) : Store A * Reply A :=
  match get_active_bill st chat with
  | None => (st, NoActiveBill)
  | Some bill =>
      if is_member (uid user) (members bill) then (st, AlreadyIn)
      else (save_bill st
              (set_members bill (members bill ++ [(uid user, display_name user)])),
            Joined)
  end.

(** [text] is the message without the [/additem] prefix. *)
Definition cmd_additem (st : Store A) (chat : Z) (text : string) : Store A * Reply A :=
  match get_active_bill st chat with
  | None => (st, NoActiveBill)
  | Some bill =>
      if negb (nonempty text) then (st, Usage)
      else match rsplit1 text with
      | [part0; part1] =>
          let nm := strip part0 in
          match of_string (remove_commas part1) with
          | None => (st, InvalidPrice)
          | Some p =>
              if leb p zero then (st, InvalidPrice)
              else let (bill', item) := add_item_to_bill bill nm p in
                   (save_bill st bill', Added item)
          end
      | _ => (st, ProvideBoth)
      end
  end.

Definition cmd_items (st : Store A) (chat : Z) : Store A * Reply A :=
  match get_active_bill st chat with
  | None => (st, NoActiveBill)
  | Some bill =>
      match items bill with
      | [] => (st, NoItemsYet)
      | _ => (st, ItemsList)
      end
  end.

Definition cmd_pick (st : Store A) (chat : Z) (user : User) (arg : option Z)
  : Store A * Reply A :=
  match get_active_bill st chat with
  | None => (st, NoActiveBill)
  | Some bill =>
      if negb (is_member (uid user) (members bill)) then (st, NeedJoin)
      else match arg with
      | None => (st, Usage)
      | Some n =>
          match get_item bill n with
          | None => (st, ItemNotFound)
          | Some item =>
              if claims_has (uid user) (claimed_by item) then (st, AlreadyPicked)
              else
                (save_bill st
                   (update_claims bill n (fun cs =>
                      cs ++ [{| user_id := uid user;
                                claim_name := display_name user |}])),
                 Picked)
          end
      end
  end.

Definition cmd_unpick (st : Store A) (chat : Z) (user : User) (arg : option Z)
  : Store A * Reply A :=
  match get_active_bill st chat with
  | None => (st, NoActiveBill)
  | Some bill =>
      match arg with
      | None => (st, Usage)
      | Some n =>
          match get_item bill n with
          | None => (st, ItemNotFound)
          | Some item =>
              (save_bill st (update_claims bill n (claims_without (uid user))),
               Removed)
          end
      end
  end.

(** The loop of [cmd_assign] over [bill["members"].items()]: the first
    member whose name, lowered, is ["@" + target_username], lowered. *)
Fixpoint find_member_by_name (ms : list (Z * string)) (target_username : string)
  : option (Z * string) :=
  match ms with
  | [] => None
  | (u, nm) :: r =>
      if String.eqb (lower nm) (lower (String "@"%char target_username))
      then Some (u, nm)
      else find_member_by_name r target_username
  end.

Definition cmd_assign (st : Store A) (chat : Z) (user : User) (arg : option (Z * string))
  : Store A * Reply A :=
  match get_active_bill st chat with
  | None => (st, NoActiveBill)
  | Some bill =>
      if negb (uid user =? creator_id bill)%Z then (st, OnlyCreator)
      else match arg with
      | None => (st, Usage)
      | Some (n, target_username) =>
          match get_item bill n with
          | None => (st, ItemNotFound)
          | Some item =>
              match find_member_by_name (members bill) target_username with
              | None => (st, NotJoined)
              | Some (target_uid, target_name) =>
                  if claims_has target_uid (claimed_by item) then (st, AlreadyHas)
                  else
                    (save_bill st
                       (update_claims bill n (fun cs =>
                          cs ++ [{| user_id := target_uid;
                                    claim_name := target_name |}])),
                     Assigned)
              end
          end
      end
  end.

Definition cmd_resetpicks (st : Store A) (chat : Z) (user : User) : Store A * Reply A :=
  match get_active_bill st chat with
  | None => (st, NoActiveBill)
  | Some bill =>
      let count :=
        fold_left (fun n it =>
          (n + (List.length (claimed_by it)
                - List.length (claims_without (uid user) (claimed_by it))))%nat)
          (items bill) 0%nat in
      let bill' :=
        set_items bill
          (map (fun it => set_claimed_by it (claims_without (uid user) (claimed_by it)))
               (items bill)) in
      (save_bill st bill', if (0 <? count)%nat then Cleared count else NoPicks)
  end.

(** [mode_map.get(flag)] of [cmd_setfees]. *)
Definition mode_map (flag : string) : option string :=
  if String.eqb flag "both_inc" then Some "both_inclusive"
  else if String.eqb flag "both_inclusive" then Some "both_inclusive"
  else if String.eqb flag "inclusive" then Some "both_inclusive"
  else if String.eqb flag "inc" then Some "both_inclusive"
  else if String.eqb flag "sc_exc" then Some "sc_exclusive_vat_inclusive"
  else if String.eqb flag "sc_exclusive_vat_inclusive" then Some "sc_exclusive_vat_inclusive"
  else if String.eqb flag "sc_exclusive" then Some "sc_exclusive_vat_inclusive"
  else if String.eqb flag "both_exc" then Some "both_exclusive"
  else if String.eqb flag "both_exclusive" then Some "both_exclusive"
  else if String.eqb flag "exclusive" then Some "both_exclusive"
  else if String.eqb flag "exc" then Some "both_exclusive"
  else None.

(** The [try] block of [cmd_setfees]: [None] is the caught
    [ValueError] or [IndexError]. *)
Definition parse_fees (parts : list string) : option (A * A) :=
  match parts with
  | [] => None
  | p0 :: rest =>
      match of_string p0 with
      | None => None
      | Some sc =>
          match (match rest with
                 | [] => Some zero
                 | p1 :: _ => of_string p1
                 end) with
          | None => None
          | Some vat =>
              if ltb sc zero || ltb vat zero then None else Some (sc, vat)
          end
      end
  end.

(** [text] is the message without the [/setfees] prefix. *)
Definition cmd_setfees (st : Store A) (chat : Z) (text : string) : Store A * Reply A :=
  match get_active_bill st chat with
  | None => (st, NoActiveBill)
  | Some bill =>
      if negb (nonempty text) then (st, CurrentFees)
      else
        let parts := split text in
        match parse_fees parts with
        | None => (st, Usage)
        | Some (sc, vat) =>
            let fees_mode :=
              match parts with
              | _ :: _ :: flag :: _ => mode_map (lower flag)
              | _ => None
              end in
            let some_fee := ltb zero sc || ltb zero vat in
            if (match fees_mode with None => true | Some _ => false end) && some_fee
            then (st, PickMode)
            else (save_bill st
                    (set_fees bill sc vat (if some_fee then fees_mode else None)),
                  FeesSet)
        end
  end.

Definition cmd_done (st : Store A) (chat : Z) (now : Z) : Store A * Reply A :=
  match get_active_bill st chat with
  | None => (st, NoActiveBill)
  | Some bill =>
      match items bill with
      | [] => (st, NoItemsInBill)
      | _ =>
          let bill' := set_finalized bill now in
          (save_bill st bill', Summary bill')
      end
  end.

Definition cmd_cancel (st : Store A) (chat : Z) (user : User) : Store A * Reply A :=
  match get_active_bill st chat with
  | None => (st, NoActiveBill)
  | Some bill =>
      if negb (uid user =? creator_id bill)%Z then (st, OnlyCreator)
      else (delete_one st bill, Cancelled)
  end.

(** The reply lists the chat's most recent finalized bills; only whether
    there is one is kept. *)
Definition cmd_history (st : Store A) (chat : Z) : Store A * Reply A :=
  match filter (fun d => (chat_id d =? chat)%Z && is_finalized d) (docs st) with
  | [] => (st, NoPastBills)
  | _ => (st, History)
  end.

Definition callback_handler (st : Store A) (chat : Z) (user : User) (data : Callback A)
  (now : Z) : Store A * Reply A :=
  match get_active_bill st chat with
  | None => (st, NoActiveBill)
  | Some bill =>
      match data with
      | CbCurrency c =>
          if negb (uid user =? creator_id bill)%Z then (st, OnlyCreator)
          else (save_bill st (set_currency bill (Some c)), CurrencySet)
      | CbRateAuto fetched =>
          match fetched with
          | Some rate =>
              if truthy rate
              then (save_bill st (set_rate bill (Some rate)), RateFetched)
              else (save_bill st
                      (set_awaiting bill (awaiting_photo bill) true (awaiting_fees bill)),
                    AskManualRate)
          | None =>
              (save_bill st
                 (set_awaiting bill (awaiting_photo bill) true (awaiting_fees bill)),
               AskManualRate)
          end
      | CbRateManual =>
          (save_bill st
             (set_awaiting bill (awaiting_photo bill) true (awaiting_fees bill)),
           AskManualRate)
      | CbInputPhoto =>
          (save_bill st
             (set_awaiting bill true (awaiting_manual_rate bill) (awaiting_fees bill)),
           SendPhoto)
      | CbInputManual => (st, HowToAdd)
      | CbFeesConfirm sc vat mode =>
          (save_bill st (set_fees bill sc vat (Some mode)), FeesConfirmed)
      | CbFeesPickmode _ _ => (st, PickMode)
      | CbFeesEdit =>
          (save_bill st
             (set_awaiting bill (awaiting_photo bill) (awaiting_manual_rate bill) true),
           Usage)
      | CbFeesNone =>
          (save_bill st (set_fees bill zero zero None), NoFees)
      | CbPick item_id =>
          match get_item bill item_id with
          | None => (st, ItemNotFound)
          | Some item =>
              let bill1 :=
                if negb (is_member (uid user) (members bill))
                then set_members bill (members bill ++ [(uid user, display_name user)])
                else bill in
              let already := claims_has (uid user) (claimed_by item) in
              if already
              then (save_bill st
                      (update_claims bill1 item_id (claims_without (uid user))),
                    Unpicked)
              else (save_bill st
                      (update_claims bill1 item_id (fun cs =>
                         cs ++ [{| user_id := uid user;
                                   claim_name := display_name user |}])),
                    PickedButton)
          end
      | CbFinalize =>
          match items bill with
          | [] => (st, NoItemsInBill)
          | _ =>
              let bill' := set_finalized bill now in
              (save_bill st bill', Summary bill')
          end
      | CbOther => (st, Silent)
      end
  end.



(** [extracted] is the item list [parse_receipt_ocr] returned; the fees it
    detected only choose the keyboard that is shown. *)
Definition photo_handler (st : Store A) (chat : Z) (extracted : list (string * A))
  : Store A * Reply A :=
  match get_active_bill st chat with
  | None => (st, Silent)
  | Some bill =>
      let bill0 :=
        set_awaiting bill false (awaiting_manual_rate bill) (awaiting_fees bill) in
      match extracted with
      | [] => (save_bill st bill0, ExtractionFailed)
      | _ =>
          (save_bill st
             (fold_left (fun b e => fst (add_item_to_bill b (fst e) (snd e)))
                        extracted bill0),
           Extracted)
      end
  end.

Definition text_handler (st : Store A) (chat : Z) (text : string) : Store A * Reply A :=
  match get_active_bill st chat with
  | None => (st, Silent)
  | Some bill =>
      if negb (awaiting_manual_rate bill) then (st, Silent)
      else match of_string (remove_commas (strip text)) with
      | None => (st, InvalidNumber)
      | Some rate =>
          if leb rate zero then (st, InvalidNumber)
          else (save_bill st
                  (set_awaiting (set_rate bill (Some rate))
                     (awaiting_photo bill) false (awaiting_fees bill)),
                RateSet)
      end
  end.

End Handlers.

(** The updates the bot handles; the chat they arrive in is given to
    [step]. *)
Inductive Event (A : Type) : Type :=
| EvNewBill (user : User) (now : Z)
| EvJoin (user : User)
| EvAddItem (text : string)
| EvItems
| EvPick (user : User) (arg : option Z)
| EvUnpick (user : User) (arg : option Z)
| EvAssign (user : User) (arg : option (Z * string))
| EvResetPicks (user : User)
| EvSetFees (text : string)
| EvDone (now : Z)
| EvCancel (user : User)
| EvHistory
| EvCallback (user : User) (data : Callback A) (now : Z)
| EvPhoto (extracted : list (string * A))
| EvText (text : string).

Arguments EvNewBill {A}. Arguments EvJoin {A}. Arguments EvAddItem {A}.
Arguments EvItems {A}. Arguments EvPick {A}. Arguments EvUnpick {A}.
Arguments EvAssign {A}. Arguments EvResetPicks {A}. Arguments EvSetFees {A}.
Arguments EvDone {A}. Arguments EvCancel {A}. Arguments EvHistory {A}.
Arguments EvText {A}.

Definition step {A : Type} `{PyNum A} `{PyParse A} (st : Store A) (chat : Z)
  (e : Event A) : Store A * Reply A :=
  match e with
  | EvNewBill user now => cmd_newbill st chat user now
  | EvJoin user => cmd_join st chat user
  | EvAddItem text => cmd_additem st chat text
  | EvItems => cmd_items st chat
  | EvPick user arg => cmd_pick st chat user arg
  | EvUnpick user arg => cmd_unpick st chat user arg
  | EvAssign user arg => cmd_assign st chat user arg
  | EvResetPicks user => cmd_resetpicks st chat user
  | EvSetFees text => cmd_setfees st chat text
  | EvDone now => cmd_done st chat now
  | EvCancel user => cmd_cancel st chat user
  | EvHistory => cmd_history st chat
  | EvCallback user data now => callback_handler st chat user data now
  | EvPhoto extracted => photo_handler st chat extracted
  | EvText text => text_handler st chat text
  end.

(** ** Quantities the properties speak about *)

(** The three fee modes of the design, and the mode a stored
    [fees_mode] string selects in [bill_grand_total] and
    [person_fee_breakdown]: any other value takes the final [else]. *)
Inductive FeeMode : Type :=
| AllInclusive
| ServiceChargeExclusiveVatInclusive
| BothExclusive.

Definition fee_mode_of (m : option string) : option FeeMode :=
  if mode_is m "both_inclusive" then Some AllInclusive
  else if mode_is m "sc_exclusive_vat_inclusive"
  then Some ServiceChargeExclusiveVatInclusive
  else if mode_is m "both_exclusive" then Some BothExclusive
  else None.

Section Quantities.
Context {A : Type} `{PyNum A}.

(** The grand total formula of the design's table, per mode. *)
Definition grand_total_formula (mode : option FeeMode) (subtotal sc vat : A) : A :=
  match mode with
  | Some AllInclusive => subtotal
  | Some ServiceChargeExclusiveVatInclusive =>
      (subtotal * (one + sc / hundred))%py
  | Some BothExclusive =>
      (subtotal * (one + sc / hundred) * (one + vat / hundred))%py
  | None => subtotal
  end.

(** A member holds at least one claim. *)
Definition has_claims (b : Bill A) (u : Z) : bool :=
  existsb (fun it => claims_has u (claimed_by it)) (items b).

Definition members_with_claims (b : Bill A) : list (Z * string) :=
  filter (fun m => has_claims b (fst m)) (members b).

(** The fourth component of [person_fee_breakdown]. *)
Definition payable (b : Bill A) (u : Z) : option A :=
  match person_fee_breakdown b u with
  | Some (_, _, _, total) => Some total
  | None => None
  end.

(** The payables of a list of members, added up. *)
Fixpoint sum_payables (b : Bill A) (ms : list (Z * string)) : option A :=
  match ms with
  | [] => Some zero
  | m :: r =>
      match payable b (fst m), sum_payables b r with
      | Some p, Some s => Some (p + s)%py
      | _, _ => None
      end
  end.

(** [[i for i in bill["items"] if not i["claimed_by"]]] *)
Definition unclaimed_items (b : Bill A) : list (Item A) :=
  filter (fun it => match claimed_by it with [] => true | _ => false end) (items b).

Definition unclaimed_total (b : Bill A) : A :=
  py_sum (map (@price A) (unclaimed_items b)).

Definition py_abs (x : A) : A := if ltb x zero then (zero - x)%py else x.

Definition py_max (x y : A) : A := if ltb x y then y else x.

(** [|x - y| <= 1e-6 * max(|x|, |y|)] *)
Definition rel_close (x y : A) : bool :=
  leb (py_abs (x - y)%py)
      ((one / of_Z 1000000) * py_max (py_abs x) (py_abs y))%py.

(** Conservation with the unclaimed items at their raw prices. *)
Definition conservation_raw (b : Bill A) : option bool :=
  match sum_payables b (members_with_claims b) with
  | Some s => Some (rel_close (s + unclaimed_total b)%py (bill_grand_total b))
  | None => None
  end.

(** The bill that holds only the unclaimed items, under the same fees. *)
Definition unclaimed_bill (b : Bill A) : Bill A := set_items b (unclaimed_items b).

(** The creator's currency button. *)
Definition is_currency_choice (b : Bill A) (e : Event A) : bool :=
  match e with
  | EvCallback user (CbCurrency _) _ => (uid user =? creator_id b)%Z
  | _ => false
  end.

End Quantities.

(** *** Well-formed bills (exact arithmetic) *)

Fixpoint nodupb (l : list Z) : bool :=
  match l with
  | [] => true
  | x :: r => negb (existsb (Z.eqb x) r) && nodupb r
  end.

Definition Qpos_b (x : Q) : bool := negb (Qle_bool x 0).

Definition option_nonneg (v : option Q) : bool :=
  match v with
  | Some x => Qle_bool 0 x
  | None => true
  end.

(** Prices are positive, a member claims an item at most once, whoever
    claims has joined, member keys are distinct, and the percentages are
    not negative. *)
Definition well_formed (b : Bill Q) : bool :=
  forallb (fun it => Qpos_b (price it)) (items b)
  && forallb (fun it => nodupb (map user_id (claimed_by it))) (items b)
  && forallb (fun it =>
       forallb (fun c => is_member (user_id c) (members b)) (claimed_by it))
       (items b)
  && nodupb (map fst (members b))
  && option_nonneg (service_charge_pct b)
  && option_nonneg (vat_pct b).

(** *** Sums in exact arithmetic, used to reason about the loops *)

Definition Qsum (l : list Q) : Q := fold_right Qplus 0 l.

(** What [item_per_person] returns. *)
Definition share_Q (it : Item Q) : Q :=
  match item_per_person it with
  | Some v => v
  | None => 0
  end.

(** What one item adds to a member's [person_total]. *)
Definition item_part (u : Z) (it : Item Q) : Q :=
  if claims_has u (claimed_by it) then share_Q it else 0.

Definition person_sum (u : Z) (l : list (Item Q)) : Q :=
  Qsum (map (item_part u) l).

Definition claimed_part (it : Item Q) : Q :=
  match claimed_by it with
  | [] => 0
  | _ => price it
  end.

Definition unclaimed_part (it : Item Q) : Q :=
  match claimed_by it with
  | [] => price it
  | _ => 0
  end.

(** The factor a fee mode puts on a subtotal. *)
Definition fee_factor (b : Bill Q) : Q :=
  grand_total_formula (fee_mode_of (fees_mode b)) 1
    (or0 (service_charge_pct b)) (or0 (vat_pct b)).

(** ** Concrete bills used by the examples *)

Definition claim_of (u : Z) (nm : string) : Claim :=
  {| user_id := u; claim_name := nm |}.

Definition example_bill {A : Type} `{PyNum A} (its : list (Item A))
  (ms : list (Z * string)) (sc vat : option A) (mode : option string) : Bill A :=
  {| _id := 1; chat_id := 10; creator_id := 1; creator_name := "@x";
     currency := Some "THB"; jpy_to_thb_rate := None;
     service_charge_pct := sc; vat_pct := vat; fees_mode := mode;
     items := its; members := ms; next_item_id := 3;
     created_at := 0; is_finalized := false; finalized_at := None;
     awaiting_photo := false; awaiting_manual_rate := false;
     awaiting_fees := false |}.

(** Item A (300) claimed by X, item B (200) claimed by nobody, SC 10%,
    VAT 7%, both on top. *)
Definition bill_one_unclaimed {A : Type} `{PyNum A} : Bill A :=
  example_bill
    [ {| id := 1; name := "A"; price := of_Z 300; claimed_by := [claim_of 1 "@x"] |};
      {| id := 2; name := "B"; price := of_Z 200; claimed_by := [] |} ]
    [(1%Z, "@x"); (2%Z, "@y")]
    (Some (of_Z 10)) (Some (of_Z 7)) (Some "both_exclusive").

(** Items of 1 and 48, claimed by X and by Y; fees stored, mode unset. *)
Definition bill_1_48 {A : Type} `{PyNum A} : Bill A :=
  example_bill
    [ {| id := 1; name := "A"; price := of_Z 1; claimed_by := [claim_of 1 "@x"] |};
      {| id := 2; name := "B"; price := of_Z 48; claimed_by := [claim_of 2 "@y"] |} ]
    [(1%Z, "@x"); (2%Z, "@y")]
    (Some (of_Z 10)) (Some (of_Z 7)) None.

(** Item A claimed by X, stored under the name "@old", and by Y. *)
Definition bill_renamed {A : Type} `{PyNum A} : Bill A :=
  example_bill
    [ {| id := 1; name := "A"; price := of_Z 300;
         claimed_by := [claim_of 1 "@old"; claim_of 2 "@y"] |} ]
    [(1%Z, "@old"); (2%Z, "@y")]
    None None None.

Definition store_of {A : Type} (b : Bill A) : Store A :=
  {| docs := [b]; next_doc_id := 2 |}.

(** One item of 1000 claimed by X, SC 10% and VAT 7%, under a given mode. *)
Definition bill_1000 {A : Type} `{PyNum A} (mode : string) : Bill A :=
  example_bill
    [ {| id := 1; name := "A"; price := of_Z 1000; claimed_by := [claim_of 1 "@x"] |} ]
    [(1%Z, "@x"); (2%Z, "@y")]
    (Some (of_Z 10)) (Some (of_Z 7)) (Some mode).

(** A store with a finalized bill (id 1) and an active one (id 2). *)
Definition store_with_history {A : Type} `{PyNum A} : Store A :=
  {| docs := [set_finalized bill_one_unclaimed 9; set_id bill_1_48 2];
     next_doc_id := 3 |}.

Definition empty_store {A : Type} : Store A :=
  {| docs := []; next_doc_id := 1 |}.

Definition user_x : User := {| uid := 1; display_name := "@x" |}.
Definition user_y : User := {| uid := 2; display_name := "@y" |}.

(** ** Display names

    The Telegram user object, as [get_display_name] reads it. *)

Record TgUser : Type := {
  tg_id : Z;                           (* user.id *)
  tg_username : option string;         (* user.username *)
  tg_first_name : option string;       (* user.first_name *)
  tg_last_name : option string         (* user.last_name *)
}.

(** Truth value of an optional [str]: [None] and [""] are false. *)
Definition str_truthy (s : option string) : bool :=
  match s with
  | Some x => nonempty x
  | None => false
  end.

(** [str(n)] for an int. *)
Definition str_of_Z (n : Z) : string := NilZero.string_of_int (Z.to_int n).

Definition get_display_name (user : TgUser) : string :=
  if str_truthy (tg_username user)
  then String "@"%char (match tg_username user with Some x => x | None => "" end)
  else
    let name0 := if str_truthy (tg_first_name user)
                 then match tg_first_name user with Some x => x | None => "" end
                 else "" in
    let name1 := if str_truthy (tg_last_name user)
                 then String.append name0
                        (String " "%char
                           (match tg_last_name user with Some x => x | None => "" end))
                 else name0 in
    if nonempty (strip name1) then strip name1
    else String.append "User#" (str_of_Z (tg_id user)).

(** The user of an update, with the display name the handlers use. *)
Definition user_of (user : TgUser) : User :=
  {| uid := tg_id user; display_name := get_display_name user |}.

(** ** What the ledger keeps *)

Section Invariants.
Context {A : Type}.

(** Item ids are distinct and below the next id to hand out. *)
Definition item_ids_ok (b : Bill A) : bool :=
  nodupb (map (@id A) (items b))
  && forallb (fun it => (id it <? next_item_id b)%Z) (items b).

(** No member holds two claims on one item. *)
Definition claims_distinct (b : Bill A) : bool :=
  forallb (fun it => nodupb (map user_id (claimed_by it))) (items b).

(** Whoever holds a claim is a member. *)
Definition claimants_joined (b : Bill A) : bool :=
  forallb (fun it =>
    forallb (fun c => is_member (user_id c) (members b)) (claimed_by it))
    (items b).

Definition member_keys_distinct (b : Bill A) : bool :=
  nodupb (map fst (members b)).

(** Document ids are distinct and below the next one, and no two
    documents that are not finalized belong to the same chat. *)
Definition store_ok (st : Store A) : bool :=
  nodupb (map (@_id A) (docs st))
  && forallb (fun d => (_id d <? next_doc_id st)%Z) (docs st)
  && nodupb (map (@chat_id A) (filter (fun d => negb (is_finalized d)) (docs st))).

(** The items [photo_handler] appends for the extracted entries: ids
    count up from [start]. *)
Fixpoint added_items (start : Z) (l : list (string * A)) : list (Item A) :=
  match l with
  | [] => []
  | e :: r =>
      {| id := start; name := fst e; price := snd e; claimed_by := [] |}
      :: added_items (start + 1) r
  end.

(** How many claims of [u] the items hold. *)
Definition claims_of (u : Z) (l : list (Item A)) : nat :=
  fold_right (fun it n =>
    (List.length (filter (fun c => (user_id c =? u)%Z) (claimed_by it)) + n)%nat)
    0%nat l.

End Invariants.

(** Two documents that agree on every key but [members]. *)
Definition same_but_members {A : Type} (b b' : Bill A) : Prop :=
  _id b' = _id b /\ chat_id b' = chat_id b
  /\ creator_id b' = creator_id b /\ creator_name b' = creator_name b
  /\ currency b' = currency b /\ jpy_to_thb_rate b' = jpy_to_thb_rate b
  /\ service_charge_pct b' = service_charge_pct b /\ vat_pct b' = vat_pct b
  /\ fees_mode b' = fees_mode b
  /\ items b' = items b /\ next_item_id b' = next_item_id b
  /\ created_at b' = created_at b
  /\ is_finalized b' = is_finalized b /\ finalized_at b' = finalized_at b
  /\ awaiting_photo b' = awaiting_photo b
  /\ awaiting_manual_rate b' = awaiting_manual_rate b
  /\ awaiting_fees b' = awaiting_fees b.

(** The ways a handler changes the bill it writes back. *)
Inductive bill_change {A : Type} : Bill A -> Bill A -> Prop :=
| change_fields (b b' : Bill A) :
    _id b' = _id b -> items b' = items b -> members b' = members b ->
    next_item_id b' = next_item_id b -> chat_id b' = chat_id b ->
    bill_change b b'
| change_join (b : Bill A) (u : Z) (nm : string) :
    is_member u (members b) = false ->
    bill_change b (set_members b (members b ++ [(u, nm)]))
| change_add (b : Bill A) (nm : string) (p : A) :
    bill_change b (fst (add_item_to_bill b nm p))
| change_claim (b : Bill A) (n u : Z) (nm : string) (item : Item A) :
    get_item b n = Some item ->
    is_member u (members b) = true ->
    claims_has u (claimed_by item) = false ->
    bill_change b
      (update_claims b n (fun cs => cs ++ [{| user_id := u; claim_name := nm |}]))
| change_unclaim (b : Bill A) (n u : Z) :
    bill_change b (update_claims b n (claims_without u))
| change_reset (b : Bill A) (u : Z) :
    bill_change b
      (set_items b
         (map (fun it => set_claimed_by it (claims_without u (claimed_by it)))
              (items b)))
| change_trans (b b1 b2 : Bill A) :
    bill_change b b1 -> bill_change b1 b2 -> bill_change b b2.

(** ** Amounts the fee engine can work with

    Stated with the program's own comparisons, so that they read the same
    on floats and in exact arithmetic. *)

Section Amounts.
Context {A : Type} `{PyNum A} `{PyParse A}.

(** [0 <= v] for a stored percentage; an unset one passes. *)
Definition pct_ok (v : option A) : bool :=
  match v with
  | Some x => leb zero x
  | None => true
  end.

(** Every price is above zero and no percentage is below zero. *)
Definition money_ok (b : Bill A) : bool :=
  forallb (fun it => ltb zero (price it)) (items b)
  && pct_ok (service_charge_pct b)
  && pct_ok (vat_pct b).

Definition sound_bill (b : Bill A) : bool :=
  money_ok b && claims_distinct b && claimants_joined b && member_keys_distinct b.




End Amounts.

(** * Properties *)

Unset Implicit Arguments.

(** ** The fee engine, for every number type *)

Section FeeEngineFacts.
Context {A : Type} `{PyNum A}.

Lemma item_per_person_some (item : Item A) :
  exists v, item_per_person item = Some v.
Proof.
  unfold item_per_person.
  destruct (claimed_by item) as [|c cs]; simpl; eauto.
Qed.

Lemma person_total_step_some (u : Z) (t : A) (item : Item A) :
  exists t', person_total_step u (Some t) item = Some t'.
Proof.
  unfold person_total_step.
  destruct (claims_has u (claimed_by item)); eauto.
  destruct (item_per_person_some item) as [v ->]; eauto.
Qed.

Lemma person_total_fold_some (u : Z) (l : list (Item A)) :
  forall t, exists t', fold_left (person_total_step u) l (Some t) = Some t'.
Proof.
  induction l as [|it l IH]; intros t; cbn [fold_left]; eauto.
  destruct (person_total_step_some u t it) as [t' ->]. apply IH.
Qed.

(** [person_total] never raises. *)
Lemma person_total_some (b : Bill A) (u : Z) :
  exists p, person_total b u = Some p.
Proof. apply person_total_fold_some. Qed.

(** C2. The grand total is the per-mode formula of the design applied to
    the item subtotal: the subtotal itself under [both_inclusive] and with
    no mode, [subtotal * (1 + sc/100)] under
    [sc_exclusive_vat_inclusive], and
    [subtotal * (1 + sc/100) * (1 + vat/100)] under [both_exclusive]. *)
Theorem bill_grand_total_formula (b : Bill A) :
  bill_grand_total b =
  grand_total_formula (fee_mode_of (fees_mode b)) (bill_total b)
    (or0 (service_charge_pct b)) (or0 (vat_pct b)).
Proof.
  unfold bill_grand_total, fee_mode_of.
  destruct (mode_is (fees_mode b) "both_inclusive"); [reflexivity|].
  destruct (mode_is (fees_mode b) "sc_exclusive_vat_inclusive"); [reflexivity|].
  destruct (mode_is (fees_mode b) "both_exclusive"); reflexivity.
Qed.

(** C6. With no fee mode the stored percentages have no effect: the grand
    total is the item subtotal, and a member's breakdown has no service
    charge, no VAT and a payable equal to the member's item subtotal.
    (A bill with a zero subtotal has no items: prices are positive.) *)
Theorem unset_mode_fees_inert (b : Bill A) (u : Z) :
  fees_mode b = None ->
  (eqb (bill_total b) zero = true -> items b = []) ->
  bill_grand_total b = bill_total b
  /\ exists s, person_total b u = Some s
       /\ person_fee_breakdown b u = Some (s, zero, zero, s).
Proof.
  intros Hmode Hempty. split.
  - unfold bill_grand_total. rewrite Hmode. reflexivity.
  - unfold person_fee_breakdown. rewrite Hmode.
    destruct (eqb (bill_total b) zero) eqn:Hz.
    + exists zero. split; [|reflexivity].
      unfold person_total. rewrite (Hempty eq_refl). reflexivity.
    + destruct (person_total_some b u) as [p Hp]. exists p.
      rewrite Hp. split; reflexivity.
Qed.

(** C9. The per-person share is [price / max(1, number of claims)]: an
    item nobody claims is priced at its full value, a claimed item at
    [price / n], and the computation always returns a value (the division
    is never by zero: no [ZeroDivisionError]).  The two cases are the one
    formula [price / max(1, n)] in every number type where dividing by 1
    changes nothing. *)
Theorem item_per_person_share (item : Item A) :
  let n := List.length (claimed_by item) in
  (exists v, item_per_person item = Some v)
  /\ (n = 0%nat -> item_per_person item = Some (price item))
  /\ ((0 < n)%nat ->
      item_per_person item
      = Some (price item / of_Z (Z.of_nat (Nat.max 1 n)))%py)
  /\ ((forall x : A, (x / of_Z 1)%py = x) ->
      item_per_person item
      = Some (price item / of_Z (Z.of_nat (Nat.max 1 n)))%py).
Proof.
  unfold item_per_person.
  destruct (claimed_by item) as [|c cs]; cbn [List.length]; cbv zeta.
  - split; [eexists; reflexivity|]. split; [reflexivity|].
    split; [intros Hn; inversion Hn|].
    intros Hdiv1. cbn. rewrite Hdiv1. reflexivity.
  - split; [eexists; reflexivity|]. split; [discriminate|].
    split; intros _; reflexivity.
Qed.

End FeeEngineFacts.

Lemma Q_div_one (x : Q) : (x / of_Z 1)%py = x.
Proof.
  destruct x as [n d]. simpl. unfold Qdiv, Qmult, Qinv. simpl.
  rewrite Z.mul_1_r, Pos.mul_1_r. reflexivity.
Qed.

Lemma unset_mode_fees_inert_witness :
  bill_grand_total (@bill_1_48 float _) = bill_total (@bill_1_48 float _)
  /\ exists s, person_total (@bill_1_48 float _) 1 = Some s
       /\ person_fee_breakdown (@bill_1_48 float _) 1 = Some (s, zero, zero, s).
Proof.
  apply (@unset_mode_fees_inert float _ bill_1_48 1).
  - reflexivity.
  - vm_compute. discriminate.
Defined.

Lemma item_per_person_share_witness :
  let item : Item Q :=
    {| id := 2; name := "B"; price := 200; claimed_by := [] |} in
  item_per_person item
  = Some (200 / of_Z (Z.of_nat (Nat.max 1 (List.length (claimed_by item)))))%py.
Proof.
  exact (proj2 (proj2 (proj2
           (@item_per_person_share Q _
              {| id := 2; name := "B"; price := 200; claimed_by := [] |})))
           Q_div_one).
Defined.

(** ** The store *)

Section StoreFacts.
Context {A : Type} `{PyNum A}.
Variable chat : Z.                     (* update.effective_chat.id *)

Lemma get_active_bill_spec (st : Store A) (b : Bill A) :
  get_active_bill st chat = Some b -> In b (docs st) /\ is_finalized b = false.
Proof.
  unfold get_active_bill. intros Hf. apply find_some in Hf.
  destruct Hf as [Hin Hfin]. split; [exact Hin|].
  apply andb_true_iff in Hfin. destruct Hfin as [_ Hfin].
  destruct (is_finalized b); [discriminate | reflexivity].
Qed.

Lemma get_active_bill_chat (st : Store A) (b : Bill A) :
  get_active_bill st chat = Some b -> chat_id b = chat.
Proof.
  unfold get_active_bill. intros Hf. apply find_some in Hf.
  destruct Hf as [_ Hfin]. apply andb_true_iff in Hfin.
  apply Z.eqb_eq, Hfin.
Qed.

(** A saved bill that is still open is the active bill afterwards. *)
Lemma get_active_bill_save (st : Store A) (b b' : Bill A) :
  get_active_bill st chat = Some b ->
  _id b' = _id b ->
  chat_id b' = chat_id b ->
  is_finalized b' = false ->
  get_active_bill (save_bill st b') chat = Some b'.
Proof.
  intros Hf Hid Hchat Hopen.
  assert (Hmine : (chat_id b' =? chat)%Z && negb (is_finalized b') = true).
  { rewrite Hchat, (get_active_bill_chat st b Hf), Z.eqb_refl, Hopen. reflexivity. }
  revert Hf. unfold get_active_bill, save_bill. cbn [docs].
  induction (docs st) as [|d l IH]; cbn [find map]; [discriminate|].
  intros Hf.
  destruct ((chat_id d =? chat)%Z && negb (is_finalized d)) eqn:Hd.
  - injection Hf as ->. rewrite Hid, Z.eqb_refl, Hmine. reflexivity.
  - destruct (_id d =? _id b')%Z.
    + rewrite Hmine. reflexivity.
    + rewrite Hd. apply IH, Hf.
Qed.

Lemma save_bill_in (st : Store A) (b b' : Bill A) :
  In b (docs st) -> _id b' = _id b -> In b' (docs (save_bill st b')).
Proof.
  intros Hin Hid. unfold save_bill. cbn [docs].
  apply in_map_iff. exists b. rewrite Hid, Z.eqb_refl. auto.
Qed.

(** *** Ledger updates *)

Lemma get_item_update_claims_in (l : list (Item A)) (n : Z) f (item : Item A) :
  get_item_in l n = Some item ->
  get_item_in (update_claims_in l n f) n
  = Some (set_claimed_by item (f (claimed_by item))).
Proof.
  induction l as [|it l IH]; cbn [get_item_in update_claims_in]; [discriminate|].
  destruct (id it =? n)%Z eqn:Hid; intros Hg.
  - injection Hg as ->. cbn [get_item_in set_claimed_by id]. rewrite Hid. reflexivity.
  - cbn [get_item_in]. rewrite Hid. apply IH, Hg.
Qed.

Lemma update_claims_in_twice (l : list (Item A)) (n : Z) f g :
  update_claims_in (update_claims_in l n f) n g
  = update_claims_in l n (fun cs => g (f cs)).
Proof.
  induction l as [|it l IH]; cbn [update_claims_in]; [reflexivity|].
  destruct (id it =? n)%Z eqn:Hid; cbn [update_claims_in set_claimed_by id].
  - rewrite Hid. reflexivity.
  - rewrite Hid, IH. reflexivity.
Qed.

Lemma update_claims_in_same (l : list (Item A)) (n : Z) f (item : Item A) :
  get_item_in l n = Some item ->
  f (claimed_by item) = claimed_by item ->
  update_claims_in l n f = l.
Proof.
  induction l as [|it l IH]; cbn [get_item_in update_claims_in]; [reflexivity|].
  destruct (id it =? n)%Z; intros Hg Hf.
  - injection Hg as ->. rewrite Hf. destruct item; reflexivity.
  - rewrite (IH Hg Hf). reflexivity.
Qed.

Lemma is_member_app (u : Z) (ms : list (Z * string)) (nm : string) :
  is_member u (ms ++ [(u, nm)]) = true.
Proof.
  unfold is_member. rewrite existsb_app. cbn. rewrite Z.eqb_refl.
  destruct (existsb _ ms); reflexivity.
Qed.

Lemma claims_has_without_same (u : Z) (cs : list Claim) :
  claims_has u (claims_without u cs) = false.
Proof.
  induction cs as [|c cs IH]; [reflexivity|].
  cbn [claims_without filter]. destruct (user_id c =? u)%Z eqn:E; cbn [negb].
  - exact IH.
  - cbn [claims_has existsb]. rewrite E. exact IH.
Qed.

Lemma claims_has_without_other (u v : Z) (cs : list Claim) :
  v <> u -> claims_has v (claims_without u cs) = claims_has v cs.
Proof.
  intros Hne. unfold claims_has, claims_without.
  induction cs as [|c cs IH]; [reflexivity|].
  cbn [filter existsb].
  destruct (user_id c =? u)%Z eqn:E; cbn [negb existsb].
  - rewrite IH. apply Z.eqb_eq in E.
    destruct (user_id c =? v)%Z eqn:E'; [|reflexivity].
    apply Z.eqb_eq in E'. congruence.
  - rewrite IH. reflexivity.
Qed.

Lemma claims_without_absent (u : Z) (cs : list Claim) :
  claims_has u cs = false -> claims_without u cs = cs.
Proof.
  induction cs as [|c cs IH]; [reflexivity|].
  cbn [claims_has existsb claims_without filter]. intros Hh.
  apply orb_false_iff in Hh. destruct Hh as [E Hr].
  rewrite E. cbn [negb]. f_equal. apply IH, Hr.
Qed.

Lemma claims_has_app (v : Z) (cs ds : list Claim) :
  claims_has v (cs ++ ds) = claims_has v cs || claims_has v ds.
Proof. apply existsb_app. Qed.

(** Removing a member's claim and appending it again keeps the same
    claim records, when the record carries the name that is appended. *)
Lemma readd_same_records (u : Z) (nm : string) (cs : list Claim) :
  claims_has u cs = true ->
  (forall c, In c cs -> user_id c = u -> claim_name c = nm) ->
  forall c,
    In c (claims_without u cs ++ [{| user_id := u; claim_name := nm |}])
    <-> In c cs.
Proof.
  intros Hhas Hname c. rewrite in_app_iff. unfold claims_without.
  rewrite filter_In. split.
  - intros [[Hin _] | [<- | []]]; [exact Hin|].
    apply existsb_exists in Hhas. destruct Hhas as (c0 & Hin0 & He).
    apply Z.eqb_eq in He. pose proof (Hname c0 Hin0 He) as Hn.
    destruct c0 as [u0 n0]. cbn in He, Hn. subst. exact Hin0.
  - intros Hin. destruct (user_id c =? u)%Z eqn:E.
    + right. left. apply Z.eqb_eq in E. pose proof (Hname c Hin E) as Hn.
      destruct c as [u0 n0]. cbn in E, Hn. subst. reflexivity.
    + left. split; [exact Hin | reflexivity].
Qed.

(** The pick button on a bill that is active and an item that exists. *)
Lemma callback_pick_unfold (st : Store A) (user : User) (n now : Z)
  (bill : Bill A) (item : Item A) :
  get_active_bill st chat = Some bill ->
  get_item bill n = Some item ->
  callback_handler st chat user (CbPick n) now =
  let bill1 :=
    if negb (is_member (uid user) (members bill))
    then set_members bill (members bill ++ [(uid user, display_name user)])
    else bill in
  if claims_has (uid user) (claimed_by item)
  then (save_bill st (update_claims bill1 n (claims_without (uid user))), Unpicked)
  else (save_bill st
          (update_claims bill1 n (fun cs =>
             cs ++ [{| user_id := uid user; claim_name := display_name user |}])),
        PickedButton).
Proof.
  intros Ha Hi. unfold callback_handler. rewrite Ha, Hi. reflexivity.
Qed.

End StoreFacts.

(** ** Claims: the pick button, /assign, finalizing *)

Section LedgerFacts.
Context {A : Type} `{PyNum A}.
Variable chat : Z.                     (* update.effective_chat.id *)

(** C5. Pressing the pick button twice, same item and same member, gives
    back the set of members who claim the item.  From unclaimed the first
    press adds the claim and the second removes it, and the claim list is
    the original one; from claimed the first press removes the member's
    claim and the second appends it again, which gives the same claim
    records when the member's claim carries the member's display name.
    Every other item, and the item's id, name and price, stay as they
    were. *)
Theorem pick_twice_restores_claims (st : Store A) (user : User) (n now1 now2 : Z)
  (bill : Bill A) (item : Item A) :
  get_active_bill st chat = Some bill ->
  get_item bill n = Some item ->
  let r1 := callback_handler st chat user (CbPick n) now1 in
  let r2 := callback_handler (fst r1) chat user (CbPick n) now2 in
  let mine := {| user_id := uid user; claim_name := display_name user |} in
  exists bill2 cs2,
    get_active_bill (fst r2) chat = Some bill2
    /\ get_item bill2 n = Some (set_claimed_by item cs2)
    /\ items bill2 = update_claims_in (items bill) n (fun _ => cs2)
    /\ (forall v, claims_has v cs2 = claims_has v (claimed_by item))
    /\ ((forall c, In c (claimed_by item) -> user_id c = uid user ->
                   claim_name c = display_name user) ->
        forall c, In c cs2 <-> In c (claimed_by item))
    /\ (claims_has (uid user) (claimed_by item) = false ->
        cs2 = claimed_by item /\ items bill2 = items bill
        /\ snd r1 = PickedButton /\ snd r2 = Unpicked)
    /\ (claims_has (uid user) (claimed_by item) = true ->
        cs2 = claims_without (uid user) (claimed_by item) ++ [mine]
        /\ snd r1 = Unpicked /\ snd r2 = PickedButton).
Proof.
  intros Ha Hi r1 r2 mine.
  destruct (get_active_bill_spec chat _ _ Ha) as [_ Hopen].
  set (bill1 := if negb (is_member (uid user) (members bill))
                then set_members bill (members bill ++ [(uid user, display_name user)])
                else bill).
  assert (Hmem1 : is_member (uid user) (members bill1) = true).
  { unfold bill1. destruct (is_member (uid user) (members bill)) eqn:Hm; cbn [negb].
    - exact Hm.
    - cbn [set_members members]. apply is_member_app. }
  assert (Hitems1 : items bill1 = items bill).
  { unfold bill1. destruct (negb _); reflexivity. }
  assert (Hid1 : _id bill1 = _id bill).
  { unfold bill1. destruct (negb _); reflexivity. }
  assert (Hfin1 : is_finalized bill1 = false).
  { unfold bill1. destruct (negb _); exact Hopen. }
  assert (Hchat1 : chat_id bill1 = chat_id bill).
  { unfold bill1. destruct (negb _); reflexivity. }
  assert (Hstep1 : forall f,
    get_active_bill (save_bill st (update_claims bill1 n f)) chat
    = Some (update_claims bill1 n f)).
  { intros f. eapply get_active_bill_save;
      [exact Ha | exact Hid1 | exact Hchat1 | exact Hfin1]. }
  assert (Hget1 : forall f,
    get_item (update_claims bill1 n f) n
    = Some (set_claimed_by item (f (claimed_by item)))).
  { intros f. unfold get_item, update_claims. cbn [set_items items].
    rewrite Hitems1. apply (get_item_update_claims_in _ _ f _ Hi). }
  assert (Hsecond : forall f g,
    (if negb (is_member (uid user) (members (update_claims bill1 n f)))
     then set_members (update_claims bill1 n f)
            (members (update_claims bill1 n f) ++ [(uid user, display_name user)])
     else update_claims bill1 n f) = update_claims bill1 n f
    /\ get_active_bill
         (save_bill (save_bill st (update_claims bill1 n f))
            (update_claims (update_claims bill1 n f) n g)) chat
       = Some (update_claims (update_claims bill1 n f) n g)
    /\ get_item (update_claims (update_claims bill1 n f) n g) n
       = Some (set_claimed_by item (g (f (claimed_by item))))
    /\ items (update_claims (update_claims bill1 n f) n g)
       = update_claims_in (items bill) n (fun cs => g (f cs))).
  { intros f g. split; [|split; [|split]].
    - cbn [update_claims set_items members]. rewrite Hmem1. reflexivity.
    - eapply get_active_bill_save;
        [exact (Hstep1 f) | reflexivity | reflexivity | exact Hfin1].
    - unfold get_item, update_claims. cbn [set_items items].
      rewrite update_claims_in_twice, Hitems1.
      apply (get_item_update_claims_in _ _ (fun cs => g (f cs)) _ Hi).
    - unfold update_claims. cbn [set_items items].
      rewrite update_claims_in_twice, Hitems1. reflexivity. }
  assert (Hsame : forall cs2 : list Claim,
    update_claims_in (items bill) n (fun cs => cs2)
    = update_claims_in (items bill) n (fun _ => cs2)) by reflexivity.
  subst r1 r2.
  rewrite (callback_pick_unfold chat _ user _ now1 _ _ Ha Hi). fold bill1. cbv zeta.
  destruct (claims_has (uid user) (claimed_by item)) eqn:Hhas; cbn [fst snd].
  - (* claimed: removed, then appended *)
    rewrite (callback_pick_unfold chat _ user _ now2 _ _
               (Hstep1 (claims_without (uid user)))
               (Hget1 (claims_without (uid user)))).
    cbv zeta. cbn [set_claimed_by claimed_by].
    rewrite claims_has_without_same.
    destruct (Hsecond (claims_without (uid user)) (fun cs => cs ++ [mine]))
      as (-> & Hact & Hget & Hits).
    cbn [fst snd].
    exists (update_claims (update_claims bill1 n (claims_without (uid user))) n
              (fun cs => cs ++ [mine])),
           (claims_without (uid user) (claimed_by item) ++ [mine]).
    split; [exact Hact|]. split; [exact Hget|]. split.
    { rewrite Hits.
      clear -Hi. revert Hi. unfold get_item.
      induction (items bill) as [|it l IH]; cbn [get_item_in update_claims_in];
        [reflexivity|].
      destruct (id it =? n)%Z; intros Hg.
      - injection Hg as ->. reflexivity.
      - rewrite (IH Hg). reflexivity. }
    split.
    { intros v. rewrite claims_has_app.
      destruct (Z.eq_dec v (uid user)) as [->|Hne].
      - rewrite Hhas. cbn. rewrite Z.eqb_refl. apply orb_true_r.
      - rewrite (claims_has_without_other _ _ (claimed_by item) Hne). cbn.
        destruct (uid user =? v)%Z eqn:E.
        + apply Z.eqb_eq in E. congruence.
        + rewrite !orb_false_r. reflexivity. }
    split.
    { intros Hname.
      apply (readd_same_records (uid user) (display_name user)
               (claimed_by item) Hhas Hname). }
    split; [discriminate|]. intros _. repeat split.
  - (* unclaimed: appended, then removed *)
    rewrite (callback_pick_unfold chat _ user _ now2 _ _
               (Hstep1 (fun cs => cs ++ [mine]))
               (Hget1 (fun cs => cs ++ [mine]))).
    cbv zeta. cbn [set_claimed_by claimed_by].
    assert (Hnow : claims_has (uid user) (claimed_by item ++ [mine]) = true).
    { rewrite claims_has_app. cbn. rewrite Z.eqb_refl. apply orb_true_r. }
    rewrite Hnow.
    destruct (Hsecond (fun cs => cs ++ [mine]) (claims_without (uid user)))
      as (-> & Hact & Hget & Hits).
    cbn [fst snd].
    assert (Hback : claims_without (uid user) (claimed_by item ++ [mine])
                    = claimed_by item).
    { unfold claims_without. rewrite filter_app. cbn.
      rewrite Z.eqb_refl. cbn. rewrite app_nil_r.
      apply claims_without_absent, Hhas. }
    exists (update_claims (update_claims bill1 n (fun cs => cs ++ [mine])) n
              (claims_without (uid user))),
           (claimed_by item).
    split; [exact Hact|]. split; [rewrite Hget, Hback; reflexivity|].
    assert (Hits' : items (update_claims
                             (update_claims bill1 n (fun cs => cs ++ [mine])) n
                             (claims_without (uid user))) = items bill).
    { rewrite Hits.
      eapply update_claims_in_same; [exact Hi | exact Hback]. }
    split.
    { rewrite Hits'. symmetry.
      eapply update_claims_in_same; [exact Hi | reflexivity]. }
    split; [reflexivity|].
    split; [intros _ c; reflexivity|].
    split; [|discriminate]. intros _. repeat split. exact Hits'.
Qed.

End LedgerFacts.

Section SessionFacts.
Context {A : Type} `{PyNum A} `{PyParse A}.
Variable chat : Z.                     (* update.effective_chat.id *)

(** C7. /assign by the creator, for a member who already holds a claim on
    the item, answers "already has item" and writes nothing: the claim
    list, and the whole store, stay as they were. *)
Theorem assign_already_claimed (st : Store A) (user : User) (n : Z)
  (target_username : string) (bill : Bill A) (item : Item A)
  (target_uid : Z) (target_name : string) :
  get_active_bill st chat = Some bill ->
  uid user = creator_id bill ->
  get_item bill n = Some item ->
  find_member_by_name (members bill) target_username
    = Some (target_uid, target_name) ->
  claims_has target_uid (claimed_by item) = true ->
  cmd_assign st chat user (Some (n, target_username)) = (st, AlreadyHas).
Proof.
  intros Ha Hc Hi Hm Hhas. unfold cmd_assign.
  rewrite Ha, Hc, Z.eqb_refl, Hi, Hm, Hhas. reflexivity.
Qed.

(** C8. Finalizing (/done and the finalize button) a bill with no items
    answers "no items" and leaves the store as it was; with at least one
    item it writes the bill back with [is_finalized] set, and the bill is
    no longer the active one. *)
Theorem finalize_requires_items (st : Store A) (user : User) (now : Z)
  (bill : Bill A) :
  get_active_bill st chat = Some bill ->
  (items bill = [] ->
     cmd_done st chat now = (st, NoItemsInBill)
     /\ callback_handler st chat user CbFinalize now = (st, NoItemsInBill))
  /\ (items bill <> [] ->
     let bill' := set_finalized bill now in
     cmd_done st chat now = (save_bill st bill', Summary bill')
     /\ callback_handler st chat user CbFinalize now = (save_bill st bill', Summary bill')
     /\ is_finalized bill' = true
     /\ In bill' (docs (save_bill st bill'))
     /\ get_active_bill (save_bill st bill') chat <> Some bill').
Proof.
  intros Ha. split.
  - intros Hnil. unfold cmd_done, callback_handler. rewrite Ha, Hnil. split; reflexivity.
  - intros Hne bill'. unfold cmd_done, callback_handler. rewrite Ha.
    destruct (items bill) as [|it l] eqn:Hitems; [exfalso; apply Hne; reflexivity|].
    fold bill'.
    split; [reflexivity|]. split; [reflexivity|]. split; [reflexivity|]. split.
    + apply (save_bill_in st bill bill'); [|reflexivity].
      apply (get_active_bill_spec chat st bill Ha).
    + intros Hact. apply get_active_bill_spec in Hact.
      destruct Hact as [_ Hopen]. discriminate Hopen.
Qed.

Lemma fold_add_items_keeps (extracted : list (string * A)) :
  forall b : Bill A,
  let b' := fold_left (fun b e => fst (add_item_to_bill b (fst e) (snd e)))
              extracted b in
  _id b' = _id b /\ currency b' = currency b.
Proof.
  induction extracted as [|e l IH]; intros b; cbn [fold_left].
  - split; reflexivity.
  - destruct (IH (fst (add_item_to_bill b (fst e) (snd e)))) as [Hid Hcur].
    split; [rewrite Hid | rewrite Hcur]; reflexivity.
Qed.

Ltac split_handler :=
  repeat match goal with
         | |- context [match ?x with _ => _ end] => destruct x
         | |- context [if ?x then _ else _] => destruct x
         end.

Ltac kept_currency :=
  first [ left; reflexivity
        | right; left; reflexivity
        | right; right; eexists; split; [reflexivity | split; reflexivity] ].

(** C3, as the code has it.  Apart from the creator's own currency
    button, every update either leaves the store as it was, deletes the
    bill, or writes the bill back with the currency it had. *)
Theorem currency_kept_by_other_events (st : Store A) (e : Event A) (bill : Bill A) :
  get_active_bill st chat = Some bill ->
  is_currency_choice bill e = false ->
  fst (step st chat e) = st
  \/ fst (step st chat e) = delete_one st bill
  \/ exists b', fst (step st chat e) = save_bill st b'
       /\ _id b' = _id bill /\ currency b' = currency bill.
Proof.
  intros Ha Hnot.
  destruct e as [user now | user | text | | user arg | user arg | user arg
                | user | text | now | user | | user data now | extracted | text];
    cbn [step].
  - unfold cmd_newbill. rewrite Ha. kept_currency.
  - unfold cmd_join. rewrite Ha. split_handler; cbn [fst]; kept_currency.
  - unfold cmd_additem, add_item_to_bill. rewrite Ha.
    split_handler; cbn [fst]; kept_currency.
  - unfold cmd_items. rewrite Ha. split_handler; cbn [fst]; kept_currency.
  - unfold cmd_pick. rewrite Ha. split_handler; cbn [fst]; kept_currency.
  - unfold cmd_unpick. rewrite Ha. split_handler; cbn [fst]; kept_currency.
  - unfold cmd_assign. rewrite Ha. split_handler; cbn [fst]; kept_currency.
  - unfold cmd_resetpicks. rewrite Ha. split_handler; cbn [fst]; kept_currency.
  - unfold cmd_setfees. rewrite Ha. split_handler; cbn [fst]; kept_currency.
  - unfold cmd_done. rewrite Ha. split_handler; cbn [fst]; kept_currency.
  - unfold cmd_cancel. rewrite Ha. split_handler; cbn [fst]; kept_currency.
  - left. unfold cmd_history. destruct (filter _ (docs st)); reflexivity.
  - unfold callback_handler. rewrite Ha.
    destruct data; cbn [is_currency_choice] in Hnot.
    + rewrite Hnot. cbn [negb fst]. left. reflexivity.
    + split_handler; cbn [fst]; kept_currency.
    + kept_currency.
    + kept_currency.
    + kept_currency.
    + kept_currency.
    + kept_currency.
    + kept_currency.
    + kept_currency.
    + split_handler; cbn [fst]; kept_currency.
    + split_handler; cbn [fst]; kept_currency.
    + kept_currency.
  - unfold photo_handler. rewrite Ha.
    destruct extracted as [|e l]; cbn [fst].
    + kept_currency.
    + right; right. eexists. split; [reflexivity|].
      apply (fold_add_items_keeps (e :: l)
               (set_awaiting bill false (awaiting_manual_rate bill) (awaiting_fees bill))).
  - unfold text_handler. rewrite Ha. split_handler; cbn [fst]; kept_currency.
Qed.

End SessionFacts.

(** ** The properties at concrete bills *)

Lemma pick_twice_restores_claims_witness :
  let st : Store float := store_of bill_1_48 in
  let item : Item float :=
    {| id := 2; name := "B"; price := of_Z 48; claimed_by := [claim_of 2 "@y"] |} in
  let r1 := callback_handler st 10 user_x (CbPick 2) 5 in
  let r2 := callback_handler (fst r1) 10 user_x (CbPick 2) 6 in
  let mine := {| user_id := uid user_x; claim_name := display_name user_x |} in
  exists bill2 cs2,
    get_active_bill (fst r2) 10 = Some bill2
    /\ get_item bill2 2 = Some (set_claimed_by item cs2)
    /\ items bill2 = update_claims_in (items (@bill_1_48 float _)) 2 (fun _ => cs2)
    /\ (forall v, claims_has v cs2 = claims_has v (claimed_by item))
    /\ ((forall c, In c (claimed_by item) -> user_id c = uid user_x ->
                   claim_name c = display_name user_x) ->
        forall c, In c cs2 <-> In c (claimed_by item))
    /\ (claims_has (uid user_x) (claimed_by item) = false ->
        cs2 = claimed_by item /\ items bill2 = items (@bill_1_48 float _)
        /\ snd r1 = PickedButton /\ snd r2 = Unpicked)
    /\ (claims_has (uid user_x) (claimed_by item) = true ->
        cs2 = claims_without (uid user_x) (claimed_by item) ++ [mine]
        /\ snd r1 = Unpicked /\ snd r2 = PickedButton).
Proof.
  exact (pick_twice_restores_claims 10 (store_of bill_1_48) user_x 2 5 6
           bill_1_48
           {| id := 2; name := "B"; price := of_Z 48;
              claimed_by := [claim_of 2 "@y"] |}
           eq_refl eq_refl).
Defined.

(** C5, counterexample.  The claim of X is stored under the name "@old";
    X, whose display name is now "@x", presses the button twice: the
    first press removes the claim, the second appends a new one under the
    current name, so the claim records are not the original ones. *)
Lemma pick_twice_renames_claim :
  let st : Store float := store_of bill_renamed in
  let r1 := callback_handler st 10 user_x (CbPick 1) 5 in
  let r2 := callback_handler (fst r1) 10 user_x (CbPick 1) 6 in
  snd r1 = Unpicked /\ snd r2 = PickedButton
  /\ option_map (fun b => map (@claimed_by float) (items b))
       (get_active_bill (fst r2) 10)
     = Some [[claim_of 2 "@y"; claim_of 1 "@x"]]
  /\ ~ In (claim_of 1 "@old") [claim_of 2 "@y"; claim_of 1 "@x"].
Proof.
  split; [reflexivity|]. split; [reflexivity|]. split; [reflexivity|].
  intros [Hc | [Hc | []]]; discriminate Hc.
Qed.

Lemma assign_already_claimed_witness :
  cmd_assign (store_of (@bill_1_48 float _)) 10 user_x (Some (2%Z, "Y"))
  = (store_of bill_1_48, AlreadyHas).
Proof.
  apply (assign_already_claimed 10 (store_of bill_1_48) user_x 2 "Y" bill_1_48
           {| id := 2; name := "B"; price := of_Z 48;
              claimed_by := [claim_of 2 "@y"] |} 2 "@y");
    reflexivity.
Defined.

Lemma finalize_requires_items_witness :
  let st : Store float := store_of bill_1_48 in
  (items (@bill_1_48 float _) = [] ->
     cmd_done st 10 7 = (st, NoItemsInBill)
     /\ callback_handler st 10 user_y CbFinalize 7 = (st, NoItemsInBill))
  /\ (items (@bill_1_48 float _) <> [] ->
     let bill' := set_finalized bill_1_48 7 in
     cmd_done st 10 7 = (save_bill st bill', Summary bill')
     /\ callback_handler st 10 user_y CbFinalize 7 = (save_bill st bill', Summary bill')
     /\ is_finalized bill' = true
     /\ In bill' (docs (save_bill st bill'))
     /\ get_active_bill (save_bill st bill') 10 <> Some bill').
Proof.
  exact (finalize_requires_items 10 (store_of bill_1_48) user_y 7 bill_1_48 eq_refl).
Defined.

Lemma currency_kept_by_other_events_witness :
  let st : Store float := store_of bill_1_48 in
  let e := EvCallback user_y (CbCurrency "JPY") 3 in
  fst (step st 10 e) = st
  \/ fst (step st 10 e) = delete_one st bill_1_48
  \/ exists b', fst (step st 10 e) = save_bill st b'
       /\ _id b' = _id (@bill_1_48 float _)
       /\ currency b' = currency (@bill_1_48 float _).
Proof.
  exact (currency_kept_by_other_events 10 (store_of bill_1_48)
           (EvCallback user_y (CbCurrency "JPY") 3) bill_1_48 eq_refl eq_refl).
Defined.

(** C3, as stated, fails: the bill's currency is THB, the creator presses
    the JPY button, and the stored currency becomes JPY. *)
Lemma currency_overwritten_by_second_choice :
  let st : Store float := store_of bill_1_48 in
  exists b b',
    get_active_bill st 10 = Some b /\ currency b = Some "THB"
    /\ get_active_bill (fst (step st 10 (EvCallback user_x (CbCurrency "JPY") 3))) 10
       = Some b'
    /\ currency b' = Some "JPY".
Proof.
  cbv zeta. eexists. eexists.
  split; [reflexivity|]. split; [reflexivity|]. split; reflexivity.
Qed.

(** ** /additem: what is accepted *)

Lemma dropwhile_head (p : ascii -> bool) (s : list ascii) (c : ascii) (r : list ascii) :
  dropwhile p s = c :: r -> p c = false.
Proof.
  induction s as [|a s IH]; cbn [dropwhile]; [discriminate|].
  destruct (p a) eqn:Hp; [exact IH|].
  intros Heq. injection Heq as -> _. exact Hp.
Qed.

Lemma dropwhile_snoc (p : ascii -> bool) (pre : list ascii) (c : ascii) :
  p c = false -> exists q, dropwhile p (pre ++ [c]) = q ++ [c].
Proof.
  intros Hc. induction pre as [|a pre IH]; cbn [app dropwhile].
  - rewrite Hc. exists []. reflexivity.
  - destruct (p a).
    + exact IH.
    + exists (a :: pre). reflexivity.
Qed.

(** Stripping text that ends in something other than whitespace leaves
    something. *)
Lemma strip_chars_snoc (pre : list ascii) (c : ascii) :
  is_space c = false -> strip_chars (pre ++ [c]) <> [].
Proof.
  intros Hc. unfold strip_chars.
  destruct (dropwhile_snoc is_space pre c Hc) as [q ->].
  rewrite rev_app_distr. cbn [rev app dropwhile]. rewrite Hc.
  cbn [rev]. destruct (rev (rev q)); discriminate.
Qed.

(** The first part of a two-part [rsplit(None, 1)] ends in a character
    that is not whitespace. *)
Lemma rsplit1_chars_first (s a b : list ascii) :
  rsplit1_chars s = [a; b] ->
  exists pre c, a = pre ++ [c] /\ is_space c = false.
Proof.
  unfold rsplit1_chars.
  destruct (dropwhile is_space (rev s)) as [|x r] eqn:Hr; [discriminate|].
  destruct (dropwhile is_space (dropwhile non_space (x :: r))) as [|c rest] eqn:Hrest;
    [discriminate|].
  intros Heq. injection Heq as <- _.
  exists (rev rest), c. split; [reflexivity|].
  apply (dropwhile_head _ _ _ _ Hrest).
Qed.

Lemma nonempty_string_of_list (l : list ascii) :
  l <> [] -> nonempty (string_of_list_ascii l) = true.
Proof. destruct l; [congruence | reflexivity]. Qed.

Lemma rsplit1_name_nonempty (text part0 part1 : string) :
  rsplit1 text = [part0; part1] -> nonempty (strip part0) = true.
Proof.
  unfold rsplit1. intros Hsplit.
  destruct (rsplit1_chars (list_ascii_of_string text)) as [|a [|b [|? ?]]] eqn:Hc;
    cbn [map] in Hsplit; try discriminate.
  injection Hsplit as <- _.
  destruct (rsplit1_chars_first _ _ _ Hc) as (pre & c & -> & Hsp).
  unfold strip. rewrite list_ascii_of_string_of_list_ascii.
  apply nonempty_string_of_list, strip_chars_snoc, Hsp.
Qed.

Lemma rsplit1_empty (text : string) :
  nonempty text = false -> rsplit1 text = [].
Proof. destruct text; [reflexivity | discriminate]. Qed.

Section AddItemFacts.
Context {A : Type} `{PyNum A} `{PyParse A}.
Variable chat : Z.                     (* update.effective_chat.id *)

(** C4, as the code has it.  /additem on an active bill either appends
    one item, with the next id, the trimmed and non-empty name and a price
    [p] for which [p <= 0] is false, and moves the next id on by one; or
    it answers with a usage or "invalid price" message and leaves the
    store as it was, and then the text has no name part, no parsable
    price, or a price with [p <= 0]. *)
Theorem additem_validation (st : Store A) (text : string) (bill : Bill A) :
  get_active_bill st chat = Some bill ->
  (exists part0 part1 p,
      rsplit1 text = [part0; part1]
      /\ of_string (remove_commas part1) = Some p
      /\ leb p zero = false
      /\ nonempty (strip part0) = true
      /\ let item := {| id := next_item_id bill; name := strip part0;
                        price := p; claimed_by := [] |} in
         cmd_additem st chat text
         = (save_bill st
              (set_next_item_id (set_items bill (items bill ++ [item]))
                 (next_item_id bill + 1)),
            Added item))
  \/ (fst (cmd_additem st chat text) = st
      /\ (snd (cmd_additem st chat text) = Usage
          \/ snd (cmd_additem st chat text) = ProvideBoth
          \/ snd (cmd_additem st chat text) = InvalidPrice)
      /\ forall part0 part1 p,
           rsplit1 text = [part0; part1] ->
           of_string (remove_commas part1) = Some p ->
           leb p zero = true).
Proof.
  intros Ha. unfold cmd_additem. rewrite Ha.
  destruct (nonempty text) eqn:Htext; cbn [negb].
  2:{ right. split; [reflexivity|]. split; [left; reflexivity|].
      intros part0 part1 p Hs. rewrite (rsplit1_empty _ Htext) in Hs. discriminate. }
  destruct (rsplit1 text) as [|part0 [|part1 [|x l]]] eqn:Hsplit.
  1,2,4: right; split; [reflexivity|]; split; [right; left; reflexivity|];
         intros ? ? ? Hs; discriminate.
  destruct (of_string (remove_commas part1)) as [p|] eqn:Hparse.
  2:{ right. split; [reflexivity|]. split; [right; right; reflexivity|].
      intros ? ? ? Hs Hp. injection Hs as <- <-. congruence. }
  destruct (leb p zero) eqn:Hle.
  - right. split; [reflexivity|]. split; [right; right; reflexivity|].
    intros ? ? ? Hs Hp. injection Hs as <- <-. congruence.
  - left. exists part0, part1, p.
    split; [reflexivity|]. split; [exact Hparse|]. split; [exact Hle|].
    split; [exact (rsplit1_name_nonempty _ _ _ Hsplit)|].
    reflexivity.
Qed.

End AddItemFacts.

Lemma additem_validation_witness :
  let st : Store float := store_of bill_1_48 in
  let text := " Pad Thai   1,500 " in
  (exists part0 part1 p,
      rsplit1 text = [part0; part1]
      /\ of_string (remove_commas part1) = Some p
      /\ leb p zero = false
      /\ nonempty (strip part0) = true
      /\ let item := {| id := next_item_id (@bill_1_48 float _); name := strip part0;
                        price := p; claimed_by := [] |} in
         cmd_additem st 10 text
         = (save_bill st
              (set_next_item_id
                 (set_items bill_1_48 (items (@bill_1_48 float _) ++ [item]))
                 (next_item_id (@bill_1_48 float _) + 1)),
            Added item))
  \/ (fst (cmd_additem st 10 text) = st
      /\ (snd (cmd_additem st 10 text) = Usage
          \/ snd (cmd_additem st 10 text) = ProvideBoth
          \/ snd (cmd_additem st 10 text) = InvalidPrice)
      /\ forall part0 part1 p,
           rsplit1 text = [part0; part1] ->
           of_string (remove_commas part1) = Some p ->
           leb p zero = true).
Proof.
  exact (additem_validation 10 (store_of bill_1_48) " Pad Thai   1,500 " bill_1_48
           eq_refl).
Defined.

(** C4, as stated, fails: [/additem Beer inf] is accepted; the price
    [float("inf")] is not [<= 0], and the item is appended with id 3. *)
Lemma additem_accepts_infinity :
  let st : Store float := store_of bill_1_48 in
  exists st' item b',
    cmd_additem st 10 "Beer inf" = (st', Added item)
    /\ PrimFloat.is_infinity (price item) = true
    /\ get_active_bill st' 10 = Some b'
    /\ items b' = items (@bill_1_48 float _) ++ [item]
    /\ next_item_id b' = (next_item_id (@bill_1_48 float _) + 1)%Z.
Proof.
  cbv zeta. eexists. eexists. eexists.
  split; [reflexivity|]. split; [reflexivity|]. split; [reflexivity|].
  split; reflexivity.
Qed.

(** ** Exact arithmetic *)

Lemma Q_eqb_false (x y : Q) : Qeq_bool x y = false -> ~ x == y.
Proof. intros Hb Heq. apply Qeq_bool_iff in Heq. congruence. Qed.

Lemma Q_or0_nonneg (v : option Q) :
  option_nonneg v = true -> 0 <= or0 v.
Proof.
  destruct v as [x|]; cbn [option_nonneg or0]; intros Hx.
  - destruct (truthy x).
    + apply Qle_bool_iff, Hx.
    + apply Qle_refl.
  - apply Qle_refl.
Qed.

Lemma Q_one_plus_pct_nonzero (v : Q) : 0 <= v -> ~ 1 + v / 100 == 0.
Proof.
  intros Hv Heq.
  assert (Hdiv : 0 <= v / 100).
  { apply Qle_shift_div_l; [reflexivity|]. rewrite Qmult_0_l. exact Hv. }
  assert (Hpos : 0 < 1 + v / 100).
  { apply Qlt_le_trans with 1; [reflexivity|].
    rewrite <- (Qplus_0_r 1) at 1. apply Qplus_le_r. exact Hdiv. }
  rewrite Heq in Hpos. inversion Hpos.
Qed.

(** C10, in exact arithmetic.  With a VAT percentage that is not
    negative, [person_grand_total] and [person_fee_breakdown] both return,
    and the proportional total equals the breakdown's total, in every fee
    mode and when the subtotal is zero. *)
Theorem person_grand_total_is_breakdown_total (b : Bill Q) (u : Z) :
  option_nonneg (vat_pct b) = true ->
  exists g s sc_amt vat_amt total,
    person_grand_total b u = Some g
    /\ person_fee_breakdown b u = Some (s, sc_amt, vat_amt, total)
    /\ g == total.
Proof.
  intros Hvat.
  pose proof (Q_one_plus_pct_nonzero _ (Q_or0_nonneg _ Hvat)) as Hvnz.
  unfold person_grand_total, person_fee_breakdown, bill_grand_total.
  destruct (eqb (bill_total b) zero) eqn:Hz.
  { exists zero, zero, zero, zero, zero. repeat split; reflexivity. }
  destruct (person_total_some b u) as [p ->].
  assert (Hsub : ~ bill_total b == 0) by (apply Q_eqb_false, Hz).
  unfold truediv at 1. rewrite Hz.
  set (S := bill_total b) in *.
  set (sc := or0 (service_charge_pct b)) in *.
  set (vat := or0 (vat_pct b)) in *.
  destruct (mode_is (fees_mode b) "both_inclusive").
  { set (divisor := ((one + sc / hundred) * (one + vat / hundred))%py).
    assert (Hbase : exists base,
      (if truthy divisor then truediv p divisor else Some p) = Some base).
    { unfold truthy, truediv. destruct (eqb divisor zero); cbn [negb]; eauto. }
    destruct Hbase as [base ->].
    do 5 eexists. split; [reflexivity|]. split; [reflexivity|].
    cbn. field. exact Hsub. }
  destruct (mode_is (fees_mode b) "sc_exclusive_vat_inclusive").
  { assert (Hbv : exists before_vat,
      (if truthy vat
       then truediv (p * (one + sc / hundred))%py (one + vat / hundred)%py
       else Some (p * (one + sc / hundred))%py) = Some before_vat).
    { destruct (truthy vat); [|eauto].
      unfold truediv.
      destruct (eqb (one + vat / hundred)%py zero) eqn:E; [|eauto].
      exfalso. apply Hvnz. apply Qeq_bool_iff in E. exact E. }
    destruct Hbv as [before_vat ->].
    do 5 eexists. split; [reflexivity|]. split; [reflexivity|].
    cbn. field. exact Hsub. }
  destruct (mode_is (fees_mode b) "both_exclusive").
  { do 5 eexists. split; [reflexivity|]. split; [reflexivity|].
    cbn. field. exact Hsub. }
  do 5 eexists. split; [reflexivity|]. split; [reflexivity|].
  cbn. field. exact Hsub.
Qed.

Lemma person_grand_total_is_breakdown_total_witness :
  exists g s sc_amt vat_amt total,
    person_grand_total (@bill_one_unclaimed Q _) 1 = Some g
    /\ person_fee_breakdown (@bill_one_unclaimed Q _) 1
       = Some (s, sc_amt, vat_amt, total)
    /\ g == total.
Proof.
  exact (person_grand_total_is_breakdown_total bill_one_unclaimed 1 eq_refl).
Defined.

(** C10, as stated, fails on floats: items of 1 (claimed by X) and 48
    (claimed by Y), no fee mode.  X's breakdown total is 1.0, and X's
    proportional total is [49.0 * (1.0 / 49.0) = 0.9999999999999999]. *)
Lemma person_grand_total_differs_on_floats :
  exists g s sc_amt vat_amt total,
    person_grand_total (@bill_1_48 float _) 1 = Some g
    /\ person_fee_breakdown (@bill_1_48 float _) 1
       = Some (s, sc_amt, vat_amt, total)
    /\ PrimFloat.eqb g total = false
    /\ PrimFloat.ltb g total = true.
Proof.
  do 5 eexists. split; [vm_compute; reflexivity|].
  split; [vm_compute; reflexivity|]. split; vm_compute; reflexivity.
Qed.

(** ** Conservation, in exact arithmetic *)

Lemma fold_left_Qplus (l : list Q) :
  forall a, fold_left Qplus l a == a + Qsum l.
Proof.
  induction l as [|x l IH]; intros a; cbn [fold_left Qsum fold_right].
  - ring.
  - rewrite IH. unfold Qsum. ring.
Qed.

Lemma py_sum_Qsum (l : list Q) : py_sum l == Qsum l.
Proof.
  unfold py_sum. change (fold_left Qplus l 0 == Qsum l).
  rewrite fold_left_Qplus. ring.
Qed.

Lemma Qsum_cons (x : Q) (l : list Q) : Qsum (x :: l) = x + Qsum l.
Proof. reflexivity. Qed.

Lemma Qsum_map_plus {X : Type} (f g : X -> Q) (l : list X) :
  Qsum (map (fun x => f x + g x) l) == Qsum (map f l) + Qsum (map g l).
Proof.
  induction l as [|x l IH]; cbn [map]; rewrite ?Qsum_cons.
  - reflexivity.
  - rewrite IH. ring.
Qed.

Lemma Qsum_map_ext {X : Type} (f g : X -> Q) (l : list X) :
  (forall x, In x l -> f x == g x) ->
  Qsum (map f l) == Qsum (map g l).
Proof.
  induction l as [|x l IH]; intros Hfg; cbn [map]; rewrite ?Qsum_cons.
  - reflexivity.
  - rewrite (Hfg x (or_introl eq_refl)), IH; [reflexivity|].
    intros y Hy. apply Hfg. right. exact Hy.
Qed.

(** Adding [c] once for every element that passes a test. *)
Lemma Qsum_indicator {X : Type} (p : X -> bool) (c : Q) (l : list X) :
  Qsum (map (fun x => if p x then c else 0) l)
  == inject_Z (Z.of_nat (List.length (filter p l))) * c.
Proof.
  induction l as [|x l IH]; cbn [map filter]; rewrite ?Qsum_cons.
  - unfold Qsum. cbn. ring.
  - rewrite IH. destruct (p x); cbn [List.length].
    + rewrite Nat2Z.inj_succ. unfold Z.succ. rewrite inject_Z_plus. ring.
    + ring.
Qed.

(** Summing over the members who hold a claim, or over all members, is
    the same when the others contribute nothing. *)
Lemma Qsum_filter_zero {X : Type} (p : X -> bool) (f : X -> Q) (l : list X) :
  (forall x, In x l -> p x = false -> f x == 0) ->
  Qsum (map f (filter p l)) == Qsum (map f l).
Proof.
  induction l as [|x l IH]; intros Hz; cbn [map filter]; [reflexivity|].
  assert (IH' : Qsum (map f (filter p l)) == Qsum (map f l)).
  { apply IH. intros y Hy. apply Hz. right. exact Hy. }
  destruct (p x) eqn:Hp; cbn [map]; rewrite ?Qsum_cons.
  - rewrite IH'. reflexivity.
  - rewrite IH', (Hz x (or_introl eq_refl) Hp). ring.
Qed.

Lemma person_total_step_Q (u : Z) (t : Q) (it : Item Q) :
  exists t', person_total_step u (Some t) it = Some t'
             /\ t' == t + item_part u it.
Proof.
  unfold person_total_step, item_part, share_Q.
  destruct (claims_has u (claimed_by it)).
  - destruct (item_per_person_some it) as [v ->].
    exists (t + v). split; reflexivity.
  - exists t. split; [reflexivity | ring].
Qed.

Lemma person_total_fold_Q (u : Z) (l : list (Item Q)) :
  forall t, exists t',
    fold_left (person_total_step u) l (Some t) = Some t'
    /\ t' == t + person_sum u l.
Proof.
  unfold person_sum.
  induction l as [|it l IH]; intros t; cbn [fold_left map].
  - exists t. split; [reflexivity|]. unfold Qsum. cbn. ring.
  - destruct (person_total_step_Q u t it) as (t1 & -> & H1).
    destruct (IH t1) as (t' & -> & H').
    exists t'. split; [reflexivity|].
    rewrite H', H1, Qsum_cons. ring.
Qed.

Lemma person_total_Q (b : Bill Q) (u : Z) :
  exists t, person_total b u = Some t /\ t == person_sum u (items b).
Proof.
  destruct (person_total_fold_Q u (items b) zero) as (t & Ht & Heq).
  exists t. split; [exact Ht|]. rewrite Heq. unfold zero. cbn. ring.
Qed.

(** *** Who claims an item *)

Lemma nodupb_NoDup (l : list Z) : nodupb l = true -> NoDup l.
Proof.
  induction l as [|x l IH]; cbn [nodupb]; intros Hn; [constructor|].
  apply andb_true_iff in Hn. destruct Hn as [Hx Hl].
  constructor; [|apply IH, Hl].
  intros Hin. apply negb_true_iff in Hx.
  assert (Hex : existsb (Z.eqb x) l = true).
  { apply existsb_exists. exists x. split; [exact Hin | apply Z.eqb_refl]. }
  congruence.
Qed.

Lemma is_member_in (u : Z) (ms : list (Z * string)) :
  is_member u ms = true <-> In u (map fst ms).
Proof.
  unfold is_member. rewrite existsb_exists, in_map_iff. split.
  - intros (m & Hm & He). exists m. apply Z.eqb_eq in He. auto.
  - intros (m & He & Hm). exists m. split; [exact Hm | apply Z.eqb_eq, He].
Qed.

(** Among distinct keys, as many pass "is one of [us]" as [us] has
    entries, when [us] are distinct keys. *)
Lemma count_listed (ks us : list Z) :
  NoDup ks -> NoDup us -> incl us ks ->
  List.length (filter (fun k => existsb (Z.eqb k) us) ks) = List.length us.
Proof.
  intros Hks. revert us.
  induction ks as [|k ks IH]; intros us Hus Hincl.
  - destruct us as [|a us]; [reflexivity|].
    exfalso. apply (Hincl a). left. reflexivity.
  - inversion Hks as [|? ? Hk Hks']; subst.
    cbn [filter].
    destruct (existsb (Z.eqb k) us) eqn:Hex.
    + (* k is listed: remove it from us *)
      apply existsb_exists in Hex. destruct Hex as (a & Ha & Heq).
      apply Z.eqb_eq in Heq. subst a.
      destruct (in_split _ _ Ha) as (u1 & u2 & ->).
      assert (Hus' : NoDup (u1 ++ u2)) by (apply NoDup_remove_1 with k; exact Hus).
      assert (Hnot : ~ In k (u1 ++ u2)) by (apply NoDup_remove_2; exact Hus).
      cbn [List.length]. rewrite length_app. cbn [List.length].
      rewrite <- plus_n_Sm, <- length_app. f_equal.
      rewrite <- (IH Hks' (u1 ++ u2) Hus').
      * apply f_equal. apply filter_ext_in. intros x Hx.
        rewrite !existsb_app. cbn [existsb].
        destruct (Z.eqb_spec x k) as [->|Hne]; [contradiction|].
        rewrite orb_false_l. reflexivity.
      * intros x Hx.
        assert (Hin : In x (k :: ks)).
        { apply Hincl. apply in_app_iff in Hx. apply in_app_iff.
          destruct Hx; [left | right; right]; assumption. }
        destruct Hin as [<-|Hin]; [contradiction | exact Hin].
    + apply IH; [exact Hks' | exact Hus |].
      intros x Hx. destruct (Hincl x Hx) as [<-|Hin]; [|exact Hin].
      exfalso.
      assert (Hex' : existsb (Z.eqb k) us = true).
      { apply existsb_exists. exists k. split; [exact Hx | apply Z.eqb_refl]. }
      congruence.
Qed.

Lemma claims_has_existsb (u : Z) (cs : list Claim) :
  claims_has u cs = existsb (Z.eqb u) (map user_id cs).
Proof.
  unfold claims_has. induction cs as [|c cs IH]; cbn [existsb map]; [reflexivity|].
  rewrite IH, (Z.eqb_sym u). reflexivity.
Qed.

Lemma map_fst_filter (p : Z -> bool) (ms : list (Z * string)) :
  map fst (filter (fun m => p (fst m)) ms) = filter p (map fst ms).
Proof.
  induction ms as [|m ms IH]; cbn [filter map]; [reflexivity|].
  destruct (p (fst m)); cbn [map]; rewrite IH; reflexivity.
Qed.

(** The members who claim an item are as many as its claims. *)
Lemma claimants_count (ms : list (Z * string)) (cs : list Claim) :
  nodupb (map fst ms) = true ->
  nodupb (map user_id cs) = true ->
  forallb (fun c => is_member (user_id c) ms) cs = true ->
  List.length (filter (fun m => claims_has (fst m) cs) ms) = List.length cs.
Proof.
  intros Hms Hcs Hjoined.
  rewrite <- (length_map user_id cs).
  rewrite <- (count_listed (map fst ms) (map user_id cs)).
  - rewrite <- (map_fst_filter (fun k => existsb (Z.eqb k) (map user_id cs)) ms).
    rewrite length_map. f_equal. apply filter_ext.
    intros m. apply claims_has_existsb.
  - apply nodupb_NoDup, Hms.
  - apply nodupb_NoDup, Hcs.
  - intros u Hu. apply in_map_iff in Hu. destruct Hu as (c & <- & Hc).
    rewrite forallb_forall in Hjoined.
    apply is_member_in, Hjoined, Hc.
Qed.

(** Over all members, an item is paid for exactly once when somebody
    claims it. *)
Lemma members_cover_item (ms : list (Z * string)) (it : Item Q) :
  nodupb (map fst ms) = true ->
  nodupb (map user_id (claimed_by it)) = true ->
  forallb (fun c => is_member (user_id c) ms) (claimed_by it) = true ->
  Qsum (map (fun m => item_part (fst m) it) ms) == claimed_part it.
Proof.
  intros Hms Hcs Hjoined. unfold item_part.
  rewrite (Qsum_indicator (fun m => claims_has (fst m) (claimed_by it)) (share_Q it) ms).
  rewrite (claimants_count ms (claimed_by it) Hms Hcs Hjoined).
  unfold claimed_part, share_Q, item_per_person.
  destruct (claimed_by it) as [|c cs].
  - cbn. ring.
  - cbn [List.length Nat.ltb Nat.leb truediv_int].
    change (inject_Z (Z.of_nat (S (List.length cs)))
            * (price it / inject_Z (Z.of_nat (S (List.length cs)))) == price it).
    field. intros Hz.
    assert (Hpos : (0 < Z.of_nat (S (List.length cs)))%Z) by lia.
    rewrite Zlt_Qlt in Hpos. rewrite Hz in Hpos. inversion Hpos.
Qed.

Lemma person_sum_cons (u : Z) (it : Item Q) (l : list (Item Q)) :
  person_sum u (it :: l) = item_part u it + person_sum u l.
Proof. reflexivity. Qed.

(** Over all members, the member subtotals add up to the prices of the
    claimed items. *)
Lemma members_cover_claimed (ms : list (Z * string)) (l : list (Item Q)) :
  nodupb (map fst ms) = true ->
  forallb (fun it => nodupb (map user_id (claimed_by it))) l = true ->
  forallb (fun it => forallb (fun c => is_member (user_id c) ms) (claimed_by it)) l
    = true ->
  Qsum (map (fun m => person_sum (fst m) l) ms) == Qsum (map claimed_part l).
Proof.
  intros Hms. induction l as [|it l IH]; intros Hd Hj.
  - clear Hms Hd Hj. induction ms as [|m ms IHm]; cbn [map]; [reflexivity|].
    rewrite Qsum_cons, IHm. unfold person_sum, Qsum. cbn. ring.
  - cbn [forallb] in Hd, Hj.
    apply andb_true_iff in Hd. destruct Hd as [Hd1 Hd].
    apply andb_true_iff in Hj. destruct Hj as [Hj1 Hj].
    cbn [map]. rewrite Qsum_cons, <- (IH Hd Hj),
      <- (members_cover_item ms it Hms Hd1 Hj1).
    rewrite <- Qsum_map_plus. apply Qsum_map_ext.
    intros m _. rewrite person_sum_cons. reflexivity.
Qed.

Lemma price_parts (it : Item Q) : price it == claimed_part it + unclaimed_part it.
Proof.
  unfold claimed_part, unclaimed_part. destruct (claimed_by it); ring.
Qed.

Lemma bill_total_parts (b : Bill Q) :
  bill_total b
  == Qsum (map claimed_part (items b)) + Qsum (map unclaimed_part (items b)).
Proof.
  unfold bill_total. rewrite py_sum_Qsum, <- Qsum_map_plus.
  apply Qsum_map_ext. intros it _. apply price_parts.
Qed.

Lemma unclaimed_total_parts (b : Bill Q) :
  unclaimed_total b == Qsum (map unclaimed_part (items b)).
Proof.
  unfold unclaimed_total, unclaimed_items. rewrite py_sum_Qsum.
  induction (items b) as [|it l IH]; [reflexivity|].
  cbn [filter map].
  destruct (claimed_by it) eqn:Hc; cbn [map]; rewrite ?Qsum_cons, IH.
  - replace (unclaimed_part it) with (price it)
      by (unfold unclaimed_part; rewrite Hc; reflexivity).
    reflexivity.
  - replace (unclaimed_part it) with 0
      by (unfold unclaimed_part; rewrite Hc; reflexivity).
    ring.
Qed.

Lemma no_claims_no_sum (u : Z) (l : list (Item Q)) :
  existsb (fun it => claims_has u (claimed_by it)) l = false ->
  person_sum u l == 0.
Proof.
  induction l as [|it l IH]; cbn [existsb]; intros Hn; [reflexivity|].
  apply orb_false_iff in Hn. destruct Hn as [H1 H2].
  rewrite person_sum_cons, (IH H2). unfold item_part. rewrite H1. ring.
Qed.

Lemma positive_prices_sum (l : list (Item Q)) :
  forallb (fun it => Qpos_b (price it)) l = true ->
  l <> [] -> 0 < Qsum (map (@price Q) l).
Proof.
  induction l as [|it l IH]; intros Hp Hne; [congruence|].
  cbn [forallb] in Hp. apply andb_true_iff in Hp. destruct Hp as [Hit Hl].
  cbn [map]. rewrite Qsum_cons.
  assert (Hpos : 0 < price it).
  { unfold Qpos_b in Hit. apply negb_true_iff in Hit.
    apply Qnot_le_lt. intros Hle. apply Qle_bool_iff in Hle. congruence. }
  destruct l as [|it' l'].
  - change (0 < price it + 0). lra.
  - assert (0 < Qsum (map (@price Q) (it' :: l'))) by (apply IH; [exact Hl | discriminate]).
    lra.
Qed.

Lemma zero_subtotal_no_items (b : Bill Q) :
  forallb (fun it => Qpos_b (price it)) (items b) = true ->
  Qeq_bool (bill_total b) 0 = true -> items b = [].
Proof.
  intros Hp Hz. apply Qeq_bool_iff in Hz.
  unfold bill_total in Hz. rewrite py_sum_Qsum in Hz.
  destruct (items b) as [|it l] eqn:Hitems; [reflexivity|].
  assert (0 < Qsum (map (@price Q) (it :: l))) by (apply positive_prices_sum; [exact Hp | discriminate]).
  lra.
Qed.

(** *** Grand total and payable as subtotal times the fee factor *)

Lemma bill_grand_total_factor (b : Bill Q) :
  bill_grand_total b == bill_total b * fee_factor b.
Proof.
  unfold bill_grand_total, fee_factor, fee_mode_of.
  destruct (mode_is (fees_mode b) "both_inclusive"); [cbn; ring|].
  destruct (mode_is (fees_mode b) "sc_exclusive_vat_inclusive"); [cbn; ring|].
  destruct (mode_is (fees_mode b) "both_exclusive"); cbn; ring.
Qed.

Lemma unclaimed_bill_grand_total (b : Bill Q) :
  bill_grand_total (unclaimed_bill b) == unclaimed_total b * fee_factor b.
Proof. apply (bill_grand_total_factor (unclaimed_bill b)). Qed.

Lemma payable_Q (b : Bill Q) (u : Z) :
  option_nonneg (vat_pct b) = true ->
  exists t, payable b u = Some t
    /\ (Qeq_bool (bill_total b) 0 = true -> t == 0)
    /\ (Qeq_bool (bill_total b) 0 = false ->
        t == person_sum u (items b) * fee_factor b).
Proof.
  intros Hvat.
  pose proof (Q_one_plus_pct_nonzero _ (Q_or0_nonneg _ Hvat)) as Hvnz.
  unfold payable, person_fee_breakdown, fee_factor, fee_mode_of.
  change (eqb (bill_total b) zero) with (Qeq_bool (bill_total b) 0).
  destruct (Qeq_bool (bill_total b) 0) eqn:Hz.
  { exists 0. split; [reflexivity|]. split; [reflexivity | discriminate]. }
  destruct (person_total_Q b u) as (p & -> & Hp).
  set (sc := or0 (service_charge_pct b)) in *.
  set (vat := or0 (vat_pct b)) in *.
  destruct (mode_is (fees_mode b) "both_inclusive").
  { set (divisor := ((one + sc / hundred) * (one + vat / hundred))%py).
    assert (Hbase : exists base,
      (if truthy divisor then truediv p divisor else Some p) = Some base).
    { unfold truthy, truediv. destruct (eqb divisor zero); cbn [negb]; eauto. }
    destruct Hbase as [base ->].
    exists p. split; [reflexivity|]. split; [discriminate|].
    intros _. rewrite Hp. cbn. ring. }
  destruct (mode_is (fees_mode b) "sc_exclusive_vat_inclusive").
  { assert (Hbv : exists before_vat,
      (if truthy vat
       then truediv (p * (one + sc / hundred))%py (one + vat / hundred)%py
       else Some (p * (one + sc / hundred))%py) = Some before_vat).
    { destruct (truthy vat); [|eauto].
      unfold truediv.
      destruct (eqb (one + vat / hundred)%py zero) eqn:E; [|eauto].
      exfalso. apply Hvnz. apply Qeq_bool_iff in E. exact E. }
    destruct Hbv as [before_vat ->].
    eexists. split; [reflexivity|]. split; [discriminate|].
    intros _. rewrite <- Hp. cbn. ring. }
  destruct (mode_is (fees_mode b) "both_exclusive").
  { eexists. split; [reflexivity|]. split; [discriminate|].
    intros _. rewrite <- Hp. cbn. field. }
  exists p. split; [reflexivity|]. split; [discriminate|].
  intros _. rewrite Hp. cbn. ring.
Qed.

Lemma sum_payables_Q (b : Bill Q) (ms : list (Z * string)) :
  option_nonneg (vat_pct b) = true ->
  exists s, sum_payables b ms = Some s
    /\ (Qeq_bool (bill_total b) 0 = true -> s == 0)
    /\ (Qeq_bool (bill_total b) 0 = false ->
        s == Qsum (map (fun m => person_sum (fst m) (items b)) ms) * fee_factor b).
Proof.
  intros Hvat. induction ms as [|m ms IH]; cbn [sum_payables map].
  - exists 0. split; [reflexivity|]. split; [reflexivity|].
    intros _. unfold Qsum. cbn. ring.
  - destruct (payable_Q b (fst m) Hvat) as (t & -> & Ht0 & Ht).
    destruct IH as (s & -> & Hs0 & Hs).
    exists (t + s). split; [reflexivity|]. split.
    + intros Hz. rewrite (Ht0 Hz), (Hs0 Hz). ring.
    + intros Hz. rewrite (Ht Hz), (Hs Hz), Qsum_cons. ring.
Qed.

Lemma well_formed_parts (b : Bill Q) :
  well_formed b = true ->
  forallb (fun it => Qpos_b (price it)) (items b) = true
  /\ forallb (fun it => nodupb (map user_id (claimed_by it))) (items b) = true
  /\ forallb (fun it =>
       forallb (fun c => is_member (user_id c) (members b)) (claimed_by it))
       (items b) = true
  /\ nodupb (map fst (members b)) = true
  /\ option_nonneg (service_charge_pct b) = true
  /\ option_nonneg (vat_pct b) = true.
Proof.
  unfold well_formed. intros Hwf.
  repeat (apply andb_true_iff in Hwf; destruct Hwf as [Hwf ?]).
  repeat split; assumption.
Qed.

(** C1, as the code has it, in exact arithmetic.  For a well-formed bill
    the payables of the members who hold a claim, plus the grand total of
    the unclaimed items under the bill's fees, are the bill's grand total.
    Under [both_inclusive] or with no mode that grand total of the
    unclaimed items is the sum of their raw prices, and it is zero when
    every item is claimed. *)
Theorem conservation_exact (b : Bill Q) :
  well_formed b = true ->
  exists s,
    sum_payables b (members_with_claims b) = Some s
    /\ s + bill_grand_total (unclaimed_bill b) == bill_grand_total b
    /\ (fee_mode_of (fees_mode b) = Some AllInclusive
        \/ fee_mode_of (fees_mode b) = None ->
        bill_grand_total (unclaimed_bill b) = unclaimed_total b)
    /\ (unclaimed_items b = [] -> bill_grand_total (unclaimed_bill b) == 0).
Proof.
  intros Hwf.
  destruct (well_formed_parts b Hwf) as (Hpos & Hdist & Hjoin & Hkeys & _ & Hvat).
  destruct (sum_payables_Q b (members_with_claims b) Hvat) as (s & Hs & Hs0 & Hs1).
  exists s. split; [exact Hs|]. split; [|split].
  - rewrite unclaimed_bill_grand_total, bill_grand_total_factor.
    destruct (Qeq_bool (bill_total b) 0) eqn:Hz.
    + rewrite (Hs0 eq_refl), unclaimed_total_parts.
      pose proof (bill_total_parts b) as Hparts.
      rewrite (zero_subtotal_no_items b Hpos Hz) in *.
      rewrite Hparts. unfold Qsum. cbn. ring.
    + rewrite (Hs1 eq_refl), unclaimed_total_parts, bill_total_parts.
      unfold members_with_claims.
      rewrite (Qsum_filter_zero (fun m => has_claims b (fst m))
                 (fun m => person_sum (fst m) (items b)) (members b)).
      * rewrite (members_cover_claimed (members b) (items b) Hkeys Hdist Hjoin).
        ring.
      * intros m _ Hno. apply no_claims_no_sum. exact Hno.
  - unfold bill_grand_total, unclaimed_total, unclaimed_bill, fee_mode_of.
    cbn [fees_mode set_items].
    destruct (mode_is (fees_mode b) "both_inclusive"); [reflexivity|].
    destruct (mode_is (fees_mode b) "sc_exclusive_vat_inclusive");
      [intros [Hm|Hm]; discriminate|].
    destruct (mode_is (fees_mode b) "both_exclusive");
      [intros [Hm|Hm]; discriminate|].
    reflexivity.
  - intros Hnone. rewrite unclaimed_bill_grand_total.
    unfold unclaimed_total. rewrite Hnone. cbn. ring.
Qed.

Lemma conservation_exact_witness :
  exists s,
    sum_payables (@bill_one_unclaimed Q _) (members_with_claims bill_one_unclaimed)
    = Some s
    /\ s + bill_grand_total (unclaimed_bill (@bill_one_unclaimed Q _))
       == bill_grand_total (@bill_one_unclaimed Q _)
    /\ (fee_mode_of (fees_mode (@bill_one_unclaimed Q _)) = Some AllInclusive
        \/ fee_mode_of (fees_mode (@bill_one_unclaimed Q _)) = None ->
        bill_grand_total (unclaimed_bill (@bill_one_unclaimed Q _))
        = unclaimed_total bill_one_unclaimed)
    /\ (unclaimed_items (@bill_one_unclaimed Q _) = [] ->
        bill_grand_total (unclaimed_bill (@bill_one_unclaimed Q _)) == 0).
Proof.
  exact (conservation_exact bill_one_unclaimed eq_refl).
Defined.

(** C1, as stated, fails: item A (300) is claimed by X, item B (200) by
    nobody, SC 10% and VAT 7% both on top.  X's payable is 353.1 and the
    raw price of B is 200, together 553.1; the grand total is 588.5. *)
Lemma conservation_raw_fails :
  conservation_raw (@bill_one_unclaimed float _) = Some false
  /\ conservation_raw (@bill_one_unclaimed Q _) = Some false.
Proof. split; vm_compute; reflexivity. Qed.

(** * More of the handlers *)

(** ** What every update does to the store *)

Section StepShape.
Context {A : Type} `{PyNum A} `{PyParse A}.
Variable chat : Z.                     (* update.effective_chat.id *)

Lemma find_member_by_name_member (ms : list (Z * string)) (t : string)
  (u : Z) (nm : string) :
  find_member_by_name ms t = Some (u, nm) -> is_member u ms = true.
Proof.
  induction ms as [|[u0 n0] ms IH]; cbn [find_member_by_name]; [discriminate|].
  destruct (String.eqb (lower n0) (lower (String "@"%char t))).
  - intros Heq. injection Heq as -> ->. cbn. rewrite Z.eqb_refl. reflexivity.
  - intros Hf. unfold is_member in *. cbn [existsb]. rewrite (IH Hf).
    apply orb_true_r.
Qed.

Lemma bill_change_id (b b' : Bill A) : bill_change b b' -> _id b' = _id b.
Proof.
  induction 1; try reflexivity; try assumption.
  congruence.
Qed.

Lemma bill_change_chat_id (b b' : Bill A) :
  bill_change b b' -> chat_id b' = chat_id b.
Proof.
  induction 1; try reflexivity; try assumption.
  congruence.
Qed.

Lemma bill_change_adds (extracted : list (string * A)) :
  forall b : Bill A,
  bill_change b
    (fold_left (fun b e => fst (add_item_to_bill b (fst e) (snd e))) extracted b).
Proof.
  induction extracted as [|e l IH]; intros b; cbn [fold_left].
  - apply (@change_fields _ _ _); reflexivity.
  - eapply (@change_trans _ _ _ _); [apply (@change_add _ b (fst e) (snd e)) | apply IH].
Qed.

Ltac split_handler :=
  repeat match goal with
         | |- context [match ?x with _ => _ end] => destruct x eqn:?
         | |- context [if ?x then _ else _] => destruct x eqn:?
         end.

Ltac shape_done :=
  first [ left; reflexivity
        | right; left; reflexivity
        | right; right; eexists; split;
          [reflexivity | apply (@change_fields _ _ _); reflexivity] ].

(** With an active bill, an update leaves the store as it was, deletes the
    bill, or writes it back changed in one of the ways of [bill_change]. *)
Lemma step_active_shape (st : Store A) (e : Event A) (bill : Bill A) :
  get_active_bill st chat = Some bill ->
  fst (step st chat e) = st
  \/ fst (step st chat e) = delete_one st bill
  \/ exists b', fst (step st chat e) = save_bill st b' /\ bill_change bill b'.
Proof.
  intros Ha.
  destruct e as [user now | user | text | | user arg | user arg | user arg
                | user | text | now | user | | user data now | extracted | text];
    cbn [step].
  - unfold cmd_newbill. rewrite Ha. shape_done.
  - unfold cmd_join. rewrite Ha.
    destruct (is_member (uid user) (members bill)) eqn:Hm; cbn [fst]; [shape_done|].
    right; right. eexists. split; [reflexivity|]. apply (@change_join _ _ _ _ Hm).
  - unfold cmd_additem. rewrite Ha.
    destruct (negb (nonempty text)); [shape_done|].
    destruct (rsplit1 text) as [|p0 [|p1 [|x l]]]; try shape_done.
    destruct (of_string (remove_commas p1)) as [p|]; [|shape_done].
    destruct (leb p zero); [shape_done|].
    right; right. exists (fst (add_item_to_bill bill (strip p0) p)).
    split; [reflexivity | apply (@change_add _ bill (strip p0) p)].
  - unfold cmd_items. rewrite Ha. split_handler; cbn [fst]; shape_done.
  - unfold cmd_pick. rewrite Ha.
    destruct (is_member (uid user) (members bill)) eqn:Hm; cbn [negb]; [|shape_done].
    destruct arg as [n|]; [|shape_done].
    destruct (get_item bill n) as [item|] eqn:Hi; [|shape_done].
    destruct (claims_has (uid user) (claimed_by item)) eqn:Hc; [shape_done|].
    right; right. eexists. split; [reflexivity|].
    apply (@change_claim _ bill n (uid user) (display_name user) item Hi Hm Hc).
  - unfold cmd_unpick. rewrite Ha.
    destruct arg as [n|]; [|shape_done].
    destruct (get_item bill n) as [item|]; [|shape_done].
    right; right. eexists. split; [reflexivity | apply (@change_unclaim _ _ _ _)].
  - unfold cmd_assign. rewrite Ha.
    destruct (negb (uid user =? creator_id bill)%Z); [shape_done|].
    destruct arg as [[n t]|]; [|shape_done].
    destruct (get_item bill n) as [item|] eqn:Hi; [|shape_done].
    destruct (find_member_by_name (members bill) t) as [[tu tn]|] eqn:Hf; [|shape_done].
    destruct (claims_has tu (claimed_by item)) eqn:Hc; [shape_done|].
    right; right. eexists. split; [reflexivity|].
    apply (@change_claim _ bill n tu tn item Hi
             (find_member_by_name_member _ _ _ _ Hf) Hc).
  - unfold cmd_resetpicks. rewrite Ha. cbn [fst].
    right; right. eexists. split; [reflexivity | apply (@change_reset _ _ _)].
  - unfold cmd_setfees. rewrite Ha. split_handler; cbn [fst]; shape_done.
  - unfold cmd_done. rewrite Ha. split_handler; cbn [fst]; shape_done.
  - unfold cmd_cancel. rewrite Ha. split_handler; cbn [fst]; shape_done.
  - left. unfold cmd_history. destruct (filter _ (docs st)); reflexivity.
  - unfold callback_handler. rewrite Ha.
    destruct data; try (split_handler; cbn [fst]; shape_done).
    destruct (get_item bill item_id) as [item|] eqn:Hi; [|shape_done].
    set (bill1 := if negb (is_member (uid user) (members bill))
                  then set_members bill (members bill ++ [(uid user, display_name user)])
                  else bill).
    assert (Hc1 : bill_change bill bill1).
    { unfold bill1. destruct (is_member (uid user) (members bill)) eqn:Hm; cbn [negb].
      - apply (@change_fields _ _ _); reflexivity.
      - apply (@change_join _ _ _ _ Hm). }
    assert (Hm1 : is_member (uid user) (members bill1) = true).
    { unfold bill1. destruct (is_member (uid user) (members bill)) eqn:Hm; cbn [negb].
      - exact Hm.
      - apply is_member_app. }
    assert (Hi1 : get_item bill1 item_id = Some item).
    { unfold bill1. destruct (negb _); exact Hi. }
    destruct (claims_has (uid user) (claimed_by item)) eqn:Hc; cbn [fst].
    + right; right. eexists. split; [reflexivity|].
      eapply (@change_trans _ _ _ _); [exact Hc1 | apply (@change_unclaim _ _ _ _)].
    + right; right. eexists. split; [reflexivity|].
      eapply (@change_trans _ _ _ _); [exact Hc1|].
      apply (@change_claim _ bill1 item_id (uid user) (display_name user) item
               Hi1 Hm1 Hc).
  - unfold photo_handler. rewrite Ha.
    destruct extracted as [|e l]; cbn [fst]; [shape_done|].
    right; right. eexists. split; [reflexivity|].
    eapply (@change_trans _ _ _ _); [|apply bill_change_adds].
    apply (@change_fields _ _ _); reflexivity.
  - unfold text_handler. rewrite Ha. split_handler; cbn [fst]; shape_done.
Qed.

(** Without an active bill only /newbill changes the store. *)
Lemma step_idle_shape (st : Store A) (e : Event A) :
  get_active_bill st chat = None ->
  fst (step st chat e) = st
  \/ exists user now,
       fst (step st chat e)
       = insert_one st (new_bill_doc chat (uid user) (display_name user) now).
Proof.
  intros Ha.
  destruct e; cbn [step];
    unfold cmd_newbill, cmd_join, cmd_additem, cmd_items, cmd_pick, cmd_unpick,
      cmd_assign, cmd_resetpicks, cmd_setfees, cmd_done, cmd_cancel, cmd_history,
      callback_handler, photo_handler, text_handler;
    rewrite ?Ha; cbn [fst]; try (left; reflexivity).
  - right. eauto.
  - left. destruct (filter _ (docs st)); reflexivity.
Qed.

End StepShape.

(** ** What the ledger keeps *)

Lemma nodupb_snoc (l : list Z) (x : Z) :
  nodupb l = true -> existsb (Z.eqb x) l = false -> nodupb (l ++ [x]) = true.
Proof.
  induction l as [|y l IH]; cbn [nodupb existsb app]; [reflexivity|].
  intros Hn Hx. apply andb_true_iff in Hn. destruct Hn as [Hy Hl].
  apply orb_false_iff in Hx. destruct Hx as [Hxy Hxl].
  rewrite existsb_app. cbn [existsb]. rewrite (Z.eqb_sym y x), Hxy.
  apply negb_true_iff in Hy. rewrite Hy. cbn. apply IH; assumption.
Qed.

Lemma forallb_map_eq (X Y : Type) (p : Y -> bool) (f : X -> Y) (l : list X) :
  forallb p (map f l) = forallb (fun x => p (f x)) l.
Proof.
  induction l as [|x l IH]; cbn [map forallb]; [|rewrite IH]; reflexivity.
Qed.

Lemma existsb_below (x : Z) (l : list Z) :
  forallb (fun y => (y <? x)%Z) l = true -> existsb (Z.eqb x) l = false.
Proof.
  induction l as [|y l IH]; cbn [forallb existsb]; [reflexivity|].
  intros Hb. apply andb_true_iff in Hb. destruct Hb as [Hy Hl].
  rewrite (IH Hl). apply Z.ltb_lt in Hy.
  destruct (Z.eqb_spec x y); [lia | reflexivity].
Qed.

Lemma existsb_filter_claims (u : Z) (p : Claim -> bool) (cs : list Claim) :
  existsb (Z.eqb u) (map user_id cs) = false ->
  existsb (Z.eqb u) (map user_id (filter p cs)) = false.
Proof.
  induction cs as [|c cs IH]; cbn [map filter existsb]; [reflexivity|].
  intros Hx. apply orb_false_iff in Hx. destruct Hx as [Hc Hr].
  destruct (p c); cbn [map existsb]; rewrite ?Hc, (IH Hr); reflexivity.
Qed.

Lemma nodupb_filter_claims (p : Claim -> bool) (cs : list Claim) :
  nodupb (map user_id cs) = true -> nodupb (map user_id (filter p cs)) = true.
Proof.
  induction cs as [|c cs IH]; cbn [map filter nodupb]; [reflexivity|].
  intros Hn. apply andb_true_iff in Hn. destruct Hn as [Hc Hr].
  destruct (p c); cbn [map nodupb]; [|apply IH, Hr].
  apply negb_true_iff in Hc.
  rewrite (existsb_filter_claims _ p cs Hc), (IH Hr). reflexivity.
Qed.

Lemma forallb_filter_claims (q p : Claim -> bool) (cs : list Claim) :
  forallb q cs = true -> forallb q (filter p cs) = true.
Proof.
  induction cs as [|c cs IH]; cbn [forallb filter]; [reflexivity|].
  intros Hq. apply andb_true_iff in Hq. destruct Hq as [Hc Hr].
  destruct (p c); cbn [forallb]; rewrite ?Hc, (IH Hr); reflexivity.
Qed.

Section LedgerKept.
Context {A : Type}.

Lemma update_claims_in_ids (l : list (Item A)) (n : Z) f :
  map (@id A) (update_claims_in l n f) = map (@id A) l.
Proof.
  induction l as [|it l IH]; cbn [update_claims_in map]; [reflexivity|].
  destruct (id it =? n)%Z; cbn [map set_claimed_by id]; [|rewrite IH]; reflexivity.
Qed.

(** A test that holds of every item still holds after a claim update, when
    it holds of the updated item. *)
Lemma update_claims_in_forallb (Q : Item A -> bool) (l : list (Item A)) (n : Z) f :
  forallb Q l = true ->
  (forall it, get_item_in l n = Some it ->
              Q (set_claimed_by it (f (claimed_by it))) = true) ->
  forallb Q (update_claims_in l n f) = true.
Proof.
  induction l as [|it l IH]; cbn [forallb update_claims_in get_item_in]; [reflexivity|].
  intros Hq Hf. apply andb_true_iff in Hq. destruct Hq as [Hit Hl].
  destruct (id it =? n)%Z; cbn [forallb].
  - rewrite (Hf it eq_refl), Hl. reflexivity.
  - rewrite Hit, (IH Hl Hf). reflexivity.
Qed.

Lemma forallb_ext_in (X : Type) (p q : X -> bool) (l : list X) :
  (forall x, In x l -> p x = true -> q x = true) ->
  forallb p l = true -> forallb q l = true.
Proof.
  intros Hpq Hp. apply forallb_forall. intros x Hx.
  apply Hpq; [exact Hx|]. rewrite forallb_forall in Hp. apply Hp, Hx.
Qed.

Lemma get_item_in_In (l : list (Item A)) (n : Z) (it : Item A) :
  get_item_in l n = Some it -> In it l /\ id it = n.
Proof.
  induction l as [|x l IH]; cbn [get_item_in]; [discriminate|].
  destruct (id x =? n)%Z eqn:E; intros Hg.
  - injection Hg as ->. apply Z.eqb_eq in E. split; [left; reflexivity | exact E].
  - destruct (IH Hg) as [Hin Hid]. split; [right; exact Hin | exact Hid].
Qed.

Lemma bill_change_item_ids (b b' : Bill A) :
  bill_change b b' -> item_ids_ok b = true -> item_ids_ok b' = true.
Proof.
  unfold item_ids_ok.
  induction 1 as [b b' Hid Hitems Hmem Hnext | b u nm Hm | b nm p
                 | b n u nm item Hi Hm Hc | b n u | b u | b b1 b2 H1 IH1 H2 IH2];
    intros Hok.
  - rewrite Hitems, Hnext. exact Hok.
  - exact Hok.
  - apply andb_true_iff in Hok. destruct Hok as [Hn Hb].
    cbn [add_item_to_bill fst set_next_item_id set_items items next_item_id].
    rewrite map_app, forallb_app. cbn [map forallb id].
    apply andb_true_iff. split.
    + apply nodupb_snoc; [exact Hn|]. apply existsb_below.
      rewrite forallb_map_eq. exact Hb.
    + apply andb_true_iff. split.
      * apply (forallb_ext_in _ (fun it => (id it <? next_item_id b)%Z)); [|exact Hb].
        intros it _ Hlt. apply Z.ltb_lt in Hlt. apply Z.ltb_lt. lia.
      * rewrite andb_true_r. apply Z.ltb_lt. lia.
  - apply andb_true_iff in Hok. destruct Hok as [Hn Hb].
    cbn [update_claims set_items items next_item_id].
    rewrite update_claims_in_ids, Hn. cbn [andb].
    apply update_claims_in_forallb; [exact Hb|].
    intros it Hit. cbn [set_claimed_by id].
    rewrite forallb_forall in Hb. apply Hb.
    apply (get_item_in_In _ _ _ Hit).
  - apply andb_true_iff in Hok. destruct Hok as [Hn Hb].
    cbn [update_claims set_items items next_item_id].
    rewrite update_claims_in_ids, Hn. cbn [andb].
    apply update_claims_in_forallb; [exact Hb|].
    intros it Hit. cbn [set_claimed_by id].
    rewrite forallb_forall in Hb. apply Hb.
    apply (get_item_in_In _ _ _ Hit).
  - apply andb_true_iff in Hok. destruct Hok as [Hn Hb].
    cbn [set_items items next_item_id].
    rewrite map_map.
    rewrite (map_ext _ (@id A) (fun it => eq_refl)), Hn. cbn [andb].
    rewrite forallb_map_eq. cbn [set_claimed_by id]. exact Hb.
  - apply IH2, IH1, Hok.
Qed.

Lemma bill_change_claims_distinct (b b' : Bill A) :
  bill_change b b' -> claims_distinct b = true -> claims_distinct b' = true.
Proof.
  unfold claims_distinct.
  induction 1 as [b b' Hid Hitems Hmem Hnext | b u nm Hm | b nm p
                 | b n u nm item Hi Hm Hc | b n u | b u | b b1 b2 H1 IH1 H2 IH2];
    intros Hok.
  - rewrite Hitems. exact Hok.
  - exact Hok.
  - cbn [add_item_to_bill fst set_next_item_id set_items items].
    rewrite forallb_app, Hok. reflexivity.
  - cbn [update_claims set_items items].
    apply update_claims_in_forallb; [exact Hok|].
    intros it Hit. cbn [set_claimed_by claimed_by].
    unfold get_item in Hi. rewrite Hi in Hit. injection Hit as <-.
    rewrite map_app. cbn [map user_id]. apply nodupb_snoc.
    + rewrite forallb_forall in Hok. apply (Hok item).
      apply (get_item_in_In _ _ _ Hi).
    + rewrite <- claims_has_existsb. exact Hc.
  - cbn [update_claims set_items items].
    apply update_claims_in_forallb; [exact Hok|].
    intros it Hit. cbn [set_claimed_by claimed_by].
    apply nodupb_filter_claims.
    rewrite forallb_forall in Hok. apply (Hok it).
    apply (get_item_in_In _ _ _ Hit).
  - cbn [set_items items]. rewrite forallb_map_eq. cbn [set_claimed_by claimed_by].
    apply (forallb_ext_in _ (fun it => nodupb (map user_id (claimed_by it))));
      [|exact Hok].
    intros it _ Hn. apply nodupb_filter_claims, Hn.
  - apply IH2, IH1, Hok.
Qed.

Lemma is_member_grows (u : Z) (ms : list (Z * string)) (m : Z * string) :
  is_member u ms = true -> is_member u (ms ++ [m]) = true.
Proof.
  unfold is_member. intros Hm. rewrite existsb_app, Hm. reflexivity.
Qed.

Lemma bill_change_claimants_joined (b b' : Bill A) :
  bill_change b b' -> claimants_joined b = true -> claimants_joined b' = true.
Proof.
  unfold claimants_joined.
  induction 1 as [b b' Hid Hitems Hmem Hnext | b u nm Hm | b nm p
                 | b n u nm item Hi Hm Hc | b n u | b u | b b1 b2 H1 IH1 H2 IH2];
    intros Hok.
  - rewrite Hitems, Hmem. exact Hok.
  - cbn [set_members items members].
    apply (forallb_ext_in _
             (fun it => forallb (fun c => is_member (user_id c) (members b))
                          (claimed_by it))); [|exact Hok].
    intros it _. apply forallb_ext_in. intros c _. apply is_member_grows.
  - cbn [add_item_to_bill fst set_next_item_id set_items items members].
    rewrite forallb_app, Hok. reflexivity.
  - cbn [update_claims set_items items members].
    apply update_claims_in_forallb; [exact Hok|].
    intros it Hit. cbn [set_claimed_by claimed_by].
    unfold get_item in Hi. rewrite Hi in Hit. injection Hit as <-.
    rewrite forallb_app. cbn [forallb user_id]. rewrite Hm.
    rewrite forallb_forall in Hok. rewrite (Hok item); [reflexivity|].
    apply (get_item_in_In _ _ _ Hi).
  - cbn [update_claims set_items items members].
    apply update_claims_in_forallb; [exact Hok|].
    intros it Hit. cbn [set_claimed_by claimed_by].
    apply forallb_filter_claims.
    rewrite forallb_forall in Hok. apply (Hok it).
    apply (get_item_in_In _ _ _ Hit).
  - cbn [set_items items members]. rewrite forallb_map_eq.
    cbn [set_claimed_by claimed_by].
    apply (forallb_ext_in _
             (fun it => forallb (fun c => is_member (user_id c) (members b))
                          (claimed_by it))); [|exact Hok].
    intros it _ Hq. apply forallb_filter_claims, Hq.
  - apply IH2, IH1, Hok.
Qed.

Lemma is_member_existsb (u : Z) (ms : list (Z * string)) :
  is_member u ms = existsb (Z.eqb u) (map fst ms).
Proof.
  unfold is_member. induction ms as [|m ms IH]; cbn [existsb map]; [reflexivity|].
  rewrite IH, (Z.eqb_sym u). reflexivity.
Qed.

Lemma bill_change_member_keys (b b' : Bill A) :
  bill_change b b' -> member_keys_distinct b = true ->
  member_keys_distinct b' = true.
Proof.
  unfold member_keys_distinct.
  induction 1 as [b b' Hid Hitems Hmem Hnext | b u nm Hm | b nm p
                 | b n u nm item Hi Hm Hc | b n u | b u | b b1 b2 H1 IH1 H2 IH2];
    intros Hok; try exact Hok.
  - rewrite Hmem. exact Hok.
  - cbn [set_members members]. rewrite map_app. cbn [map fst].
    apply nodupb_snoc; [exact Hok|]. rewrite <- is_member_existsb. exact Hm.
  - apply IH2, IH1, Hok.
Qed.

End LedgerKept.

(** *** From one bill to the store *)

Section StoreKept.
Context {A : Type} `{PyNum A} `{PyParse A}.
Variable chat : Z.                     (* update.effective_chat.id *)

Lemma save_bill_forallb (P : Bill A -> bool) (st : Store A) (b' : Bill A) :
  forallb P (docs st) = true -> P b' = true ->
  forallb P (docs (save_bill st b')) = true.
Proof.
  intros Hall Hb. unfold save_bill. cbn [docs]. rewrite forallb_map_eq.
  apply (forallb_ext_in _ P); [|exact Hall].
  intros d _ Hd. destruct (_id d =? _id b')%Z; assumption.
Qed.

Lemma delete_one_forallb (P : Bill A -> bool) (st : Store A) (b : Bill A) :
  forallb P (docs st) = true -> forallb P (docs (delete_one st b)) = true.
Proof.
  intros Hall. unfold delete_one. cbn [docs].
  apply forallb_forall. intros d Hd. apply filter_In in Hd.
  rewrite forallb_forall in Hall. apply Hall, Hd.
Qed.

(** A test that every way of changing a bill keeps, and that a new bill
    passes, holds of every document after any update. *)
Lemma step_keeps (P : Bill A -> bool) :
  (forall b b', bill_change b b' -> P b = true -> P b' = true) ->
  (forall chat u nm now i, P (set_id (new_bill_doc chat u nm now) i) = true) ->
  forall (st : Store A) (e : Event A),
    forallb P (docs st) = true -> forallb P (docs (fst (step st chat e))) = true.
Proof.
  intros Hchange Hnew st e Hall.
  destruct (get_active_bill st chat) as [bill|] eqn:Ha.
  - destruct (step_active_shape chat st e bill Ha) as [-> | [-> | (b' & -> & Hc)]].
    + exact Hall.
    + apply delete_one_forallb, Hall.
    + apply save_bill_forallb; [exact Hall|].
      apply (Hchange bill b' Hc).
      rewrite forallb_forall in Hall. apply Hall.
      apply (get_active_bill_spec chat st bill Ha).
  - destruct (step_idle_shape chat st e Ha) as [-> | (user & now & ->)].
    + exact Hall.
    + unfold insert_one. cbn [docs]. rewrite forallb_app, Hall. cbn [forallb].
      rewrite Hnew. reflexivity.
Qed.

(** Item ids stay distinct, and below the next id to hand out, in every
    bill of the store. *)
Theorem step_keeps_item_ids (st : Store A) (e : Event A) :
  forallb item_ids_ok (docs st) = true ->
  forallb item_ids_ok (docs (fst (step st chat e))) = true.
Proof.
  apply step_keeps.
  - apply bill_change_item_ids.
  - reflexivity.
Qed.

(** No update makes a member hold two claims on one item. *)
Theorem step_keeps_claims_distinct (st : Store A) (e : Event A) :
  forallb claims_distinct (docs st) = true ->
  forallb claims_distinct (docs (fst (step st chat e))) = true.
Proof.
  apply step_keeps.
  - apply bill_change_claims_distinct.
  - reflexivity.
Qed.

(** Whoever holds a claim stays a member. *)
Theorem step_keeps_claimants_joined (st : Store A) (e : Event A) :
  forallb claimants_joined (docs st) = true ->
  forallb claimants_joined (docs (fst (step st chat e))) = true.
Proof.
  apply step_keeps.
  - apply bill_change_claimants_joined.
  - reflexivity.
Qed.

(** The member table never gets a key twice. *)
Theorem step_keeps_member_keys (st : Store A) (e : Event A) :
  forallb member_keys_distinct (docs st) = true ->
  forallb member_keys_distinct (docs (fst (step st chat e))) = true.
Proof.
  apply step_keeps.
  - apply bill_change_member_keys.
  - reflexivity.
Qed.

End StoreKept.


(** ** One active bill per chat *)

Section OneActive.
Context {A : Type} `{PyNum A} `{PyParse A}.
Variable chat : Z.                     (* update.effective_chat.id *)

Lemma save_bill_ids (st : Store A) (b' : Bill A) :
  map (@_id A) (docs (save_bill st b')) = map (@_id A) (docs st).
Proof.
  unfold save_bill. cbn [docs]. rewrite map_map. apply map_ext.
  intros d. destruct (Z.eqb_spec (_id d) (_id b')) as [E|E]; [symmetry; exact E | reflexivity].
Qed.

Lemma key_unique (f : Bill A -> Z) (l : list (Bill A)) (d d' : Bill A) :
  nodupb (map f l) = true ->
  In d l -> In d' l -> f d = f d' -> d = d'.
Proof.
  induction l as [|x l IH]; cbn [map nodupb]; [intros _ []|].
  intros Hn Hd Hd' Hid. apply andb_true_iff in Hn. destruct Hn as [Hx Hl].
  apply negb_true_iff in Hx.
  assert (Hfresh : forall y, In y l -> f y <> f x).
  { intros y Hy Heq.
    assert (Hex : existsb (Z.eqb (f x)) (map f l) = true).
    { apply existsb_exists. exists (f y). split.
      - apply in_map, Hy.
      - apply Z.eqb_eq. symmetry. exact Heq. }
    congruence. }
  destruct Hd as [<-|Hd], Hd' as [<-|Hd'].
  - reflexivity.
  - exfalso. apply (Hfresh d' Hd'). symmetry. exact Hid.
  - exfalso. apply (Hfresh d Hd). exact Hid.
  - apply IH; assumption.
Qed.

Lemma doc_id_unique (l : list (Bill A)) (d d' : Bill A) :
  nodupb (map (@_id A) l) = true ->
  In d l -> In d' l -> _id d = _id d' -> d = d'.
Proof. apply key_unique. Qed.

(** No document of the chat is open when every document of the chat is
    finalized, and then no open document carries the chat's id. *)
Lemma find_open_none (l : list (Bill A)) :
  (forall d, In d l -> chat_id d = chat -> is_finalized d = true) ->
  find (fun d => (chat_id d =? chat)%Z && negb (is_finalized d)) l = None.
Proof.
  induction l as [|x l IH]; intros Hall; cbn [find]; [reflexivity|].
  destruct (Z.eqb_spec (chat_id x) chat) as [E|E]; cbn [andb].
  - rewrite (Hall x (or_introl eq_refl) E). cbn [negb].
    apply IH. intros d Hd. apply Hall. right. exact Hd.
  - apply IH. intros d Hd. apply Hall. right. exact Hd.
Qed.

Lemma find_none_chat (l : list (Bill A)) :
  find (fun d => (chat_id d =? chat)%Z && negb (is_finalized d)) l = None ->
  existsb (Z.eqb chat)
    (map (@chat_id A) (filter (fun d => negb (is_finalized d)) l)) = false.
Proof.
  induction l as [|x l IH]; cbn [find filter]; [reflexivity|].
  destruct (negb (is_finalized x)); cbn [map existsb].
  - rewrite andb_true_r. rewrite (Z.eqb_sym chat).
    destruct (chat_id x =? chat)%Z; [discriminate|]. exact IH.
  - rewrite andb_false_r. exact IH.
Qed.

Lemma store_ok_parts (st : Store A) :
  store_ok st = true ->
  nodupb (map (@_id A) (docs st)) = true
  /\ forallb (fun d => (_id d <? next_doc_id st)%Z) (docs st) = true
  /\ nodupb (map (@chat_id A)
               (filter (fun d => negb (is_finalized d)) (docs st))) = true.
Proof.
  unfold store_ok. intros Hok.
  apply andb_true_iff in Hok. destruct Hok as [Hok Hc].
  apply andb_true_iff in Hok. destruct Hok as [Hn Hb].
  repeat split; [exact Hn | exact Hb | exact Hc].
Qed.

(** In a store that is in order, the active bill of a chat is the chat's
    only document that is not finalized. *)
Lemma sole_open (st : Store A) (bill d : Bill A) :
  store_ok st = true ->
  get_active_bill st chat = Some bill ->
  In d (docs st) -> is_finalized d = false -> chat_id d = chat -> d = bill.
Proof.
  intros Hok Ha Hd Hopen Hchat.
  destruct (store_ok_parts st Hok) as (_ & _ & Hc).
  destruct (get_active_bill_spec chat st bill Ha) as [Hb Hbopen].
  apply (key_unique (@chat_id A)
           (filter (fun d => negb (is_finalized d)) (docs st)) d bill Hc).
  - apply filter_In. split; [exact Hd | rewrite Hopen; reflexivity].
  - apply filter_In. split; [exact Hb | rewrite Hbopen; reflexivity].
  - rewrite Hchat. symmetry. apply (get_active_bill_chat chat st bill Ha).
Qed.

Lemma nodupb_map_filter (f : Bill A -> Z) (p : Bill A -> bool) (l : list (Bill A)) :
  nodupb (map f l) = true -> nodupb (map f (filter p l)) = true.
Proof.
  induction l as [|x l IH]; cbn [map filter nodupb]; [reflexivity|].
  intros Hn. apply andb_true_iff in Hn. destruct Hn as [Hx Hl].
  destruct (p x); cbn [map nodupb]; [|apply IH, Hl].
  rewrite (IH Hl), andb_true_r. apply negb_true_iff in Hx. apply negb_true_iff.
  destruct (existsb (Z.eqb (f x)) (map f (filter p l))) eqn:E; [|reflexivity].
  apply existsb_exists in E. destruct E as (i & Hi & He).
  apply in_map_iff in Hi. destruct Hi as (y & <- & Hy). apply filter_In in Hy.
  assert (Hex : existsb (Z.eqb (f x)) (map f l) = true).
  { apply existsb_exists. exists (f y). split; [apply in_map, Hy | exact He]. }
  congruence.
Qed.

Lemma filter_swap (p q : Bill A -> bool) (l : list (Bill A)) :
  filter q (filter p l) = filter p (filter q l).
Proof.
  induction l as [|x l IH]; cbn [filter]; [reflexivity|].
  destruct (p x) eqn:Hp, (q x) eqn:Hq; cbn [filter]; rewrite ?Hp, ?Hq, IH;
    reflexivity.
Qed.

(** Writing a bill back over an open document of the same chat adds no
    chat to the open documents. *)
Lemma save_open_member (l : list (Bill A)) (b' : Bill A) (c : Z) :
  (forall d, In d l -> _id d = _id b' ->
             is_finalized d = false /\ chat_id b' = chat_id d) ->
  existsb (Z.eqb c)
    (map (@chat_id A)
       (filter (fun d => negb (is_finalized d))
          (map (fun d => if (_id d =? _id b')%Z then b' else d) l))) = true ->
  existsb (Z.eqb c)
    (map (@chat_id A) (filter (fun d => negb (is_finalized d)) l)) = true.
Proof.
  induction l as [|x l IH]; cbn [map filter]; [intros _ Hx; exact Hx|].
  intros Hsame.
  assert (IH' := IH (fun d Hd => Hsame d (or_intror Hd))).
  destruct (Z.eqb_spec (_id x) (_id b')) as [E|E].
  - destruct (Hsame x (or_introl eq_refl) E) as [Hopen Hchat].
    rewrite Hopen. cbn [negb map existsb].
    destruct (negb (is_finalized b')); cbn [map existsb].
    + rewrite Hchat. intros Hx. apply orb_true_iff in Hx.
      apply orb_true_iff. destruct Hx as [Hx|Hx]; [left; exact Hx | right; apply IH', Hx].
    + intros Hx. apply orb_true_iff. right. apply IH', Hx.
  - destruct (negb (is_finalized x)); cbn [map existsb]; [|exact IH'].
    intros Hx. apply orb_true_iff in Hx.
    apply orb_true_iff. destruct Hx as [Hx|Hx]; [left; exact Hx | right; apply IH', Hx].
Qed.

Lemma save_open_chats (l : list (Bill A)) (b' : Bill A) :
  (forall d, In d l -> _id d = _id b' ->
             is_finalized d = false /\ chat_id b' = chat_id d) ->
  nodupb (map (@chat_id A) (filter (fun d => negb (is_finalized d)) l)) = true ->
  nodupb
    (map (@chat_id A)
       (filter (fun d => negb (is_finalized d))
          (map (fun d => if (_id d =? _id b')%Z then b' else d) l))) = true.
Proof.
  induction l as [|x l IH]; cbn [map filter]; [intros _ Hn; exact Hn|].
  intros Hsame.
  assert (Hsame' := fun d Hd => Hsame d (or_intror Hd)).
  assert (IH' := IH Hsame').
  assert (Hfresh : forall c,
    existsb (Z.eqb c)
      (map (@chat_id A) (filter (fun d => negb (is_finalized d)) l)) = false ->
    existsb (Z.eqb c)
      (map (@chat_id A)
         (filter (fun d => negb (is_finalized d))
            (map (fun d => if (_id d =? _id b')%Z then b' else d) l))) = false).
  { intros c Hc.
    destruct (existsb (Z.eqb c)
                (map (@chat_id A)
                   (filter (fun d => negb (is_finalized d))
                      (map (fun d => if (_id d =? _id b')%Z then b' else d) l))))
      eqn:Hex; [|reflexivity].
    rewrite (save_open_member l b' c Hsame' Hex) in Hc. discriminate Hc. }
  destruct (Z.eqb_spec (_id x) (_id b')) as [E|E].
  - destruct (Hsame x (or_introl eq_refl) E) as [Hopen Hchat].
    rewrite Hopen. cbn [negb map nodupb]. intros Hn.
    apply andb_true_iff in Hn. destruct Hn as [Hx Hl]. apply negb_true_iff in Hx.
    destruct (negb (is_finalized b')); cbn [map nodupb]; [|apply IH', Hl].
    rewrite Hchat, (Hfresh _ Hx), (IH' Hl). reflexivity.
  - destruct (negb (is_finalized x)); cbn [map nodupb]; [|exact IH'].
    intros Hn. apply andb_true_iff in Hn. destruct Hn as [Hx Hl].
    apply negb_true_iff in Hx. rewrite (Hfresh _ Hx), (IH' Hl). reflexivity.
Qed.

(** Document ids stay distinct and below the next one, and no chat gets
    a second open bill, whatever update arrives in whatever chat. *)
Theorem step_keeps_store_ok (st : Store A) (e : Event A) :
  store_ok st = true -> store_ok (fst (step st chat e)) = true.
Proof.
  intros Hok. destruct (store_ok_parts st Hok) as (Hn & Hb & Hc).
  destruct (get_active_bill st chat) as [bill|] eqn:Ha.
  - destruct (step_active_shape chat st e bill Ha) as [-> | [-> | (b' & -> & Hch)]].
    + exact Hok.
    + unfold store_ok, delete_one. cbn [docs next_doc_id].
      rewrite (nodupb_map_filter (@_id A) _ _ Hn). cbn [andb].
      apply andb_true_iff. split.
      * apply forallb_forall. intros d Hd. apply filter_In in Hd.
        rewrite forallb_forall in Hb. apply Hb, Hd.
      * rewrite filter_swap. apply nodupb_map_filter, Hc.
    + unfold store_ok. rewrite save_bill_ids, Hn. cbn [andb].
      apply andb_true_iff. split.
      * unfold save_bill. cbn [docs next_doc_id]. rewrite forallb_map_eq.
        apply forallb_forall. intros d Hd.
        rewrite forallb_forall in Hb.
        destruct (Z.eqb_spec (_id d) (_id b')) as [E|E]; [rewrite <- E|]; apply Hb, Hd.
      * unfold save_bill. cbn [docs]. apply save_open_chats; [|exact Hc].
        intros d Hd Hid.
        destruct (get_active_bill_spec chat st bill Ha) as [Hin Hopen].
        rewrite (bill_change_id bill b' Hch) in Hid.
        rewrite (doc_id_unique (docs st) d bill Hn Hd Hin Hid).
        split; [exact Hopen | apply (bill_change_chat_id bill b' Hch)].
  - destruct (step_idle_shape chat st e Ha) as [-> | (user & now & ->)].
    + exact Hok.
    + unfold store_ok, insert_one. cbn [docs next_doc_id].
      rewrite map_app, forallb_app, filter_app, map_app.
      cbn [map forallb filter set_id _id chat_id is_finalized new_bill_doc negb].
      apply andb_true_iff. split; [apply andb_true_iff; split|].
      * apply nodupb_snoc; [exact Hn|]. apply existsb_below.
        rewrite forallb_map_eq. exact Hb.
      * apply andb_true_iff. split.
        -- apply forallb_forall. intros d Hd. rewrite forallb_forall in Hb.
           specialize (Hb d Hd). apply Z.ltb_lt in Hb. apply Z.ltb_lt. lia.
        -- rewrite andb_true_r. apply Z.ltb_lt. lia.
      * apply nodupb_snoc; [exact Hc|]. apply find_none_chat. exact Ha.
Qed.

(** A finalized bill stays in the store, unchanged, whatever update
    arrives. *)
Theorem finalized_bill_is_kept (st : Store A) (e : Event A) (d : Bill A) :
  store_ok st = true ->
  In d (docs st) -> is_finalized d = true ->
  In d (docs (fst (step st chat e))).
Proof.
  intros Hok Hd Hfin. destruct (store_ok_parts st Hok) as (Hn & _ & _).
  destruct (get_active_bill st chat) as [bill|] eqn:Ha.
  - destruct (get_active_bill_spec chat st bill Ha) as [Hin Hopen].
    assert (Hne : _id d <> _id bill).
    { intros Hid. rewrite (doc_id_unique (docs st) d bill Hn Hd Hin Hid) in Hfin.
      congruence. }
    destruct (step_active_shape chat st e bill Ha) as [-> | [-> | (b' & -> & Hch)]].
    + exact Hd.
    + unfold delete_one. cbn [docs]. apply filter_In. split; [exact Hd|].
      apply negb_true_iff, Z.eqb_neq, Hne.
    + unfold save_bill. cbn [docs]. apply in_map_iff. exists d. split; [|exact Hd].
      rewrite (bill_change_id bill b' Hch).
      destruct (Z.eqb_spec (_id d) (_id bill)); [contradiction | reflexivity].
  - destruct (step_idle_shape chat st e Ha) as [-> | (user & now & ->)].
    + exact Hd.
    + unfold insert_one. cbn [docs]. apply in_app_iff. left. exact Hd.
Qed.

Lemma newbill_when_idle (st : Store A) (user : User) (now : Z) :
  get_active_bill st chat = None ->
  cmd_newbill st chat user now
  = (insert_one st (new_bill_doc chat (uid user) (display_name user) now),
     NewBillStarted).
Proof. intros Ha. unfold cmd_newbill. rewrite Ha. reflexivity. Qed.

(** After the creator cancels a bill, or after it is finalized, the chat
    has no active bill and /newbill starts one; the finalized bill is in
    the store. *)
Theorem new_bill_after_close (st : Store A) (bill : Bill A) (user starter : User)
  (now now' : Z) :
  store_ok st = true ->
  get_active_bill st chat = Some bill ->
  (uid user = creator_id bill ->
     get_active_bill (fst (cmd_cancel st chat user)) chat = None
     /\ ~ In bill (docs (fst (cmd_cancel st chat user)))
     /\ snd (cmd_newbill (fst (cmd_cancel st chat user)) chat starter now')
        = NewBillStarted)
  /\ (items bill <> [] ->
     get_active_bill (fst (cmd_done st chat now)) chat = None
     /\ In (set_finalized bill now) (docs (fst (cmd_done st chat now)))
     /\ snd (cmd_newbill (fst (cmd_done st chat now)) chat starter now')
        = NewBillStarted).
Proof.
  intros Hok Ha. destruct (store_ok_parts st Hok) as (Hn & _ & _).
  destruct (get_active_bill_spec chat st bill Ha) as [Hin Hopen].
  split.
  - intros Hcreator. unfold cmd_cancel. rewrite Ha, Hcreator, Z.eqb_refl.
    cbn [negb fst].
    assert (Hnone : get_active_bill (delete_one st bill) chat = None).
    { unfold get_active_bill, delete_one. cbn [docs]. apply find_open_none.
      intros d Hd Hchat. apply filter_In in Hd. destruct Hd as [Hd Hne].
      destruct (is_finalized d) eqn:Hf; [reflexivity|].
      rewrite (sole_open st bill d Hok Ha Hd Hf Hchat), Z.eqb_refl in Hne.
      discriminate. }
    split; [exact Hnone|]. split.
    + unfold delete_one. cbn [docs]. intros Hb. apply filter_In in Hb.
      destruct Hb as [_ Hne]. rewrite Z.eqb_refl in Hne. discriminate.
    + rewrite (newbill_when_idle _ starter now' Hnone). reflexivity.
  - intros Hitems. unfold cmd_done. rewrite Ha.
    destruct (items bill) as [|it l] eqn:Hi; [contradiction|].
    cbn [fst].
    assert (Hnone : get_active_bill (save_bill st (set_finalized bill now)) chat = None).
    { unfold get_active_bill, save_bill. cbn [docs]. apply find_open_none.
      intros d Hd. apply in_map_iff in Hd. destruct Hd as (x & <- & Hx).
      cbn [set_finalized _id].
      destruct (Z.eqb_spec (_id x) (_id bill)) as [E|E]; [reflexivity|].
      intros Hchat.
      destruct (is_finalized x) eqn:Hf; [reflexivity|].
      rewrite (sole_open st bill x Hok Ha Hx Hf Hchat) in E. contradiction. }
    split; [exact Hnone|]. split.
    + apply (save_bill_in st bill); [exact Hin | reflexivity].
    + rewrite (newbill_when_idle _ starter now' Hnone). reflexivity.
Qed.

(** The open documents of another chat are not in the way of a lookup. *)
Lemma get_active_bill_insert (st : Store A) (b : Bill A) (c : Z) :
  get_active_bill st c = None ->
  get_active_bill (insert_one st b) c
  = if (chat_id b =? c)%Z && negb (is_finalized b)
    then Some (set_id b (next_doc_id st)) else None.
Proof.
  unfold get_active_bill, insert_one. cbn [docs].
  induction (docs st) as [|x l IH]; cbn [find app set_id chat_id is_finalized].
  - intros _. destruct ((chat_id b =? c)%Z && negb (is_finalized b)); reflexivity.
  - destruct ((chat_id x =? c)%Z && negb (is_finalized x)); [discriminate | exact IH].
Qed.

(** /newbill in a chat without an active bill creates one with a fresh
    id, the starter as creator and only member, no items and nothing
    chosen yet; a second /newbill in the same chat is refused and changes
    nothing, while another chat without an active bill still gets its
    own. *)
Theorem newbill_once (st : Store A) (user other : User) (now now' : Z) :
  get_active_bill st chat = None ->
  let r := cmd_newbill st chat user now in
  let b := set_id (new_bill_doc chat (uid user) (display_name user) now)
             (next_doc_id st) in
  snd r = NewBillStarted
  /\ get_active_bill (fst r) chat = Some b
  /\ docs (fst r) = docs st ++ [b]
  /\ cmd_newbill (fst r) chat other now' = (fst r, AlreadyActive)
  /\ (forall chat', chat' <> chat -> get_active_bill st chat' = None ->
      snd (cmd_newbill (fst r) chat' other now') = NewBillStarted).
Proof.
  intros Ha r b. subst r. rewrite (newbill_when_idle st user now Ha).
  cbn [fst snd].
  assert (Hact : get_active_bill
                   (insert_one st (new_bill_doc chat (uid user) (display_name user) now))
                   chat
                 = Some b).
  { rewrite (get_active_bill_insert st _ chat Ha).
    cbn [new_bill_doc chat_id is_finalized negb]. rewrite Z.eqb_refl. reflexivity. }
  split; [reflexivity|]. split; [exact Hact|]. split; [reflexivity|].
  split.
  - unfold cmd_newbill. rewrite Hact. reflexivity.
  - intros chat' Hne Ha'. unfold cmd_newbill.
    rewrite (get_active_bill_insert st _ chat' Ha').
    cbn [new_bill_doc chat_id is_finalized negb].
    destruct (Z.eqb_spec chat chat') as [E|E]; [congruence | reflexivity].
Qed.

End OneActive.

(** ** The ledger and store properties at concrete stores *)

Lemma step_keeps_item_ids_witness :
  forallb item_ids_ok
    (docs (fst (step (store_of (@bill_1_48 float _)) 10 (EvAddItem "Tea 20")))) = true.
Proof.
  apply (@step_keeps_item_ids float _ _ 10 (store_of bill_1_48) (EvAddItem "Tea 20")).
  reflexivity.
Defined.

Lemma step_keeps_claims_distinct_witness :
  forallb claims_distinct
    (docs (fst (step (store_of (@bill_1_48 float _)) 10 (EvPick user_x (Some 2%Z)))))
  = true.
Proof.
  apply (@step_keeps_claims_distinct float _ _ 10 (store_of bill_1_48)
           (EvPick user_x (Some 2%Z))).
  reflexivity.
Defined.

Lemma step_keeps_claimants_joined_witness :
  forallb claimants_joined
    (docs (fst (step (store_of (@bill_1_48 float _)) 10
                  (EvCallback {| uid := 3; display_name := "@z" |} (CbPick 1) 4))))
  = true.
Proof.
  apply (@step_keeps_claimants_joined float _ _ 10 (store_of bill_1_48)
           (EvCallback {| uid := 3; display_name := "@z" |} (CbPick 1) 4)).
  reflexivity.
Defined.

Lemma step_keeps_member_keys_witness :
  forallb member_keys_distinct
    (docs (fst (step (store_of (@bill_1_48 float _)) 10
                  (EvJoin {| uid := 3; display_name := "@z" |}))))
  = true.
Proof.
  apply (@step_keeps_member_keys float _ _ 10 (store_of bill_1_48)
           (EvJoin {| uid := 3; display_name := "@z" |})).
  reflexivity.
Defined.

Lemma step_keeps_store_ok_witness :
  store_ok (fst (step (@store_with_history float _) 10 (EvDone 12))) = true.
Proof.
  apply (@step_keeps_store_ok float _ _ 10 store_with_history (EvDone 12)).
  reflexivity.
Defined.

Lemma finalized_bill_is_kept_witness :
  In (set_finalized (@bill_one_unclaimed float _) 9)
     (docs (fst (step (@store_with_history float _) 10 (EvCancel user_x)))).
Proof.
  apply (@finalized_bill_is_kept float _ _ 10 store_with_history (EvCancel user_x)).
  - reflexivity.
  - left. reflexivity.
  - reflexivity.
Defined.

Lemma new_bill_after_close_witness :
  let st : Store float := store_with_history in
  let bill : Bill float := set_id bill_1_48 2 in
  (uid user_x = creator_id bill ->
     get_active_bill (fst (cmd_cancel st 10 user_x)) 10 = None
     /\ ~ In bill (docs (fst (cmd_cancel st 10 user_x)))
     /\ snd (cmd_newbill (fst (cmd_cancel st 10 user_x)) 10 user_y 20)
        = NewBillStarted)
  /\ (items bill <> [] ->
     get_active_bill (fst (cmd_done st 10 15)) 10 = None
     /\ In (set_finalized bill 15) (docs (fst (cmd_done st 10 15)))
     /\ snd (cmd_newbill (fst (cmd_done st 10 15)) 10 user_y 20)
        = NewBillStarted).
Proof.
  exact (new_bill_after_close 10 (@store_with_history float _) (set_id bill_1_48 2)
           user_x user_y 15 20 eq_refl eq_refl).
Defined.

Lemma newbill_once_witness :
  let st : Store float := store_of bill_1_48 in
  let r := cmd_newbill st 11 user_x 5 in
  let b := set_id (new_bill_doc 11 (uid user_x) (display_name user_x) 5)
             (next_doc_id st) in
  snd r = NewBillStarted
  /\ get_active_bill (fst r) 11 = Some b
  /\ docs (fst r) = docs st ++ [b]
  /\ cmd_newbill (fst r) 11 user_y 6 = (fst r, AlreadyActive)
  /\ (forall chat', chat' <> 11%Z -> get_active_bill st chat' = None ->
      snd (cmd_newbill (fst r) chat' user_y 6) = NewBillStarted).
Proof.
  exact (newbill_once 11 (store_of (@bill_1_48 float _)) user_x user_y 5 6 eq_refl).
Defined.


(** ** Joining, picking and unpicking *)

Section PickFacts.
Context {A : Type} `{PyNum A}.
Variable chat : Z.                     (* update.effective_chat.id *)

Lemma set_items_same (b : Bill A) : set_items b (items b) = b.
Proof. destruct b; reflexivity. Qed.

Lemma update_claims_in_ext (l : list (Item A)) (n : Z) f g :
  (forall it, get_item_in l n = Some it -> f (claimed_by it) = g (claimed_by it)) ->
  update_claims_in l n f = update_claims_in l n g.
Proof.
  induction l as [|x l IH]; cbn [update_claims_in get_item_in]; [reflexivity|].
  destruct (id x =? n)%Z; intros Hfg.
  - rewrite (Hfg x eq_refl). reflexivity.
  - rewrite (IH Hfg). reflexivity.
Qed.

Lemma claims_without_twice (u : Z) (cs : list Claim) :
  claims_without u (claims_without u cs) = claims_without u cs.
Proof.
  apply claims_without_absent, claims_has_without_same.
Qed.

(** /join makes the sender a member and touches nothing else: the bill
    written back agrees with the old one on every key but [members], to
    which the sender is appended, and every other document is as it was.
    For a member it writes nothing, and a second /join is always answered
    "already in" without a write. *)
Theorem join_is_idempotent (st : Store A) (user : User) (bill : Bill A) :
  get_active_bill st chat = Some bill ->
  let r1 := cmd_join st chat user in
  let r2 := cmd_join (fst r1) chat user in
  exists b1,
    get_active_bill (fst r1) chat = Some b1
    /\ is_member (uid user) (members b1) = true
    /\ same_but_members bill b1
    /\ (is_member (uid user) (members bill) = true ->
        r1 = (st, AlreadyIn) /\ b1 = bill)
    /\ (is_member (uid user) (members bill) = false ->
        snd r1 = Joined
        /\ fst r1 = save_bill st b1
        /\ members b1 = members bill ++ [(uid user, display_name user)])
    /\ r2 = (fst r1, AlreadyIn).
Proof.
  intros Ha r1 r2. subst r1 r2.
  destruct (get_active_bill_spec chat st bill Ha) as [_ Hopen].
  destruct (is_member (uid user) (members bill)) eqn:Hm.
  - assert (Hr1 : cmd_join st chat user = (st, AlreadyIn)).
    { unfold cmd_join. rewrite Ha, Hm. reflexivity. }
    rewrite Hr1. cbn [fst snd].
    exists bill. split; [exact Ha|]. split; [exact Hm|].
    split; [unfold same_but_members; repeat split|].
    split; [intros _; split; reflexivity|]. split; [discriminate|]. exact Hr1.
  - set (b1 := set_members bill (members bill ++ [(uid user, display_name user)])).
    assert (Hr1 : cmd_join st chat user = (save_bill st b1, Joined)).
    { unfold cmd_join. rewrite Ha, Hm. reflexivity. }
    assert (Ha1 : get_active_bill (save_bill st b1) chat = Some b1).
    { apply (get_active_bill_save chat st bill b1 Ha);
        [reflexivity | reflexivity | exact Hopen]. }
    rewrite Hr1. cbn [fst snd].
    exists b1. split; [exact Ha1|]. split; [apply is_member_app|].
    split; [unfold same_but_members; repeat split|].
    split; [discriminate|].
    split; [intros _; split; [reflexivity | split; reflexivity]|].
    unfold cmd_join. rewrite Ha1.
    cbn [b1 set_members members]. rewrite is_member_app. reflexivity.
Qed.

(** /unpick removes the sender's claim on the item and nobody else's; a
    second /unpick leaves the bill as the first one left it. *)
Theorem unpick_removes_own_claim (st : Store A) (user : User) (n : Z)
  (bill : Bill A) (item : Item A) :
  get_active_bill st chat = Some bill ->
  get_item bill n = Some item ->
  let r1 := cmd_unpick st chat user (Some n) in
  exists b1,
    get_active_bill (fst r1) chat = Some b1
    /\ get_item b1 n
       = Some (set_claimed_by item (claims_without (uid user) (claimed_by item)))
    /\ claims_has (uid user) (claims_without (uid user) (claimed_by item)) = false
    /\ (forall v, v <> uid user ->
          claims_has v (claims_without (uid user) (claimed_by item))
          = claims_has v (claimed_by item))
    /\ members b1 = members bill
    /\ get_active_bill (fst (cmd_unpick (fst r1) chat user (Some n))) chat = Some b1.
Proof.
  intros Ha Hi r1. subst r1.
  destruct (get_active_bill_spec chat st bill Ha) as [_ Hopen].
  set (b1 := update_claims bill n (claims_without (uid user))).
  assert (Hr1 : cmd_unpick st chat user (Some n) = (save_bill st b1, Removed)).
  { unfold cmd_unpick. rewrite Ha, Hi. reflexivity. }
  assert (Ha1 : get_active_bill (save_bill st b1) chat = Some b1).
  { apply (get_active_bill_save chat st bill b1 Ha);
      [reflexivity | reflexivity | exact Hopen]. }
  assert (Hi1 : get_item b1 n
                = Some (set_claimed_by item
                          (claims_without (uid user) (claimed_by item)))).
  { unfold get_item, b1, update_claims. cbn [set_items items].
    apply (get_item_update_claims_in _ _ _ _ Hi). }
  rewrite Hr1. cbn [fst].
  exists b1. split; [exact Ha1|]. split; [exact Hi1|].
  split; [apply claims_has_without_same|].
  split; [intros v Hv; apply (claims_has_without_other _ _ _ Hv)|].
  split; [reflexivity|].
  unfold cmd_unpick. rewrite Ha1, Hi1. cbn [fst].
  assert (Hsame : update_claims b1 n (claims_without (uid user)) = b1).
  { unfold b1, update_claims. cbn [set_items items].
    rewrite update_claims_in_twice.
    rewrite (update_claims_in_ext (items bill) n
               (fun cs => claims_without (uid user) (claims_without (uid user) cs))
               (claims_without (uid user))); [reflexivity|].
    intros it _. apply claims_without_twice. }
  rewrite Hsame.
  apply (get_active_bill_save chat _ b1 b1 Ha1);
      [reflexivity | reflexivity | exact Hopen].
Qed.

(** /pick by a member who has no claim on the item, then /unpick, gives
    back the bill exactly as it was. *)
Theorem pick_then_unpick (st : Store A) (user : User) (n : Z)
  (bill : Bill A) (item : Item A) :
  get_active_bill st chat = Some bill ->
  get_item bill n = Some item ->
  is_member (uid user) (members bill) = true ->
  claims_has (uid user) (claimed_by item) = false ->
  snd (cmd_pick st chat user (Some n)) = Picked
  /\ get_active_bill
       (fst (cmd_unpick (fst (cmd_pick st chat user (Some n))) chat user (Some n)))
       chat
     = Some bill.
Proof.
  intros Ha Hi Hm Hc.
  destruct (get_active_bill_spec chat st bill Ha) as [_ Hopen].
  set (mine := {| user_id := uid user; claim_name := display_name user |}).
  set (b1 := update_claims bill n (fun cs => cs ++ [mine])).
  assert (Hr1 : cmd_pick st chat user (Some n) = (save_bill st b1, Picked)).
  { unfold cmd_pick. rewrite Ha, Hm, Hi, Hc. reflexivity. }
  assert (Ha1 : get_active_bill (save_bill st b1) chat = Some b1).
  { apply (get_active_bill_save chat st bill b1 Ha);
      [reflexivity | reflexivity | exact Hopen]. }
  assert (Hi1 : get_item b1 n
                = Some (set_claimed_by item (claimed_by item ++ [mine]))).
  { unfold get_item, b1, update_claims. cbn [set_items items].
    apply (get_item_update_claims_in _ _ (fun cs => cs ++ [mine]) _ Hi). }
  rewrite Hr1. cbn [fst snd]. split; [reflexivity|].
  unfold cmd_unpick. rewrite Ha1, Hi1. cbn [fst].
  assert (Hback : update_claims b1 n (claims_without (uid user)) = bill).
  { unfold b1, update_claims. cbn [set_items items].
    rewrite update_claims_in_twice.
    rewrite (update_claims_in_same (items bill) n
               (fun cs => claims_without (uid user) (cs ++ [mine])) item Hi).
    - change (set_items bill (items bill) = bill). apply set_items_same.
    - unfold claims_without. rewrite filter_app. cbn [filter mine user_id].
      rewrite Z.eqb_refl. cbn [negb]. rewrite app_nil_r.
      apply claims_without_absent, Hc. }
  rewrite Hback.
  apply (get_active_bill_save chat _ b1 bill Ha1);
      [reflexivity | reflexivity | exact Hopen].
Qed.

(** Somebody who has not joined cannot /pick, but the pick button joins
    them and gives them the claim. *)
Theorem pick_button_joins (st : Store A) (user : User) (n now : Z)
  (bill : Bill A) (item : Item A) :
  get_active_bill st chat = Some bill ->
  get_item bill n = Some item ->
  is_member (uid user) (members bill) = false ->
  claims_has (uid user) (claimed_by item) = false ->
  cmd_pick st chat user (Some n) = (st, NeedJoin)
  /\ exists b',
       get_active_bill (fst (callback_handler st chat user (CbPick n) now)) chat = Some b'
       /\ members b' = members bill ++ [(uid user, display_name user)]
       /\ get_item b' n
          = Some (set_claimed_by item
                    (claimed_by item
                     ++ [{| user_id := uid user; claim_name := display_name user |}])).
Proof.
  intros Ha Hi Hm Hc.
  destruct (get_active_bill_spec chat st bill Ha) as [_ Hopen].
  split.
  - unfold cmd_pick. rewrite Ha, Hm. reflexivity.
  - rewrite (callback_pick_unfold chat st user n now bill item Ha Hi).
    cbv zeta. rewrite Hm, Hc. cbn [negb fst].
    eexists. split.
    + apply (get_active_bill_save chat st bill _ Ha);
        [reflexivity | reflexivity | exact Hopen].
    + split; [reflexivity|].
      unfold get_item, update_claims. cbn [set_items set_members items].
      apply (get_item_update_claims_in (items bill) n
               (fun cs => cs ++ [{| user_id := uid user;
                                    claim_name := display_name user |}])
               item Hi).
Qed.

End PickFacts.

Lemma join_is_idempotent_witness :
  let st : Store float := store_of bill_1_48 in
  let user := {| uid := 3; display_name := "@z" |} in
  let r1 := cmd_join st 10 user in
  let r2 := cmd_join (fst r1) 10 user in
  exists b1,
    get_active_bill (fst r1) 10 = Some b1
    /\ is_member (uid user) (members b1) = true
    /\ same_but_members (@bill_1_48 float _) b1
    /\ (is_member (uid user) (members (@bill_1_48 float _)) = true ->
        r1 = (st, AlreadyIn) /\ b1 = bill_1_48)
    /\ (is_member (uid user) (members (@bill_1_48 float _)) = false ->
        snd r1 = Joined
        /\ fst r1 = save_bill st b1
        /\ members b1
           = members (@bill_1_48 float _) ++ [(uid user, display_name user)])
    /\ r2 = (fst r1, AlreadyIn).
Proof.
  exact (join_is_idempotent 10 (store_of (@bill_1_48 float _))
           {| uid := 3; display_name := "@z" |} bill_1_48 eq_refl).
Defined.

Lemma unpick_removes_own_claim_witness :
  let st : Store float := store_of bill_1_48 in
  let item : Item float :=
    {| id := 2; name := "B"; price := of_Z 48; claimed_by := [claim_of 2 "@y"] |} in
  let r1 := cmd_unpick st 10 user_y (Some 2%Z) in
  exists b1,
    get_active_bill (fst r1) 10 = Some b1
    /\ get_item b1 2
       = Some (set_claimed_by item (claims_without (uid user_y) (claimed_by item)))
    /\ claims_has (uid user_y) (claims_without (uid user_y) (claimed_by item)) = false
    /\ (forall v, v <> uid user_y ->
          claims_has v (claims_without (uid user_y) (claimed_by item))
          = claims_has v (claimed_by item))
    /\ members b1 = members (@bill_1_48 float _)
    /\ get_active_bill (fst (cmd_unpick (fst r1) 10 user_y (Some 2%Z))) 10 = Some b1.
Proof.
  exact (unpick_removes_own_claim 10 (store_of (@bill_1_48 float _)) user_y 2
           bill_1_48
           {| id := 2; name := "B"; price := of_Z 48;
              claimed_by := [claim_of 2 "@y"] |}
           eq_refl eq_refl).
Defined.

Lemma pick_then_unpick_witness :
  let st : Store float := store_of bill_1_48 in
  snd (cmd_pick st 10 user_x (Some 2%Z)) = Picked
  /\ get_active_bill
       (fst (cmd_unpick (fst (cmd_pick st 10 user_x (Some 2%Z))) 10 user_x (Some 2%Z))) 10
     = Some bill_1_48.
Proof.
  exact (pick_then_unpick 10 (store_of (@bill_1_48 float _)) user_x 2 bill_1_48
           {| id := 2; name := "B"; price := of_Z 48;
              claimed_by := [claim_of 2 "@y"] |}
           eq_refl eq_refl eq_refl eq_refl).
Defined.

Lemma pick_button_joins_witness :
  let st : Store float := store_of bill_1_48 in
  let user := {| uid := 3; display_name := "@z" |} in
  let item : Item float :=
    {| id := 2; name := "B"; price := of_Z 48; claimed_by := [claim_of 2 "@y"] |} in
  cmd_pick st 10 user (Some 2%Z) = (st, NeedJoin)
  /\ exists b',
       get_active_bill (fst (callback_handler st 10 user (CbPick 2) 8)) 10 = Some b'
       /\ members b' = members (@bill_1_48 float _) ++ [(uid user, display_name user)]
       /\ get_item b' 2
          = Some (set_claimed_by item
                    (claimed_by item
                     ++ [{| user_id := uid user; claim_name := display_name user |}])).
Proof.
  exact (pick_button_joins 10 (store_of (@bill_1_48 float _))
           {| uid := 3; display_name := "@z" |} 2 8 bill_1_48
           {| id := 2; name := "B"; price := of_Z 48;
              claimed_by := [claim_of 2 "@y"] |}
           eq_refl eq_refl eq_refl eq_refl).
Defined.


(** ** /resetpicks, /setfees, receipts and lookups *)

Lemma claims_removed_count (u : Z) (cs : list Claim) :
  (List.length cs - List.length (claims_without u cs))%nat
  = List.length (filter (fun c => (user_id c =? u)%Z) cs).
Proof.
  assert (Hle : forall l, (List.length (claims_without u l) <= List.length l)%nat).
  { intros l. unfold claims_without.
    induction l as [|c l IH]; cbn [filter List.length]; [lia|].
    destruct (negb (user_id c =? u)%Z); cbn [List.length]; lia. }
  induction cs as [|c cs IH]; [reflexivity|].
  pose proof (Hle cs) as Hl.
  cbn [claims_without filter List.length] in *.
  destruct (user_id c =? u)%Z; cbn [negb List.length]; unfold claims_without in *; lia.
Qed.

Section ResetFacts.
Context {A : Type} `{PyNum A} `{PyParse A}.
Variable chat : Z.                     (* update.effective_chat.id *)

Lemma reset_count_fold (u : Z) (l : list (Item A)) :
  forall n0,
  fold_left (fun n it =>
    (n + (List.length (claimed_by it)
          - List.length (claims_without u (claimed_by it))))%nat) l n0
  = (n0 + claims_of u l)%nat.
Proof.
  induction l as [|it l IH]; intros n0; cbn [fold_left claims_of fold_right].
  - lia.
  - rewrite IH, claims_removed_count. fold (claims_of u l). lia.
Qed.

Lemma claims_of_zero (u : Z) (l : list (Item A)) :
  claims_of u l = 0%nat <->
  existsb (fun it => claims_has u (claimed_by it)) l = false.
Proof.
  induction l as [|it l IH]; cbn [claims_of fold_right existsb]; [tauto|].
  fold (claims_of u l).
  assert (Hone : List.length (filter (fun c => (user_id c =? u)%Z) (claimed_by it))
                 = 0%nat <-> claims_has u (claimed_by it) = false).
  { unfold claims_has. induction (claimed_by it) as [|c cs IHc];
      cbn [filter existsb List.length]; [tauto|].
    destruct (user_id c =? u)%Z; cbn [List.length orb].
    - split; [lia | discriminate].
    - exact IHc. }
  rewrite orb_false_iff, <- IH, <- Hone. lia.
Qed.

Lemma person_total_no_claims (u : Z) (l : list (Item A)) (t : A) :
  existsb (fun it => claims_has u (claimed_by it)) l = false ->
  fold_left (person_total_step u) l (Some t) = Some t.
Proof.
  revert t. induction l as [|it l IH]; intros t; cbn [existsb fold_left];
    [reflexivity|].
  intros Hn. apply orb_false_iff in Hn. destruct Hn as [H1 H2].
  unfold person_total_step at 2. rewrite H1. apply IH, H2.
Qed.

(** /resetpicks removes every claim of the sender and nobody else's; the
    sender then owes nothing, and the reply counts the removed claims
    ("you haven't picked any items" exactly when there were none). *)
Theorem resetpicks_clears_own_claims (st : Store A) (user : User) (bill : Bill A) :
  get_active_bill st chat = Some bill ->
  exists b',
    get_active_bill (fst (cmd_resetpicks st chat user)) chat = Some b'
    /\ has_claims b' (uid user) = false
    /\ person_total b' (uid user) = Some zero
    /\ (forall v, v <> uid user ->
          map (fun it => claims_has v (claimed_by it)) (items b')
          = map (fun it => claims_has v (claimed_by it)) (items bill))
    /\ map (fun it => (id it, name it, price it)) (items b')
       = map (fun it => (id it, name it, price it)) (items bill)
    /\ members b' = members bill
    /\ snd (cmd_resetpicks st chat user)
       = (if (0 <? claims_of (uid user) (items bill))%nat
          then Cleared (claims_of (uid user) (items bill)) else NoPicks)
    /\ (snd (cmd_resetpicks st chat user) = NoPicks
        <-> has_claims bill (uid user) = false).
Proof.
  intros Ha. destruct (get_active_bill_spec chat st bill Ha) as [_ Hopen].
  unfold cmd_resetpicks. rewrite Ha. cbn [fst snd].
  rewrite (reset_count_fold (uid user) (items bill) 0%nat). cbn [Nat.add].
  set (b' := set_items bill
               (map (fun it => set_claimed_by it
                                 (claims_without (uid user) (claimed_by it)))
                    (items bill))).
  assert (Hnone : has_claims b' (uid user) = false).
  { unfold has_claims, b'. cbn [set_items items].
    induction (items bill) as [|it l IH]; cbn [map existsb]; [reflexivity|].
    cbn [set_claimed_by claimed_by]. rewrite claims_has_without_same, IH.
    reflexivity. }
  exists b'. split.
  { apply (get_active_bill_save chat st bill b' Ha);
      [reflexivity | reflexivity | exact Hopen]. }
  split; [exact Hnone|]. split.
  { unfold person_total. apply person_total_no_claims. exact Hnone. }
  split.
  { intros v Hv. unfold b'. cbn [set_items items]. rewrite map_map.
    apply map_ext. intros it. cbn [set_claimed_by claimed_by].
    apply (claims_has_without_other _ _ _ Hv). }
  split.
  { unfold b'. cbn [set_items items]. rewrite map_map. reflexivity. }
  split; [reflexivity|]. split; [reflexivity|].
  unfold has_claims. rewrite <- claims_of_zero.
  destruct (claims_of (uid user) (items bill)) as [|k]; cbn [Nat.ltb Nat.leb].
  - split; reflexivity.
  - split; [discriminate | intros Hk; discriminate Hk].
Qed.

Lemma mode_map_valid (flag m : string) :
  mode_map flag = Some m -> exists fm, fee_mode_of (Some m) = Some fm.
Proof.
  unfold mode_map.
  repeat match goal with
         | |- context [if ?c then _ else _] => destruct c
         end;
    intros Hm; try discriminate; injection Hm as <-; eexists; reflexivity.
Qed.

(** /setfees either writes nothing (usage, current fees, or the mode
    picker) or stores two percentages that are not negative with the
    awaiting flag cleared; the mode it stores is one of the three fee
    modes when a percentage is above zero and is unset otherwise. *)
Theorem setfees_stores_valid_fees (st : Store A) (text : string) (bill : Bill A) :
  get_active_bill st chat = Some bill ->
  (fst (cmd_setfees st chat text) = st
   /\ (snd (cmd_setfees st chat text) = CurrentFees
       \/ snd (cmd_setfees st chat text) = Usage
       \/ snd (cmd_setfees st chat text) = PickMode))
  \/ (snd (cmd_setfees st chat text) = FeesSet
      /\ exists sc vat b',
           get_active_bill (fst (cmd_setfees st chat text)) chat = Some b'
           /\ service_charge_pct b' = Some sc /\ vat_pct b' = Some vat
           /\ ltb sc zero = false /\ ltb vat zero = false
           /\ awaiting_fees b' = false
           /\ items b' = items bill /\ members b' = members bill
           /\ currency b' = currency bill
           /\ (ltb zero sc || ltb zero vat = false -> fees_mode b' = None)
           /\ (ltb zero sc || ltb zero vat = true ->
               exists fm, fee_mode_of (fees_mode b') = Some fm)).
Proof.
  intros Ha. destruct (get_active_bill_spec chat st bill Ha) as [_ Hopen].
  unfold cmd_setfees. rewrite Ha.
  destruct (negb (nonempty text)); [left; split; [reflexivity | left; reflexivity]|].
  destruct (parse_fees (split text)) as [[sc vat]|] eqn:Hp;
    [|left; split; [reflexivity | right; left; reflexivity]].
  assert (Hneg : ltb sc zero = false /\ ltb vat zero = false).
  { unfold parse_fees in Hp.
    destruct (split text) as [|p0 rest]; [discriminate|].
    destruct (of_string p0) as [sc0|]; [|discriminate].
    destruct (match rest with [] => Some zero | p1 :: _ => of_string p1 end)
      as [vat0|]; [|discriminate].
    destruct (ltb sc0 zero || ltb vat0 zero) eqn:Hb; [discriminate|].
    injection Hp as <- <-. apply orb_false_iff in Hb. exact Hb. }
  set (fees_mode0 := match split text with
                     | _ :: _ :: flag :: _ => mode_map (lower flag)
                     | _ => None
                     end).
  assert (Hvalid : forall m, fees_mode0 = Some m ->
                             exists fm, fee_mode_of (Some m) = Some fm).
  { intros m. unfold fees_mode0.
    destruct (split text) as [|a [|b [|flag r]]]; try discriminate.
    apply mode_map_valid. }
  destruct (ltb zero sc || ltb zero vat) eqn:Hsome.
  - destruct fees_mode0 as [m|] eqn:Hm0; cbn [andb].
    + right. split; [reflexivity|]. exists sc, vat. eexists. split.
      { cbn [fst]. apply (get_active_bill_save chat st bill _ Ha);
          [reflexivity | reflexivity | exact Hopen]. }
      cbn [set_fees service_charge_pct vat_pct awaiting_fees items members
             currency fees_mode].
      split; [reflexivity|]. split; [reflexivity|].
      split; [apply Hneg|]. split; [apply Hneg|].
      split; [reflexivity|]. split; [reflexivity|]. split; [reflexivity|].
      split; [reflexivity|]. split.
      * intros Hx. rewrite Hsome in Hx. discriminate Hx.
      * intros _. apply (Hvalid m eq_refl).
    + left. split; [reflexivity | right; right; reflexivity].
  - rewrite andb_false_r.
    right. split; [reflexivity|]. exists sc, vat. eexists. split.
    { cbn [fst]. apply (get_active_bill_save chat st bill _ Ha);
        [reflexivity | reflexivity | exact Hopen]. }
    cbn [set_fees service_charge_pct vat_pct awaiting_fees items members
           currency fees_mode].
    split; [reflexivity|]. split; [reflexivity|].
    split; [apply Hneg|]. split; [apply Hneg|].
    split; [reflexivity|]. split; [reflexivity|]. split; [reflexivity|].
    split; [reflexivity|]. split.
    + intros _. reflexivity.
    + intros Hx. rewrite Hsome in Hx. discriminate Hx.
Qed.

Lemma fold_add_items (extracted : list (string * A)) :
  forall b : Bill A,
  let b' := fold_left (fun b e => fst (add_item_to_bill b (fst e) (snd e)))
              extracted b in
  items b' = items b ++ added_items (next_item_id b) extracted
  /\ next_item_id b' = (next_item_id b + Z.of_nat (List.length extracted))%Z
  /\ members b' = members b
  /\ awaiting_photo b' = awaiting_photo b
  /\ _id b' = _id b /\ is_finalized b' = is_finalized b.
Proof.
  induction extracted as [|e l IH]; intros b; cbn [fold_left added_items List.length].
  - rewrite app_nil_r, Z.add_0_r. repeat split.
  - destruct (IH (fst (add_item_to_bill b (fst e) (snd e))))
      as (Hi & Hn & Hm & Hp & Hd & Hf).
    cbn zeta in *. rewrite Hi, Hn, Hm, Hp, Hd, Hf.
    cbn [add_item_to_bill fst set_next_item_id set_items items next_item_id
           members awaiting_photo _id is_finalized].
    rewrite <- app_assoc. cbn [app].
    repeat split. lia.
Qed.

(** A receipt photo appends the extracted entries in order, as unclaimed
    items with consecutive ids from the bill's next id, moves the next
    id on by their number and clears the awaiting-photo flag. *)
Theorem photo_appends_items (st : Store A) (extracted : list (string * A))
  (bill : Bill A) :
  get_active_bill st chat = Some bill ->
  exists b',
    get_active_bill (fst (photo_handler st chat extracted)) chat = Some b'
    /\ items b' = items bill ++ added_items (next_item_id bill) extracted
    /\ next_item_id b'
       = (next_item_id bill + Z.of_nat (List.length extracted))%Z
    /\ members b' = members bill
    /\ awaiting_photo b' = false.
Proof.
  intros Ha. destruct (get_active_bill_spec chat st bill Ha) as [_ Hopen].
  unfold photo_handler. rewrite Ha.
  set (bill0 := set_awaiting bill false (awaiting_manual_rate bill)
                  (awaiting_fees bill)).
  destruct extracted as [|e l]; cbn [fst].
  - exists bill0. split.
    { apply (get_active_bill_save chat st bill bill0 Ha);
        [reflexivity | reflexivity | exact Hopen]. }
    cbn [added_items List.length]. rewrite app_nil_r, Z.add_0_r.
    repeat split.
  - destruct (fold_add_items (e :: l) bill0) as (Hi & Hn & Hm & Hp & Hd & Hf).
    cbn zeta in *. eexists. split.
    { apply (get_active_bill_save chat st bill _ Ha);
        [exact Hd
        | apply (bill_change_chat_id _ _ (bill_change_adds (e :: l) bill0))
        | rewrite Hf; exact Hopen]. }
    rewrite Hi, Hn, Hm, Hp. repeat split.
Qed.

Lemma get_item_in_app (l : list (Item A)) (x : Item A) (n : Z) :
  get_item_in (l ++ [x]) n
  = match get_item_in l n with
    | Some it => Some it
    | None => if (id x =? n)%Z then Some x else None
    end.
Proof.
  induction l as [|y l IH]; cbn [app get_item_in]; [reflexivity|].
  destruct (id y =? n)%Z; [reflexivity | exact IH].
Qed.

Lemma get_item_in_fresh (l : list (Item A)) (n : Z) :
  forallb (fun it => (id it <? n)%Z) l = true -> get_item_in l n = None.
Proof.
  induction l as [|y l IH]; cbn [forallb get_item_in]; [reflexivity|].
  intros Hb. apply andb_true_iff in Hb. destruct Hb as [Hy Hl].
  apply Z.ltb_lt in Hy. destruct (Z.eqb_spec (id y) n); [lia | apply IH, Hl].
Qed.

(** The item [add_item_to_bill] returns is the one [get_item] finds under
    its id afterwards, and every other lookup answers as before. *)
Theorem added_item_is_found (b : Bill A) (nm : string) (p : A) :
  item_ids_ok b = true ->
  let b' := fst (add_item_to_bill b nm p) in
  let item := snd (add_item_to_bill b nm p) in
  id item = next_item_id b
  /\ get_item b' (id item) = Some item
  /\ (forall n, n <> next_item_id b -> get_item b' n = get_item b n)
  /\ claimed_by item = [].
Proof.
  intros Hok b' item. subst b' item.
  unfold item_ids_ok in Hok. apply andb_true_iff in Hok. destruct Hok as [_ Hb].
  cbn [add_item_to_bill fst snd id claimed_by].
  unfold get_item. cbn [set_next_item_id set_items items].
  split; [reflexivity|]. split; [|split; [|reflexivity]].
  - rewrite get_item_in_app, (get_item_in_fresh _ _ Hb). cbn [id].
    rewrite Z.eqb_refl. reflexivity.
  - intros n Hn. rewrite get_item_in_app. cbn [id].
    destruct (get_item_in (items b) n); [reflexivity|].
    destruct (Z.eqb_spec (next_item_id b) n); [congruence | reflexivity].
Qed.

End ResetFacts.

Lemma resetpicks_clears_own_claims_witness :
  let st : Store float := store_of bill_1_48 in
  let bill : Bill float := bill_1_48 in
  exists b',
    get_active_bill (fst (cmd_resetpicks st 10 user_x)) 10 = Some b'
    /\ has_claims b' (uid user_x) = false
    /\ person_total b' (uid user_x) = Some zero
    /\ (forall v, v <> uid user_x ->
          map (fun it => claims_has v (claimed_by it)) (items b')
          = map (fun it => claims_has v (claimed_by it)) (items bill))
    /\ map (fun it => (id it, name it, price it)) (items b')
       = map (fun it => (id it, name it, price it)) (items bill)
    /\ members b' = members bill
    /\ snd (cmd_resetpicks st 10 user_x)
       = (if (0 <? claims_of (uid user_x) (items bill))%nat
          then Cleared (claims_of (uid user_x) (items bill)) else NoPicks)
    /\ (snd (cmd_resetpicks st 10 user_x) = NoPicks
        <-> has_claims bill (uid user_x) = false).
Proof.
  exact (resetpicks_clears_own_claims 10 (store_of (@bill_1_48 float _)) user_x
           bill_1_48 eq_refl).
Defined.

Lemma setfees_stores_valid_fees_witness :
  let st : Store float := store_of bill_1_48 in
  let bill : Bill float := bill_1_48 in
  let text := "10 7 BOTH_EXC" in
  (fst (cmd_setfees st 10 text) = st
   /\ (snd (cmd_setfees st 10 text) = CurrentFees
       \/ snd (cmd_setfees st 10 text) = Usage
       \/ snd (cmd_setfees st 10 text) = PickMode))
  \/ (snd (cmd_setfees st 10 text) = FeesSet
      /\ exists sc vat b',
           get_active_bill (fst (cmd_setfees st 10 text)) 10 = Some b'
           /\ service_charge_pct b' = Some sc /\ vat_pct b' = Some vat
           /\ ltb sc zero = false /\ ltb vat zero = false
           /\ awaiting_fees b' = false
           /\ items b' = items bill /\ members b' = members bill
           /\ currency b' = currency bill
           /\ (ltb zero sc || ltb zero vat = false -> fees_mode b' = None)
           /\ (ltb zero sc || ltb zero vat = true ->
               exists fm, fee_mode_of (fees_mode b') = Some fm)).
Proof.
  exact (setfees_stores_valid_fees 10 (store_of (@bill_1_48 float _))
           "10 7 BOTH_EXC" bill_1_48 eq_refl).
Defined.

Lemma photo_appends_items_witness :
  let st : Store float := store_of bill_1_48 in
  let bill : Bill float := bill_1_48 in
  let extracted : list (string * float) := [("Tea", of_Z 20); ("Rice", of_Z 30)] in
  exists b',
    get_active_bill (fst (photo_handler st 10 extracted)) 10 = Some b'
    /\ items b' = items bill ++ added_items (next_item_id bill) extracted
    /\ next_item_id b'
       = (next_item_id bill + Z.of_nat (List.length extracted))%Z
    /\ members b' = members bill
    /\ awaiting_photo b' = false.
Proof.
  exact (photo_appends_items 10 (store_of (@bill_1_48 float _))
           [("Tea", of_Z 20); ("Rice", of_Z 30)] bill_1_48 eq_refl).
Defined.

Lemma added_item_is_found_witness :
  let b : Bill float := bill_1_48 in
  let b' := fst (add_item_to_bill b "Tea" (of_Z 20)) in
  let item := snd (add_item_to_bill b "Tea" (of_Z 20)) in
  id item = next_item_id b
  /\ get_item b' (id item) = Some item
  /\ (forall n, n <> next_item_id b -> get_item b' n = get_item b n)
  /\ claimed_by item = [].
Proof.
  exact (added_item_is_found (@bill_1_48 float _) "Tea" (of_Z 20) eq_refl).
Defined.


(** ** The breakdown, mode by mode, in exact arithmetic *)

Lemma Q_pct_nonneg (v : option Q) :
  option_nonneg v = true -> 0 <= or0 v / 100.
Proof.
  intros Hv. apply Qle_shift_div_l; [reflexivity|].
  rewrite Qmult_0_l. apply Q_or0_nonneg, Hv.
Qed.

Lemma Q_truthy_pos (x : Q) : 0 < x -> truthy x = true.
Proof.
  intros Hx. unfold truthy. apply negb_true_iff.
  change (Qeq_bool x 0 = false).
  destruct (Qeq_bool x 0) eqn:E; [|reflexivity].
  apply Qeq_bool_iff in E. rewrite E in Hx. inversion Hx.
Qed.

(** Under [both_inclusive] a member pays their own item subtotal
    [person_total], and the reported service charge and VAT are the parts
    of it that lie above the back-calculated base
    [p / ((1 + sc/100) * (1 + vat/100))]: base, service charge and VAT add
    up to the subtotal again. *)
Theorem inclusive_breakdown_adds_up (b : Bill Q) (u : Z) :
  mode_is (fees_mode b) "both_inclusive" = true ->
  option_nonneg (service_charge_pct b) = true ->
  option_nonneg (vat_pct b) = true ->
  forallb (fun it => Qpos_b (price it)) (items b) = true ->
  exists p sc_amt vat_amt,
    person_total b u = Some p
    /\ person_fee_breakdown b u = Some (p, sc_amt, vat_amt, p)
    /\ let sc := or0 (service_charge_pct b) in
       let vat := or0 (vat_pct b) in
       let base := p / ((1 + sc / 100) * (1 + vat / 100)) in
       sc_amt == base * sc / 100
       /\ vat_amt == (base + sc_amt) * vat / 100
       /\ base + sc_amt + vat_amt == p.
Proof.
  intros Hmode Hsc Hvat Hprices.
  pose proof (Q_pct_nonneg _ Hsc) as Hx. pose proof (Q_pct_nonneg _ Hvat) as Hy.
  pose proof (Q_or0_nonneg _ Hsc) as Hsc0. pose proof (Q_or0_nonneg _ Hvat) as Hvat0.
  destruct (Qeq_bool (bill_total b) 0) eqn:Hz.
  { pose proof (zero_subtotal_no_items b Hprices Hz) as Hit.
    exists 0, 0, 0. split; [unfold person_total; rewrite Hit; reflexivity|].
    split.
    - unfold person_fee_breakdown.
      change (eqb (bill_total b) zero) with (Qeq_bool (bill_total b) 0).
      rewrite Hz. reflexivity.
    - cbv zeta. split; [|split]; unfold Qdiv; ring. }
  destruct (person_total_some b u) as [p Hpt].
  unfold person_fee_breakdown.
  change (eqb (bill_total b) zero) with (Qeq_bool (bill_total b) 0).
  rewrite Hz, Hpt, Hmode.
  set (sc := or0 (service_charge_pct b)) in *.
  set (vat := or0 (vat_pct b)) in *. clearbody sc vat.
  assert (Hd : 0 < (1 + sc / 100) * (1 + vat / 100)).
  { apply Qmult_lt_0_compat; lra. }
  change ((one + sc / hundred) * (one + vat / hundred))%py
    with ((1 + sc / 100) * (1 + vat / 100)).
  rewrite (Q_truthy_pos _ Hd). unfold truediv.
  change (eqb ((1 + sc / 100) * (1 + vat / 100)) zero)
    with (Qeq_bool ((1 + sc / 100) * (1 + vat / 100)) 0).
  destruct (Qeq_bool ((1 + sc / 100) * (1 + vat / 100)) 0) eqn:E.
  { apply Qeq_bool_iff in E. rewrite E in Hd. inversion Hd. }
  exists p. do 2 eexists. split; [reflexivity|]. split; [reflexivity|]. cbv zeta.
  change hundred with 100.
  split; [reflexivity|]. split; [reflexivity|].
  cbn [add mul div PyNum_Q]. field.
  split; intros Hz0; lra.
Qed.

(** Under [sc_exclusive_vat_inclusive] a member pays their own item
    subtotal [person_total] plus the service charge on it, and the
    reported VAT is the part of the payable that lies above
    [payable / (1 + vat/100)]. *)
Theorem sc_exclusive_breakdown_adds_up (b : Bill Q) (u : Z) :
  mode_is (fees_mode b) "both_inclusive" = false ->
  mode_is (fees_mode b) "sc_exclusive_vat_inclusive" = true ->
  option_nonneg (vat_pct b) = true ->
  forallb (fun it => Qpos_b (price it)) (items b) = true ->
  exists p sc_amt vat_amt total,
    person_total b u = Some p
    /\ person_fee_breakdown b u = Some (p, sc_amt, vat_amt, total)
    /\ let sc := or0 (service_charge_pct b) in
       let vat := or0 (vat_pct b) in
       sc_amt == p * sc / 100
       /\ total == p + sc_amt
       /\ (total - vat_amt) * (1 + vat / 100) == total.
Proof.
  intros Hm1 Hm2 Hvat Hprices.
  pose proof (Q_pct_nonneg _ Hvat) as Hy.
  pose proof (Q_or0_nonneg _ Hvat) as Hvat0.
  destruct (Qeq_bool (bill_total b) 0) eqn:Hz.
  { pose proof (zero_subtotal_no_items b Hprices Hz) as Hit.
    exists 0, 0, 0, 0. split; [unfold person_total; rewrite Hit; reflexivity|].
    split.
    - unfold person_fee_breakdown.
      change (eqb (bill_total b) zero) with (Qeq_bool (bill_total b) 0).
      rewrite Hz. reflexivity.
    - cbv zeta. split; [|split]; unfold Qdiv; ring. }
  destruct (person_total_some b u) as [p Hpt].
  unfold person_fee_breakdown.
  change (eqb (bill_total b) zero) with (Qeq_bool (bill_total b) 0).
  rewrite Hz, Hpt, Hm1, Hm2.
  set (sc := or0 (service_charge_pct b)) in *.
  set (vat := or0 (vat_pct b)) in *. clearbody sc vat.
  assert (Hnz : ~ 1 + vat / 100 == 0) by (intros Hz0; lra).
  destruct (truthy vat) eqn:Ht.
  - unfold truediv.
    change (eqb (one + vat / hundred)%py zero) with (Qeq_bool (1 + vat / 100) 0).
    destruct (Qeq_bool (1 + vat / 100) 0) eqn:E.
    { apply Qeq_bool_iff in E. contradiction. }
    exists p. do 3 eexists. split; [reflexivity|]. split; [reflexivity|]. cbv zeta.
    split; [reflexivity|]. cbn [add sub mul div one hundred of_Z PyNum_Q].
    split; [field|field; intros Hz0; lra].
  - assert (Hv0 : vat == 0).
    { unfold truthy in Ht. apply negb_false_iff in Ht.
      apply Qeq_bool_iff in Ht. exact Ht. }
    exists p. do 3 eexists. split; [reflexivity|]. split; [reflexivity|]. cbv zeta.
    split; [reflexivity|]. cbn [add sub mul div one hundred of_Z PyNum_Q].
    split; [field|]. rewrite Hv0. field.
Qed.

(** A member without any claim owes nothing, in every fee mode. *)
Theorem no_claims_nothing_owed (b : Bill Q) (u : Z) :
  has_claims b u = false ->
  option_nonneg (vat_pct b) = true ->
  person_total b u = Some 0
  /\ exists total, payable b u = Some total /\ total == 0.
Proof.
  intros Hno Hvat. split.
  { change (person_total b u = Some zero). unfold person_total.
    apply (person_total_no_claims u (items b) zero Hno). }
  destruct (payable_Q b u Hvat) as (t & Ht & Hz & Hnz).
  exists t. split; [exact Ht|].
  destruct (Qeq_bool (bill_total b) 0); [apply Hz; reflexivity|].
  rewrite (Hnz eq_refl), (no_claims_no_sum u (items b) Hno). ring.
Qed.

Lemma inclusive_breakdown_adds_up_witness :
  let b : Bill Q := bill_1000 "both_inclusive" in
  exists p sc_amt vat_amt,
    person_total b 1 = Some p
    /\ person_fee_breakdown b 1 = Some (p, sc_amt, vat_amt, p)
    /\ let sc := or0 (service_charge_pct b) in
       let vat := or0 (vat_pct b) in
       let base := p / ((1 + sc / 100) * (1 + vat / 100)) in
       sc_amt == base * sc / 100
       /\ vat_amt == (base + sc_amt) * vat / 100
       /\ base + sc_amt + vat_amt == p.
Proof.
  exact (inclusive_breakdown_adds_up (bill_1000 "both_inclusive") 1
           eq_refl eq_refl eq_refl eq_refl).
Defined.

Lemma sc_exclusive_breakdown_adds_up_witness :
  let b : Bill Q := bill_1000 "sc_exclusive_vat_inclusive" in
  exists p sc_amt vat_amt total,
    person_total b 1 = Some p
    /\ person_fee_breakdown b 1 = Some (p, sc_amt, vat_amt, total)
    /\ let sc := or0 (service_charge_pct b) in
       let vat := or0 (vat_pct b) in
       sc_amt == p * sc / 100
       /\ total == p + sc_amt
       /\ (total - vat_amt) * (1 + vat / 100) == total.
Proof.
  exact (sc_exclusive_breakdown_adds_up (bill_1000 "sc_exclusive_vat_inclusive") 1
           eq_refl eq_refl eq_refl eq_refl).
Defined.

Lemma no_claims_nothing_owed_witness :
  person_total (@bill_one_unclaimed Q _) 2 = Some 0
  /\ exists total, payable (@bill_one_unclaimed Q _) 2 = Some total /\ total == 0.
Proof.
  exact (no_claims_nothing_owed bill_one_unclaimed 2 eq_refl eq_refl).
Defined.

(** ** Display names and the /assign lookup *)

(** A display name is never empty: it is ["@"] and the username when there
    is one, and ["User#"] and the id when the user has no name at all. *)
Theorem display_name_never_empty (user : TgUser) :
  nonempty (get_display_name user) = true
  /\ (forall h, tg_username user = Some h -> nonempty h = true ->
        get_display_name user = String "@"%char h)
  /\ (str_truthy (tg_username user) = false ->
      str_truthy (tg_first_name user) = false ->
      str_truthy (tg_last_name user) = false ->
      get_display_name user = String.append "User#" (str_of_Z (tg_id user))).
Proof.
  unfold get_display_name. split; [|split].
  - destruct (str_truthy (tg_username user)); [reflexivity|].
    match goal with
    | |- context [if nonempty ?s then _ else _] => destruct (nonempty s) eqn:E
    end; [exact E | reflexivity].
  - intros h Hh Hne. rewrite Hh. cbn [str_truthy]. rewrite Hne. reflexivity.
  - intros H1 H2 H3. rewrite H1, H2, H3. reflexivity.
Qed.

Lemma ascii_lower_twice (c : ascii) : ascii_lower (ascii_lower c) = ascii_lower c.
Proof.
  destruct c as [[] [] [] [] [] [] [] []]; reflexivity.
Qed.

Lemma lower_cons (c : ascii) (s : string) :
  lower (String c s) = String (ascii_lower c) (lower s).
Proof. reflexivity. Qed.

Lemma lower_twice (s : string) : lower (lower s) = lower s.
Proof.
  induction s as [|c s IH]; [reflexivity|].
  rewrite !lower_cons, ascii_lower_twice, IH. reflexivity.
Qed.

(** The /assign lookup ignores the case of the handle.  It finds a member
    exactly when some member's display name is ["@"] and the handle, up to
    case, and what it finds is such a member. *)
Theorem assign_lookup_ignores_case (ms : list (Z * string)) (t : string) :
  find_member_by_name ms t = find_member_by_name ms (lower t)
  /\ (forall u nm, find_member_by_name ms t = Some (u, nm) ->
       In (u, nm) ms /\ lower nm = String "@"%char (lower t))
  /\ (forall u nm, In (u, nm) ms -> lower nm = String "@"%char (lower t) ->
       exists u' nm', find_member_by_name ms t = Some (u', nm')).
Proof.
  split; [|split].
  - induction ms as [|[u0 n0] ms IH]; cbn [find_member_by_name]; [reflexivity|].
    rewrite !lower_cons, lower_twice, IH. reflexivity.
  - induction ms as [|[u0 n0] ms IH]; cbn [find_member_by_name]; [discriminate|].
    intros u nm.
    destruct (String.eqb (lower n0) (lower (String "@"%char t))) eqn:E.
    + intros Hf. injection Hf as <- <-. split; [left; reflexivity|].
      apply String.eqb_eq in E. rewrite E. reflexivity.
    + intros Hf. destruct (IH u nm Hf) as [Hin Hl]. split; [right; exact Hin | exact Hl].
  - induction ms as [|[u0 n0] ms IH]; cbn [find_member_by_name]; intros u nm Hin Hl;
      [destruct Hin|].
    destruct (String.eqb (lower n0) (lower (String "@"%char t))) eqn:E;
      [eexists; eexists; reflexivity|].
    destruct Hin as [Heq | Hin]; [|apply (IH u nm Hin Hl)].
    injection Heq as -> ->. rewrite lower_cons in E.
    change (ascii_lower "@"%char) with "@"%char in E.
    rewrite Hl, String.eqb_refl in E. discriminate E.
Qed.

Section AssignFacts.
Context {A : Type} `{PyNum A}.
Variable chat : Z.                     (* update.effective_chat.id *)

(** /assign by the creator gives the looked-up member one claim on the
    item, under the member's stored name, and changes nothing else; the
    same /assign again is refused and writes nothing. *)
Theorem assign_adds_claim_once (st : Store A) (user : User) (n : Z) (t : string)
  (bill : Bill A) (item : Item A) (tu : Z) (tn : string) :
  get_active_bill st chat = Some bill ->
  uid user = creator_id bill ->
  get_item bill n = Some item ->
  find_member_by_name (members bill) t = Some (tu, tn) ->
  claims_has tu (claimed_by item) = false ->
  let r1 := cmd_assign st chat user (Some (n, t)) in
  snd r1 = Assigned
  /\ exists b1,
       get_active_bill (fst r1) chat = Some b1
       /\ get_item b1 n
          = Some (set_claimed_by item
                    (claimed_by item ++ [{| user_id := tu; claim_name := tn |}]))
       /\ members b1 = members bill
       /\ is_member tu (members bill) = true
       /\ cmd_assign (fst r1) chat user (Some (n, t)) = (fst r1, AlreadyHas).
Proof.
  intros Ha Hc Hi Hf Hno r1. subst r1.
  destruct (get_active_bill_spec chat st bill Ha) as [_ Hopen].
  set (mine := {| user_id := tu; claim_name := tn |}).
  set (b1 := update_claims bill n (fun cs => cs ++ [mine])).
  assert (Hr1 : cmd_assign st chat user (Some (n, t)) = (save_bill st b1, Assigned)).
  { unfold cmd_assign. rewrite Ha, Hc, Z.eqb_refl, Hi, Hf, Hno. reflexivity. }
  assert (Ha1 : get_active_bill (save_bill st b1) chat = Some b1).
  { apply (get_active_bill_save chat st bill b1 Ha);
      [reflexivity | reflexivity | exact Hopen]. }
  assert (Hi1 : get_item b1 n
                = Some (set_claimed_by item (claimed_by item ++ [mine]))).
  { unfold get_item, b1, update_claims. cbn [set_items items].
    apply (get_item_update_claims_in (items bill) n (fun cs => cs ++ [mine]) item Hi). }
  rewrite Hr1. cbn [fst snd]. split; [reflexivity|].
  exists b1. split; [exact Ha1|]. split; [exact Hi1|]. split; [reflexivity|].
  split; [apply (find_member_by_name_member _ _ _ _ Hf)|].
  unfold cmd_assign. rewrite Ha1.
  change (creator_id b1) with (creator_id bill).
  change (members b1) with (members bill).
  rewrite Hc, Z.eqb_refl, Hi1, Hf. cbn [negb set_claimed_by claimed_by].
  rewrite claims_has_app. cbn [claims_has existsb mine user_id].
  rewrite Z.eqb_refl, orb_true_r. reflexivity.
Qed.

End AssignFacts.

Lemma display_name_never_empty_witness :
  get_display_name {| tg_id := 7; tg_username := None;
                      tg_first_name := Some "  "; tg_last_name := None |}
  = "User#7"
  /\ get_display_name {| tg_id := 7; tg_username := Some "ann";
                         tg_first_name := Some "Ann"; tg_last_name := None |}
     = "@ann".
Proof.
  split.
  - reflexivity.
  - exact (proj1 (proj2 (display_name_never_empty
                   {| tg_id := 7; tg_username := Some "ann";
                      tg_first_name := Some "Ann"; tg_last_name := None |}))
             "ann" eq_refl eq_refl).
Defined.

Lemma assign_lookup_ignores_case_witness :
  find_member_by_name [(1%Z, "@x"); (2%Z, "@Yo")] "YO" = Some (2%Z, "@Yo")
  /\ find_member_by_name [(1%Z, "@x"); (2%Z, "@Yo")] "YO"
     = find_member_by_name [(1%Z, "@x"); (2%Z, "@Yo")] (lower "YO").
Proof.
  split.
  - reflexivity.
  - exact (proj1 (assign_lookup_ignores_case [(1%Z, "@x"); (2%Z, "@Yo")] "YO")).
Defined.

Lemma assign_adds_claim_once_witness :
  let r1 := cmd_assign (store_of (@bill_one_unclaimed float _)) 10 user_x
              (Some (2%Z, "Y")) in
  snd r1 = Assigned
  /\ exists b1,
       get_active_bill (fst r1) 10 = Some b1
       /\ get_item b1 2
          = Some {| id := 2; name := "B"; price := of_Z 200;
                    claimed_by := [claim_of 2 "@y"] |}
       /\ members b1 = members (@bill_one_unclaimed float _)
       /\ is_member 2 (members (@bill_one_unclaimed float _)) = true
       /\ cmd_assign (fst r1) 10 user_x (Some (2%Z, "Y")) = (fst r1, AlreadyHas).
Proof.
  exact (assign_adds_claim_once 10 (store_of (@bill_one_unclaimed float _)) user_x
           2 "Y" bill_one_unclaimed
           {| id := 2; name := "B"; price := of_Z 200; claimed_by := [] |}
           2 "@y" eq_refl eq_refl eq_refl eq_refl eq_refl).
Defined.

(** ** Sound bills stay sound *)



Section SoundKept.
Context {A : Type} `{PyNum A} `{PyParse A}.
Variable chat : Z.                     (* update.effective_chat.id *)










Hypothesis zero_leb_zero : leb (@zero A _) zero = true.




End SoundKept.

(** In exact arithmetic a sound bill is a well-formed one. *)
Lemma sound_bill_well_formed (b : Bill Q) : sound_bill b = well_formed b.
Proof.
  unfold sound_bill, money_ok, well_formed, claims_distinct, claimants_joined,
    member_keys_distinct.
  change (forallb (fun it => ltb zero (price it)) (items b))
    with (forallb (fun it => Qpos_b (price it)) (items b)).
  change (pct_ok (service_charge_pct b)) with (option_nonneg (service_charge_pct b)).
  change (pct_ok (vat_pct b)) with (option_nonneg (vat_pct b)).
  destruct (forallb (fun it => Qpos_b (price it)) (items b)),
    (forallb (fun it => nodupb (map user_id (claimed_by it))) (items b)),
    (forallb (fun it => forallb (fun c => is_member (user_id c) (members b))
                          (claimed_by it)) (items b)),
    (nodupb (map fst (members b))),
    (option_nonneg (service_charge_pct b)),
    (option_nonneg (vat_pct b)); reflexivity.
Qed.


(** ** Entering the exchange rate by hand *)

Section RateFacts.
Context {A : Type} `{PyNum A} `{PyParse A}.
Variable chat : Z.                     (* update.effective_chat.id *)

(** While the bill waits for a rate, a text message either is refused and
    changes nothing, or is a number above zero that becomes the rate; the
    bill then stops waiting, so later text is ignored. *)
Theorem manual_rate_set_once (st : Store A) (bill : Bill A) (text : string) :
  get_active_bill st chat = Some bill ->
  awaiting_manual_rate bill = true ->
  text_handler st chat text = (st, InvalidNumber)
  \/ (snd (text_handler st chat text) = RateSet
      /\ exists rate b1,
           of_string (remove_commas (strip text)) = Some rate
           /\ leb rate zero = false
           /\ get_active_bill (fst (text_handler st chat text)) chat = Some b1
           /\ jpy_to_thb_rate b1 = Some rate
           /\ awaiting_manual_rate b1 = false
           /\ items b1 = items bill /\ members b1 = members bill
           /\ currency b1 = currency bill
           /\ forall text',
                text_handler (fst (text_handler st chat text)) chat text'
                = (fst (text_handler st chat text), Silent)).
Proof.
  intros Ha Haw. destruct (get_active_bill_spec chat st bill Ha) as [_ Hopen].
  destruct (of_string (remove_commas (strip text))) as [rate|] eqn:Hp.
  2: { left. unfold text_handler. rewrite Ha, Haw, Hp. reflexivity. }
  destruct (leb rate zero) eqn:Hle.
  { left. unfold text_handler. rewrite Ha, Haw, Hp, Hle. reflexivity. }
  right.
  set (b1 := set_awaiting (set_rate bill (Some rate))
               (awaiting_photo bill) false (awaiting_fees bill)).
  assert (Hr : text_handler st chat text = (save_bill st b1, RateSet)).
  { unfold text_handler. rewrite Ha, Haw, Hp, Hle. reflexivity. }
  assert (Ha1 : get_active_bill (save_bill st b1) chat = Some b1).
  { apply (get_active_bill_save chat st bill b1 Ha);
      [reflexivity | reflexivity | exact Hopen]. }
  rewrite Hr. cbn [fst snd]. split; [reflexivity|].
  exists rate, b1.
  split; [reflexivity|]. split; [exact Hle|]. split; [exact Ha1|].
  split; [reflexivity|]. split; [reflexivity|]. split; [reflexivity|].
  split; [reflexivity|]. split; [reflexivity|].
  intros text'. unfold text_handler. rewrite Ha1. reflexivity.
Qed.

End RateFacts.

Lemma manual_rate_set_once_witness :
  let st1 := fst (callback_handler (store_of (@bill_one_unclaimed float _)) 10 user_x
                    CbRateManual 5) in
  text_handler st1 10 " 0.25 " = (st1, InvalidNumber)
  \/ (snd (text_handler st1 10 " 0.25 ") = RateSet
      /\ exists rate b1,
           of_string (remove_commas (strip " 0.25 ")) = Some rate
           /\ leb rate zero = false
           /\ get_active_bill (fst (text_handler st1 10 " 0.25 ")) 10 = Some b1
           /\ jpy_to_thb_rate b1 = Some rate
           /\ awaiting_manual_rate b1 = false
           /\ items b1 = items (@bill_one_unclaimed float _)
           /\ members b1 = members (@bill_one_unclaimed float _)
           /\ currency b1 = currency (@bill_one_unclaimed float _)
           /\ forall text',
                text_handler (fst (text_handler st1 10 " 0.25 ")) 10 text'
                = (fst (text_handler st1 10 " 0.25 "), Silent)).
Proof.
  exact (@manual_rate_set_once float _ _ 10
           (fst (callback_handler (store_of (@bill_one_unclaimed float _)) 10 user_x
                   CbRateManual 5))
           (set_awaiting (@bill_one_unclaimed float _) false true false)
           " 0.25 " eq_refl eq_refl).
Defined.
